(** * The Easy handle adapter of src/Easy.cc, as a shallow embedding

    The adapter sits between three collaborators that are not part of
    Easy.cc: the host runtime (V8 values, callables, exceptions), the
    transfer engine (libcurl: option store, info retrieval, linked lists)
    and the option tables of Curl.cc.  Each collaborator is a record of
    functions the adapter is run against; the adapter's own state (the
    fields of class Easy) is threaded explicitly. *)

From stdpp Require Import base gmap list strings.
From Stdlib Require Import ZArith Ascii String DecimalString DecimalN DecimalPos.

Set Warnings "-register-all".

Local Open Scope string_scope.
Local Open Scope list_scope.
Local Open Scope Z_scope.

(** ** Host values *)

(** A C [double] and a JS Number: either the double holding the integer
    [z], or any other double, kept by its bit pattern and never
    interpreted. *)
Inductive double :=
| DInt (z : Z)
| DBits (bits : Z).

Inductive JSValue :=
| JSUndefined
| JSNull
| JSBool (b : bool)
| JSNumber (d : double)
| JSString (s : string)
| JSDate (ms : double)
| JSBuffer (bytes : list Z)
| JSArray (elts : list JSValue)
| JSObject (props : list (string * JSValue))
| JSFunction (f : nat)
| JSError (msg : string)
| JSTypeError (msg : string).

Definition JSInt (z : Z) : JSValue := JSNumber (DInt z).

Definition INT32_MIN : Z := - 2 ^ 31.
Definition INT32_MAX : Z := 2 ^ 31 - 1.
Definition SIZE_MAX : Z := 2 ^ 64 - 1.
Definition INT64_MIN : Z := - 2 ^ 63.
Definition INT64_MAX : Z := 2 ^ 63 - 1.

Definition IsUndefined (v : JSValue) : bool :=
  match v with JSUndefined => true | _ => false end.
Definition IsNull (v : JSValue) : bool :=
  match v with JSNull => true | _ => false end.
Definition IsString (v : JSValue) : bool :=
  match v with JSString _ => true | _ => false end.
Definition IsArray (v : JSValue) : bool :=
  match v with JSArray _ => true | _ => false end.
Definition IsFalse (v : JSValue) : bool :=
  match v with JSBool false => true | _ => false end.
Definition IsFunction (v : JSValue) : bool :=
  match v with JSFunction _ => true | _ => false end.
Definition IsObject (v : JSValue) : bool :=
  match v with
  | JSObject _ | JSArray _ | JSFunction _ | JSDate _ | JSBuffer _
  | JSError _ | JSTypeError _ => true
  | _ => false
  end.
Definition IsInt32 (v : JSValue) : bool :=
  match v with
  | JSNumber (DInt z) => (INT32_MIN <=? z) && (z <=? INT32_MAX)
  | _ => false
  end.


(** Outcome of running a host callable: a value, or a raised error. *)
Inductive Completion :=
| Returns (v : JSValue)
| Throws (e : JSValue).

(** The host runtime: how a stored callable behaves when invoked (it
    returns or raises; it does not call back into the adapter), and the
    ECMAScript conversions of values that are not already of the target
    type. The conversions are given as functions: they are those of a
    host in which no conversion raises, which is every host as far as
    primitive values go ([isPrimitive]); what the adapter does when the
    conversion of an object raises is outside this model. *)
Record Host := {
  invoke : nat -> list JSValue -> Completion;
  js_ToString : JSValue -> string;
  js_ToInt32 : JSValue -> Z;
  js_ToUint32 : JSValue -> Z;
  js_ToNumber : JSValue -> double;
  (* the C conversion to an integer of a double that holds no integer *)
  trunc_bits : Z -> Z;
  (* the C conversion to a 64-bit integer of a double that holds an
     integer beyond the 64-bit range, which C++ leaves undefined *)
  cast_overflow : Z -> Z
}.

(** [Nan::Utf8String]: the characters of a string, the ToString
    conversion of anything else. *)
Definition Utf8String (H : Host) (v : JSValue) : string :=
  match v with JSString s => s | _ => js_ToString H v end.

(** [Nan::To<int32_t>] and [Nan::To<uint32_t>]: a 32-bit value in any
    case. *)
Definition To_int32 (H : Host) (v : JSValue) : Z :=
  match v with
  | JSNumber (DInt z) => (z + 2 ^ 31) mod 2 ^ 32 - 2 ^ 31
  | _ => (js_ToInt32 H v + 2 ^ 31) mod 2 ^ 32 - 2 ^ 31
  end.
Definition To_uint32 (H : Host) (v : JSValue) : Z :=
  match v with
  | JSNumber (DInt z) => z mod 2 ^ 32
  | _ => js_ToUint32 H v mod 2 ^ 32
  end.
Definition To_double (H : Host) (v : JSValue) : double :=
  match v with JSNumber d => d | _ => js_ToNumber H v end.

(** [Nan::Get(obj, key)] on the own properties of an object. *)
Fixpoint GetProp (props : list (string * JSValue)) (key : string) : JSValue :=
  match props with
  | [] => JSUndefined
  | (k, v) :: rest => if String.eqb k key then v else GetProp rest key
  end.

(** A char* handed to C code is read up to its first NUL. *)
Fixpoint c_str (s : string) : string :=
  match s with
  | EmptyString => EmptyString
  | String c rest =>
      if Ascii.eqb c Ascii.zero then EmptyString else String c (c_str rest)
  end.

(** [::toupper] and [std::isdigit] in the C locale. *)
Definition toupper (c : ascii) : ascii :=
  let n := nat_of_ascii c in
  if (97 <=? n)%nat && (n <=? 122)%nat then ascii_of_nat (n - 32) else c.

Fixpoint string_toupper (s : string) : string :=
  match s with
  | EmptyString => EmptyString
  | String c rest => String (toupper c) (string_toupper rest)
  end.

Definition isdigit (c : ascii) : bool :=
  let n := nat_of_ascii c in (48 <=? n)%nat && (n <=? 57)%nat.

(** [errCode.erase(std::remove_if(..., !isdigit), end)] *)
Fixpoint keep_digits (s : string) : string :=
  match s with
  | EmptyString => EmptyString
  | String c rest =>
      if isdigit c then String c (keep_digits rest) else keep_digits rest
  end.

(** ** Engine constants (libcurl's curl.h) *)

Definition CURLE_OK : Z := 0.
Definition CURLE_BAD_FUNCTION_ARGUMENT : Z := 43.
Definition CURLE_UNKNOWN_OPTION : Z := 48.

Definition CURL_CHUNK_BGN_FUNC_FAIL : Z := 1.
Definition CURL_CHUNK_END_FUNC_FAIL : Z := 1.
Definition CURL_FNMATCHFUNC_FAIL : Z := 2.
Definition CURL_TRAILERFUNC_OK : Z := 0.
Definition CURL_TRAILERFUNC_ABORT : Z := 1.
Definition CURL_FORMADD_OK : Z := 0.

Definition CURLOPT_WRITEDATA : Z := 10001.
Definition CURLOPT_READDATA : Z := 10009.
Definition CURLOPT_WRITEFUNCTION : Z := 20011.
Definition CURLOPT_POSTFIELDS : Z := 10015.
Definition CURLOPT_HTTPPOST : Z := 10024.
Definition CURLOPT_PROGRESSFUNCTION : Z := 20056.
Definition CURLOPT_PROGRESSDATA : Z := 10057.
Definition CURLOPT_XFERINFODATA : Z := CURLOPT_PROGRESSDATA.
Definition CURLOPT_DEBUGFUNCTION : Z := 20094.
Definition CURLOPT_DEBUGDATA : Z := 10095.
Definition CURLOPT_PRIVATE : Z := 10103.
Definition CURLOPT_SEEKDATA : Z := 10168.
Definition CURLOPT_CHUNK_BGN_FUNCTION : Z := 20198.
Definition CURLOPT_CHUNK_END_FUNCTION : Z := 20199.
Definition CURLOPT_FNMATCH_FUNCTION : Z := 20200.
Definition CURLOPT_CHUNK_DATA : Z := 10201.
Definition CURLOPT_FNMATCH_DATA : Z := 10202.
Definition CURLOPT_XFERINFOFUNCTION : Z := 20219.
Definition CURLOPT_TRAILERFUNCTION : Z := 20283.
Definition CURLOPT_TRAILERDATA : Z := 10284.
Definition CURLOPT_INFILESIZE_LARGE : Z := 30115.
Definition CURLOPT_RESUME_FROM_LARGE : Z := 30116.
Definition CURLOPT_MAXFILESIZE_LARGE : Z := 30117.
Definition CURLOPT_POSTFIELDSIZE_LARGE : Z := 30120.
Definition CURLOPT_MAX_SEND_SPEED_LARGE : Z := 30145.
Definition CURLOPT_MAX_RECV_SPEED_LARGE : Z := 30146.

(** ** The engine handle *)

(** The trampolines whose addresses are installed as engine callbacks. *)
Inductive FnPtr :=
| Fn_WriteFunction
| Fn_CbChunkBgn
| Fn_CbChunkEnd
| Fn_CbDebug
| Fn_CbFnMatch
| Fn_CbProgress
| Fn_CbTrailer
| Fn_CbXferinfo.

(** One field of a multipart body, as CurlHttpPost::AddFile and
    CurlHttpPost::AddField receive it. *)
Inductive FormField :=
| FileField (name file : string) (contentType fileName : option string)
| ContentField (name contents : string).

(** The third argument of [curl_easy_setopt]. Pointers to linked lists
    are addresses in [Memory] (0 is NULL). *)
Inductive OptValue :=
| VNull
| VLong (z : Z)
| VOffT (z : Z)
| VStr (s : string)
| VSlist (p : nat)
| VPost (fields : list FormField)
| VFunc (f : FnPtr)
| VObj.

(** What the adapter can observe of a CURL handle: the options the
    engine accepted, and every [curl_easy_setopt] call made on it. *)
Record CURL := {
  options : gmap Z OptValue;
  setopt_log : list (Z * OptValue)
}.

(** Engine memory holding the linked lists built by [curl_slist_append]:
    address of the head node to the data of the nodes, in order. *)
Record Memory := {
  slists : gmap nat (list string);
  brk : nat
}.

(** The engine's answers: status codes of option-set and form-add calls,
    and the status code and out-parameter of info retrieval. *)
Record Engine := {
  setopt_code : CURL -> Z -> OptValue -> Z;
  formadd_code : list FormField -> FormField -> Z;
  getinfo_string : CURL -> Z -> Z * option string;
  getinfo_double : CURL -> Z -> Z * double;
  getinfo_off_t : CURL -> Z -> Z * Z;
  getinfo_long : CURL -> Z -> Z * Z;
  getinfo_socket : CURL -> Z -> Z * Z;
  getinfo_slist : CURL -> Z -> Z * list string
}.

Definition curl_easy_setopt (E : Engine) (h : CURL) (opt : Z) (v : OptValue)
  : CURL * Z :=
  let code := setopt_code E h opt v in
  ({| options := if code =? CURLE_OK then <[opt := v]> (options h) else options h;
      setopt_log := setopt_log h ++ [(opt, v)] |},
   code).

(** [curl_slist_append]: a copy of the text becomes the last node; a
    list starts at a fresh address. Running out of memory is not
    modelled. *)
Definition curl_slist_append (m : Memory) (p : nat) (s : string) : Memory * nat :=
  match p with
  | O => let q := S (brk m) in
         ({| slists := <[q := [s]]> (slists m); brk := q |}, q)
  | _ => ({| slists := alter (fun l => l ++ [s]) p (slists m); brk := brk m |}, p)
  end.

Definition curl_slist_free_all (m : Memory) (p : nat) : Memory :=
  {| slists := delete p (slists m); brk := brk m |}.

(** The nodes reachable from a list pointer. *)
Definition slist_nodes (m : Memory) (p : nat) : list string :=
  match p with
  | O => []
  | _ => default [] (slists m !! p)
  end.

(** ** class Easy *)

(** Modelled from the spec: class CurlHttpPost (CurlHttpPost.h is not
    part of the sources) is the structured multipart body; a field is
    added to it when the engine's form-add call answers CURL_FORMADD_OK. *)
Record CurlHttpPost := { first : list FormField }.

Definition CurlHttpPost_Add (E : Engine) (p : CurlHttpPost) (f : FormField)
  : CurlHttpPost * Z :=
  let code := formadd_code E (first p) f in
  (if code =? CURL_FORMADD_OK then {| first := first p ++ [f] |} else p, code).

(** class Easy::ToFree *)
Record ToFree := {
  str : list string;
  slist : list nat;
  post : list CurlHttpPost
}.

(** ToFree::~ToFree frees every registered list. *)
Definition ToFree_destroy (m : Memory) (t : ToFree) : Memory :=
  foldl curl_slist_free_all m (slist t).

Record Easy := {
  ch : CURL;
  isOpen : bool;
  isInsideMultiHandle : bool;
  isCbProgressAlreadyAborted : bool;
  callbackError : option JSValue;
  callbacks : gmap Z nat;
  toFree : ToFree;
  readDataFileDescriptor : Z;
  (* the onData property of the JS object wrapping this handle *)
  onData : JSValue
}.

Definition set_ch (o : Easy) (h : CURL) : Easy :=
  {| ch := h; isOpen := isOpen o; isInsideMultiHandle := isInsideMultiHandle o;
     isCbProgressAlreadyAborted := isCbProgressAlreadyAborted o;
     callbackError := callbackError o; callbacks := callbacks o;
     toFree := toFree o; readDataFileDescriptor := readDataFileDescriptor o;
     onData := onData o |}.

Definition set_isCbProgressAlreadyAborted (o : Easy) (b : bool) : Easy :=
  {| ch := ch o; isOpen := isOpen o; isInsideMultiHandle := isInsideMultiHandle o;
     isCbProgressAlreadyAborted := b;
     callbackError := callbackError o; callbacks := callbacks o;
     toFree := toFree o; readDataFileDescriptor := readDataFileDescriptor o;
     onData := onData o |}.

Definition set_callbackError (o : Easy) (e : option JSValue) : Easy :=
  {| ch := ch o; isOpen := isOpen o; isInsideMultiHandle := isInsideMultiHandle o;
     isCbProgressAlreadyAborted := isCbProgressAlreadyAborted o;
     callbackError := e; callbacks := callbacks o;
     toFree := toFree o; readDataFileDescriptor := readDataFileDescriptor o;
     onData := onData o |}.

Definition set_callbacks (o : Easy) (c : gmap Z nat) : Easy :=
  {| ch := ch o; isOpen := isOpen o; isInsideMultiHandle := isInsideMultiHandle o;
     isCbProgressAlreadyAborted := isCbProgressAlreadyAborted o;
     callbackError := callbackError o; callbacks := c;
     toFree := toFree o; readDataFileDescriptor := readDataFileDescriptor o;
     onData := onData o |}.

Definition set_toFree (o : Easy) (t : ToFree) : Easy :=
  {| ch := ch o; isOpen := isOpen o; isInsideMultiHandle := isInsideMultiHandle o;
     isCbProgressAlreadyAborted := isCbProgressAlreadyAborted o;
     callbackError := callbackError o; callbacks := callbacks o;
     toFree := t; readDataFileDescriptor := readDataFileDescriptor o;
     onData := onData o |}.

Definition set_readDataFileDescriptor (o : Easy) (fd : Z) : Easy :=
  {| ch := ch o; isOpen := isOpen o; isInsideMultiHandle := isInsideMultiHandle o;
     isCbProgressAlreadyAborted := isCbProgressAlreadyAborted o;
     callbackError := callbackError o; callbacks := callbacks o;
     toFree := toFree o; readDataFileDescriptor := fd;
     onData := onData o |}.

(** A failed [assert], or a fatal error of the host runtime
    ([ToLocalChecked] on an empty handle, an uncaught C++ exception):
    the process stops. *)
Inductive outcome (A : Type) :=
| Done (a : A)
| Aborted (why : string).
Arguments Done {A} a.
Arguments Aborted {A} why.

(** What one trampoline invocation leaves behind: the value handed back
    to the engine, the handle, the exception left pending for the host
    caller of the triggering operation (if any), and the host callables
    that were run, with their arguments. *)
Record CbResult := {
  cb_ret : Z;
  cb_obj : Easy;
  cb_thrown : option JSValue;
  cb_calls : list (nat * list JSValue)
}.

(** ** Callback trampolines *)

(** The block every trampoline runs on a host error [e]:
    [if (obj->isInsideMultiHandle) obj->callbackError.Reset(e);
     else tryCatch.ReThrow();]
    The second component is the exception left pending for the host
    caller. *)
Definition routeError (obj : Easy) (e : JSValue) : Easy * option JSValue :=
  if isInsideMultiHandle obj
  then (set_callbackError obj (Some e), None)
  else (obj, Some e).

(** The body shared by CbChunkBgn, CbChunkEnd, CbDebug and CbFnMatch:
    look the callable up, run it under a TryCatch, route a raised error
    or a non-integer return value, and hand the engine either the
    converted return value or [fail], the value [returnValue] starts
    with. *)
Definition int32Trampoline (H : Host) (obj : Easy) (slot : Z) (what : string)
    (fail : Z) (argv : list JSValue) : outcome CbResult :=
  match callbacks obj !! slot with
  | None => Aborted (what +:+ " callback not set.")
  | Some f =>
      let returnValue := fail in
      match invoke H f argv with
      | Throws e =>
          let '(obj', thrown) := routeError obj e in
          Done {| cb_ret := returnValue; cb_obj := obj';
                  cb_thrown := thrown; cb_calls := [(f, argv)] |}
      | Returns v =>
          if negb (IsInt32 v) then
            let typeError :=
              JSTypeError ("Return value from the " +:+ what +:+
                           " callback must be an integer.") in
            let '(obj', thrown) := routeError obj typeError in
            Done {| cb_ret := returnValue; cb_obj := obj';
                    cb_thrown := thrown; cb_calls := [(f, argv)] |}
          else
            Done {| cb_ret := To_int32 H v; cb_obj := obj;
                    cb_thrown := None; cb_calls := [(f, argv)] |}
      end
  end.

Record curl_fileinfo := {
  fi_filename : string;
  fi_filetype : Z;
  fi_time : Z;
  fi_perm : Z;
  fi_uid : Z;
  fi_gid : Z;
  fi_size : Z;
  fi_hardlinks : Z;
  fi_strings_time : option string;
  fi_strings_perm : option string;
  fi_strings_user : option string;
  fi_strings_group : option string;
  fi_strings_target : option string
}.

Definition NullValueIfInvalidString (str : option string) : JSValue :=
  match str with
  | Some (String c rest) => JSString (String c rest)
  | _ => JSNull
  end.

Definition CreateV8ObjectFromCurlFileInfo (fileInfo : curl_fileinfo) : JSValue :=
  let time :=
    if fi_time fileInfo =? 0 then JSNull
    else JSDate (DInt (fi_time fileInfo * 1000)) in
  let strings := JSObject
    [("time", NullValueIfInvalidString (fi_strings_time fileInfo));
     ("perm", NullValueIfInvalidString (fi_strings_perm fileInfo));
     ("user", NullValueIfInvalidString (fi_strings_user fileInfo));
     ("group", NullValueIfInvalidString (fi_strings_group fileInfo));
     ("target", NullValueIfInvalidString (fi_strings_target fileInfo))] in
  JSObject
    [("fileName", JSString (fi_filename fileInfo));
     ("fileType", JSInt (fi_filetype fileInfo));
     ("time", time);
     ("perm", JSInt (fi_perm fileInfo));
     ("uid", JSInt (fi_uid fileInfo));
     ("gid", JSInt (fi_gid fileInfo));
     ("size", JSInt (fi_size fileInfo));
     ("hardLinks", JSInt (fi_hardlinks fileInfo));
     ("strings", strings)].

Definition CbChunkBgn (H : Host) (obj : Easy) (transferInfo : curl_fileinfo)
    (remains : Z) : outcome CbResult :=
  int32Trampoline H obj CURLOPT_CHUNK_BGN_FUNCTION "CHUNK_BGN"
    CURL_CHUNK_BGN_FUNC_FAIL
    [CreateV8ObjectFromCurlFileInfo transferInfo; JSInt remains].

Definition CbChunkEnd (H : Host) (obj : Easy) : outcome CbResult :=
  int32Trampoline H obj CURLOPT_CHUNK_END_FUNCTION "CHUNK_END"
    CURL_CHUNK_END_FUNC_FAIL [].

Definition CbDebug (H : Host) (obj : Easy) (type : Z) (data : list Z)
    (size : Z) : outcome CbResult :=
  int32Trampoline H obj CURLOPT_DEBUGFUNCTION "DEBUG" 1
    [JSInt type; JSBuffer (take (Z.to_nat (size mod 2 ^ 32)) data)].

Definition CbFnMatch (H : Host) (obj : Easy) (pattern string : string)
  : outcome CbResult :=
  int32Trampoline H obj CURLOPT_FNMATCH_FUNCTION "FNMATCH"
    CURL_FNMATCHFUNC_FAIL [JSString pattern; JSString string].

(** The body shared by CbProgress and CbXferinfo. [returnValue] starts
    at 1; the check of the abort flag comes before the look-up of the
    callable; a raised error returns early, before the flag is
    updated. *)
Definition progressTrampoline (H : Host) (obj : Easy) (slot : Z)
    (what : string) (argv : list JSValue) : outcome CbResult :=
  let returnValue := 1 in
  if isCbProgressAlreadyAborted obj then
    Done {| cb_ret := returnValue; cb_obj := obj;
            cb_thrown := None; cb_calls := [] |}
  else
    match callbacks obj !! slot with
    | None => Aborted (what +:+ " callback not set.")
    | Some f =>
        match invoke H f argv with
        | Throws e =>
            let '(obj', thrown) := routeError obj e in
            Done {| cb_ret := returnValue; cb_obj := obj';
                    cb_thrown := thrown; cb_calls := [(f, argv)] |}
        | Returns v =>
            let '(returnValue, obj', thrown) :=
              if negb (IsInt32 v) then
                let typeError :=
                  JSTypeError ("Return value from the " +:+ what +:+
                               " callback must be an integer.") in
                let '(obj', thrown) := routeError obj typeError in
                (returnValue, obj', thrown)
              else (To_int32 H v, obj, None) in
            let obj'' :=
              if negb (returnValue =? 0)
              then set_isCbProgressAlreadyAborted obj' true
              else obj' in
            Done {| cb_ret := returnValue; cb_obj := obj'';
                    cb_thrown := thrown; cb_calls := [(f, argv)] |}
        end
    end.

Definition CbProgress (H : Host) (obj : Easy) (dltotal dlnow ultotal ulnow : double)
  : outcome CbResult :=
  progressTrampoline H obj CURLOPT_PROGRESSFUNCTION "PROGRESS"
    [JSNumber dltotal; JSNumber dlnow; JSNumber ultotal; JSNumber ulnow].

(** The curl_off_t arguments are cast to double; the rounding of values
    beyond 2^53 is not modelled. *)
Definition CbXferinfo (H : Host) (obj : Easy) (dltotal dlnow ultotal ulnow : Z)
  : outcome CbResult :=
  progressTrampoline H obj CURLOPT_XFERINFOFUNCTION "XFERINFO"
    [JSInt dltotal; JSInt dlnow; JSInt ultotal; JSInt ulnow].

(** The loop of CbTrailer over the returned array: every string is
    appended to the header list; the first element that is not a string
    stops the loop (the nodes appended so far stay); the flag tells
    whether the loop ran to its end. *)
Fixpoint trailerRows (H : Host) (m : Memory) (headerList : nat)
    (rows : list JSValue) : Memory * nat * bool :=
  match rows with
  | [] => (m, headerList, true)
  | headerStrValue :: rest =>
      if negb (IsString headerStrValue) then (m, headerList, false)
      else
        let '(m', p) :=
          curl_slist_append m headerList (c_str (Utf8String H headerStrValue)) in
        trailerRows H m' p rest
  end.

Record TrailerResult := {
  tr_cb : CbResult;
  tr_mem : Memory;
  tr_headerList : nat
}.

Definition returnValueCbTypeError : JSValue :=
  JSTypeError
    "Return value from the Trailer callback must be an array of strings or false.".

Definition CbTrailer (H : Host) (obj : Easy) (m : Memory) (headerList : nat)
  : outcome TrailerResult :=
  match callbacks obj !! CURLOPT_TRAILERFUNCTION with
  | None => Aborted "Trailer callback not set."
  | Some f =>
      let fin ret obj' thrown m' p :=
        Done {| tr_cb := {| cb_ret := ret; cb_obj := obj';
                            cb_thrown := thrown; cb_calls := [(f, [])] |};
                tr_mem := m'; tr_headerList := p |} in
      match invoke H f [] with
      | Throws e =>
          let '(obj', thrown) := routeError obj e in
          fin CURL_TRAILERFUNC_ABORT obj' thrown m headerList
      | Returns v =>
          let isInvalid := negb (IsArray v) && negb (IsFalse v) in
          if isInvalid then
            let '(obj', thrown) := routeError obj returnValueCbTypeError in
            fin CURL_TRAILERFUNC_ABORT obj' thrown m headerList
          else if IsFalse v then
            fin CURL_TRAILERFUNC_ABORT obj None m headerList
          else
            let rows := match v with JSArray l => l | _ => [] end in
            let '(m', p, ok) := trailerRows H m headerList rows in
            if ok then fin CURL_TRAILERFUNC_OK obj None m' p
            else
              let '(obj', thrown) := routeError obj returnValueCbTypeError in
              fin CURL_TRAILERFUNC_ABORT obj' thrown m' p
      end
  end.

(** OnData has no TryCatch of its own: an error raised by the host
    callable stays pending and [retVal] is empty. An onData property that
    is neither undefined nor a function cannot be called: null has no
    object to call (ToLocalChecked stops the process), anything else
    makes the call itself raise a type error. *)
Definition OnData (H : Host) (obj : Easy) (data : list Z) (size nmemb : Z)
  : outcome CbResult :=
  let n := (size * nmemb) mod 2 ^ 64 in
  let it := callbacks obj !! CURLOPT_WRITEFUNCTION in
  let cbOnData := onData obj in
  let hasWriteCallback := bool_decide (is_Some it) in
  if negb hasWriteCallback && IsUndefined cbOnData then
    Done {| cb_ret := n; cb_obj := obj; cb_thrown := None; cb_calls := [] |}
  else
    let argv := [JSBuffer (take (Z.to_nat (n mod 2 ^ 32)) data);
                 JSInt (size mod 2 ^ 32); JSInt (nmemb mod 2 ^ 32)] in
    let finish (calls : list (nat * list JSValue)) (retVal : Completion) :=
      match retVal with
      | Throws e =>
          Done {| cb_ret := 0; cb_obj := obj;
                  cb_thrown := Some e; cb_calls := calls |}
      | Returns v =>
          Done {| cb_ret := To_uint32 H v; cb_obj := obj;
                  cb_thrown := None; cb_calls := calls |}
      end in
    match it with
    | Some f => finish [(f, argv)] (invoke H f argv)
    | None =>
        match cbOnData with
        | JSFunction g => finish [(g, argv)] (invoke H g argv)
        | JSUndefined | JSNull => Aborted "ToLocalChecked: empty handle"
        | _ => finish [] (Throws (JSTypeError "onData is not a function"))
        end
    end.

(** [Easy::WriteFunction], the engine-side entry point of OnData. *)
Definition WriteFunction (H : Host) (obj : Easy) (ptr : list Z) (size nmemb : Z)
  : outcome CbResult :=
  OnData H obj ptr size nmemb.

(** ** Option and info tables *)

(** The tables of Curl.cc are not part of the sources. Each field is
    [IsInsideCurlConstantStruct(table, v)] for one table: the numeric id
    of the constant that [v] names in that table, 0 when it names none. *)
Record Tables := {
  curlOptionNotImplemented : JSValue -> Z;
  curlOptionSpecific : JSValue -> Z;
  curlOptionLinkedList : JSValue -> Z;
  curlOptionString : JSValue -> Z;
  curlOptionInteger : JSValue -> Z;
  curlOptionFunction : JSValue -> Z;
  curlInfoNotImplemented : JSValue -> Z;
  curlInfoString : JSValue -> Z;
  curlInfoDouble : JSValue -> Z;
  curlInfoInteger : JSValue -> Z;
  curlInfoSocket : JSValue -> Z;
  curlInfoLinkedList : JSValue -> Z
}.

(** The keys of a multipart field descriptor (enum of CurlHttpPost). *)
Inductive HttpPostId :=
| HP_NAME
| HP_FILE
| HP_CONTENTS
| HP_TYPE
| HP_FILENAME.

(** Modelled from the spec: the table curlOptionHttpPost of Curl.cc,
    with the five keys a descriptor may carry (name, file, contents,
    type, filename), as the error message of SetOpt lists them. *)
Definition curlOptionHttpPost : list (string * HttpPostId) :=
  [("NAME", HP_NAME); ("FILE", HP_FILE); ("CONTENTS", HP_CONTENTS);
   ("TYPE", HP_TYPE); ("FILENAME", HP_FILENAME)].

(** The look-up loop of SetOpt over curlOptionHttpPost; [None] is the
    initial [httpPostId = -1]. *)
Definition findHttpPostId (optionName : string) : option HttpPostId :=
  foldl (fun httpPostId it =>
           if String.eqb (fst it) optionName then Some (snd it) else httpPostId)
        None curlOptionHttpPost.

(** ** setOpt *)

(** What a method leaves in [info.GetReturnValue()], or the error it
    threw to the host. *)
Inductive Return :=
| RetValue (v : JSValue)
| RetThrow (e : JSValue).

Record SetOptResult := {
  so_ret : Return;
  so_obj : Easy;
  so_mem : Memory
}.

Definition dquote : string := String (ascii_of_nat 34) EmptyString.

(** Decimal text of an array index. *)
Definition index_name (i : nat) : string :=
  NilZero.string_of_uint (Nat.to_uint i).

(** [Nan::GetPropertyNames] with the values [Nan::Get] finds under the
    names: the own enumerable properties. *)
Definition ownProps (v : JSValue) : list (string * JSValue) :=
  match v with
  | JSObject props => props
  | JSArray elts => imap (fun i x => (index_name i, x)) elts
  | JSBuffer bytes => imap (fun i b => (index_name i, JSInt b)) bytes
  | _ => []
  end.

Record PostFlags := {
  hasFile : bool;
  hasContentType : bool;
  hasContent : bool;
  hasName : bool;
  hasNewFileName : bool
}.

Definition noPostFlags : PostFlags :=
  {| hasFile := false; hasContentType := false; hasContent := false;
     hasName := false; hasNewFileName := false |}.

Definition markPostFlag (fl : PostFlags) (id : HttpPostId) : PostFlags :=
  match id with
  | HP_FILE =>
      {| hasFile := true; hasContentType := hasContentType fl;
         hasContent := hasContent fl; hasName := hasName fl;
         hasNewFileName := hasNewFileName fl |}
  | HP_TYPE =>
      {| hasFile := hasFile fl; hasContentType := true;
         hasContent := hasContent fl; hasName := hasName fl;
         hasNewFileName := hasNewFileName fl |}
  | HP_CONTENTS =>
      {| hasFile := hasFile fl; hasContentType := hasContentType fl;
         hasContent := true; hasName := hasName fl;
         hasNewFileName := hasNewFileName fl |}
  | HP_NAME =>
      {| hasFile := hasFile fl; hasContentType := hasContentType fl;
         hasContent := hasContent fl; hasName := true;
         hasNewFileName := hasNewFileName fl |}
  | HP_FILENAME =>
      {| hasFile := hasFile fl; hasContentType := hasContentType fl;
         hasContent := hasContent fl; hasName := hasName fl;
         hasNewFileName := true |}
  end.

(** The loop over the property names of one descriptor: the first
    unknown name or non-string value throws. [optionName] is built from
    the char* of the property name, so it ends at the first NUL of the
    name, and is then upper-cased. *)
Fixpoint checkPostProps (props : list (string * JSValue)) (fl : PostFlags)
  : JSValue + PostFlags :=
  match props with
  | [] => inr fl
  | (postDataKey, postDataValue) :: rest =>
      let optionName := string_toupper (c_str postDataKey) in
      match findHttpPostId optionName with
      | None =>
          inl (JSError ("Invalid property given: " +:+ dquote +:+ optionName +:+
                        dquote +:+ ". Valid properties are file, type, contents, name " +:+
                        "and filename."))
      | Some id =>
          if negb (IsString postDataValue) then
            inl (JSTypeError ("Value for property " +:+ dquote +:+ optionName +:+
                              dquote +:+ " must be a string."))
          else checkPostProps rest (markPostFlag fl id)
      end
  end.

(** The body of the loop over the rows of the HTTPPOST value, for one
    row that is an object: check its properties, then add the field. *)
Definition addPostRow (H : Host) (E : Engine) (httpPost : CurlHttpPost)
    (postData : list (string * JSValue)) : JSValue + CurlHttpPost :=
  match checkPostProps postData noPostFlags with
  | inl err => inl err
  | inr fl =>
      if negb (hasName fl) then
        inl (JSError ("Missing field " +:+ dquote +:+ "name" +:+ dquote +:+ "."))
      else
        let fieldName := Utf8String H (GetProp postData "name") in
        let added :=
          if hasFile fl then
            let file := c_str (Utf8String H (GetProp postData "file")) in
            if hasContentType fl then
              let contentType := c_str (Utf8String H (GetProp postData "type")) in
              if hasNewFileName fl then
                let fileName := c_str (Utf8String H (GetProp postData "filename")) in
                Some (CurlHttpPost_Add E httpPost
                        (FileField fieldName file (Some contentType) (Some fileName)))
              else
                Some (CurlHttpPost_Add E httpPost
                        (FileField fieldName file (Some contentType) None))
            else
              Some (CurlHttpPost_Add E httpPost (FileField fieldName file None None))
          else if hasContent fl then
            let fieldValue := Utf8String H (GetProp postData "contents") in
            Some (CurlHttpPost_Add E httpPost (ContentField fieldName fieldValue))
          else None in
        match added with
        | None =>
            inl (JSError ("Missing field " +:+ dquote +:+ "contents" +:+ dquote +:+ "."))
        | Some (httpPost', curlFormCode) =>
            if negb (curlFormCode =? CURL_FORMADD_OK) then
              inl (JSError ("Error while adding field " +:+ dquote +:+ c_str fieldName +:+
                            dquote +:+ " to post data."))
            else inr httpPost'
        end
  end.

Definition invalidArrayMsg : string :=
  "HTTPPOST option value should be an Array of Objects.".

Fixpoint addPostRows (H : Host) (E : Engine) (httpPost : CurlHttpPost)
    (rows : list JSValue) : JSValue + CurlHttpPost :=
  match rows with
  | [] => inr httpPost
  | obj :: rest =>
      if negb (IsObject obj) then inl (JSTypeError invalidArrayMsg)
      else
        match addPostRow H E httpPost (ownProps obj) with
        | inl err => inl err
        | inr httpPost' => addPostRows H E httpPost' rest
        end
  end.

Definition push_post (t : ToFree) (p : CurlHttpPost) : ToFree :=
  {| str := str t; slist := slist t; post := post t ++ [p] |}.
Definition push_slist (t : ToFree) (p : nat) : ToFree :=
  {| str := str t; slist := slist t ++ [p]; post := post t |}.
Definition push_str (t : ToFree) (s : string) : ToFree :=
  {| str := str t ++ [s]; slist := slist t; post := post t |}.

Definition returnCode (obj : Easy) (m : Memory) (setOptRetCode : Z) : SetOptResult :=
  {| so_ret := RetValue (JSInt setOptRetCode); so_obj := obj; so_mem := m |}.
Definition throwFrom (obj : Easy) (m : Memory) (e : JSValue) : SetOptResult :=
  {| so_ret := RetThrow e; so_obj := obj; so_mem := m |}.

(** [optionId == CURLOPT_HTTPPOST] *)
Definition SetOpt_httppost (H : Host) (E : Engine) (obj : Easy) (m : Memory)
    (value : JSValue) : SetOptResult :=
  match value with
  | JSArray rows =>
      match addPostRows H E {| first := [] |} rows with
      | inl err => throwFrom obj m err
      | inr httpPost =>
          let '(h, setOptRetCode) :=
            curl_easy_setopt E (ch obj) CURLOPT_HTTPPOST (VPost (first httpPost)) in
          let obj := set_ch obj h in
          let obj :=
            if setOptRetCode =? CURLE_OK
            then set_toFree obj (push_post (toFree obj) httpPost)
            else obj in
          returnCode obj m setOptRetCode
      end
  | _ => throwFrom obj m (JSTypeError invalidArrayMsg)
  end.

(** The loop converting an array to a curl_slist. *)
Fixpoint buildSlist (H : Host) (m : Memory) (slist : nat) (array : list JSValue)
  : Memory * nat :=
  match array with
  | [] => (m, slist)
  | x :: rest =>
      let '(m', p) := curl_slist_append m slist (c_str (Utf8String H x)) in
      buildSlist H m' p rest
  end.

(** The other linked-list options. *)
Definition SetOpt_slist (H : Host) (E : Engine) (obj : Easy) (m : Memory)
    (optionId : Z) (value : JSValue) : SetOptResult :=
  if IsNull value then
    let '(h, setOptRetCode) := curl_easy_setopt E (ch obj) optionId VNull in
    returnCode (set_ch obj h) m setOptRetCode
  else
    match value with
    | JSArray array =>
        let '(m', slist) := buildSlist H m 0%nat array in
        let '(h, setOptRetCode) :=
          curl_easy_setopt E (ch obj) optionId (VSlist slist) in
        let obj := set_ch obj h in
        let obj :=
          if setOptRetCode =? CURLE_OK
          then set_toFree obj (push_slist (toFree obj) slist)
          else obj in
        returnCode obj m' setOptRetCode
    | _ => throwFrom obj m (JSTypeError "Option value must be an Array.")
    end.

(** The string options. The type check comes first; [isNull] is read
    after it. *)
Definition SetOpt_string (H : Host) (E : Engine) (obj : Easy) (m : Memory)
    (optionId : Z) (setOptRetCode : Z) (value : JSValue) : SetOptResult :=
  if negb (IsString value) then
    throwFrom obj m (JSTypeError "Option value must be a string.")
  else
    let isNull := IsNull value in
    let '(h, setOptRetCode) :=
      if isNull then curl_easy_setopt E (ch obj) optionId VNull
      else (ch obj, setOptRetCode) in
    let valueStr := Utf8String H value in
    if optionId =? CURLOPT_POSTFIELDS then
      let valueChar := valueStr +:+ String Ascii.zero EmptyString in
      let '(h, setOptRetCode) := curl_easy_setopt E h optionId (VStr valueChar) in
      let obj := set_ch obj h in
      let obj :=
        if setOptRetCode =? CURLE_OK
        then set_toFree obj (push_str (toFree obj) valueChar)
        else obj in
      returnCode obj m setOptRetCode
    else
      let '(h, setOptRetCode) :=
        curl_easy_setopt E h optionId (VStr (c_str valueStr)) in
      returnCode (set_ch obj h) m setOptRetCode.

(** The value of a 64-bit signed integer with the bits of [z]. *)
Definition wrap64 (z : Z) : Z := (z + 2 ^ 63) mod 2 ^ 64 - 2 ^ 63.

(** [static_cast<curl_off_t>(double)]: the integer the double holds when
    it fits 64 bits; otherwise what the host's C conversion gives, a
    64-bit value in any case. *)
Definition off_t_of_double (H : Host) (d : double) : Z :=
  match d with
  | DInt z =>
      if (INT64_MIN <=? z) && (z <=? INT64_MAX) then z
      else wrap64 (cast_overflow H z)
  | DBits b => wrap64 (trunc_bits H b)
  end.

Definition isLargeOption (optionId : Z) : bool :=
  (optionId =? CURLOPT_INFILESIZE_LARGE) || (optionId =? CURLOPT_MAXFILESIZE_LARGE)
  || (optionId =? CURLOPT_MAX_RECV_SPEED_LARGE)
  || (optionId =? CURLOPT_MAX_SEND_SPEED_LARGE)
  || (optionId =? CURLOPT_POSTFIELDSIZE_LARGE)
  || (optionId =? CURLOPT_RESUME_FROM_LARGE).

(** The integer options. *)
Definition SetOpt_integer (H : Host) (E : Engine) (obj : Easy) (m : Memory)
    (optionId : Z) (value : JSValue) : SetOptResult :=
  if isLargeOption optionId then
    let '(h, setOptRetCode) :=
      curl_easy_setopt E (ch obj) optionId
        (VOffT (off_t_of_double H (To_double H value))) in
    returnCode (set_ch obj h) m setOptRetCode
  else if optionId =? CURLOPT_READDATA then
    returnCode (set_readDataFileDescriptor obj (To_int32 H value)) m CURLE_OK
  else
    let '(h, setOptRetCode) :=
      curl_easy_setopt E (ch obj) optionId (VLong (To_int32 H value)) in
    returnCode (set_ch obj h) m setOptRetCode.

(** The two chunk callbacks, which share CURLOPT_CHUNK_DATA: [slot] is
    the one being set, [other] its sibling. *)
Definition SetOpt_chunk (E : Engine) (obj : Easy) (m : Memory)
    (slot other : Z) (fn : FnPtr) (value : JSValue) : SetOptResult :=
  match value with
  | JSFunction f =>
      let obj := set_callbacks obj (<[slot := f]> (callbacks obj)) in
      let '(h, _) := curl_easy_setopt E (ch obj) CURLOPT_CHUNK_DATA VObj in
      let '(h, setOptRetCode) := curl_easy_setopt E h slot (VFunc fn) in
      returnCode (set_ch obj h) m setOptRetCode
  | _ =>
      let h :=
        if bool_decide (is_Some (callbacks obj !! other)) then ch obj
        else fst (curl_easy_setopt E (ch obj) CURLOPT_CHUNK_DATA VNull) in
      let obj := set_callbacks obj (delete slot (callbacks obj)) in
      let '(h, setOptRetCode) := curl_easy_setopt E h slot VNull in
      returnCode (set_ch obj h) m setOptRetCode
  end.

(** DEBUGFUNCTION, FNMATCH_FUNCTION, PROGRESSFUNCTION, TRAILERFUNCTION and
    XFERINFOFUNCTION: each with a user-data option of its own. *)
Definition SetOpt_callback (E : Engine) (obj : Easy) (m : Memory)
    (slot data : Z) (fn : FnPtr) (value : JSValue) : SetOptResult :=
  match value with
  | JSFunction f =>
      let obj := set_callbacks obj (<[slot := f]> (callbacks obj)) in
      let '(h, _) := curl_easy_setopt E (ch obj) data VObj in
      let '(h, setOptRetCode) := curl_easy_setopt E h slot (VFunc fn) in
      returnCode (set_ch obj h) m setOptRetCode
  | _ =>
      let obj := set_callbacks obj (delete slot (callbacks obj)) in
      let '(h, _) := curl_easy_setopt E (ch obj) data VNull in
      let '(h, setOptRetCode) := curl_easy_setopt E h slot VNull in
      returnCode (set_ch obj h) m setOptRetCode
  end.

(** WRITEFUNCTION stays within the adapter: the engine keeps
    Easy::WriteFunction. *)
Definition SetOpt_write (obj : Easy) (m : Memory) (value : JSValue) : SetOptResult :=
  let setOptRetCode := CURLE_OK in
  let cbs := delete CURLOPT_WRITEFUNCTION (callbacks obj) in
  let cbs :=
    match value with
    | JSFunction f => <[CURLOPT_WRITEFUNCTION := f]> cbs
    | _ => cbs
    end in
  returnCode (set_callbacks obj cbs) m setOptRetCode.

(** The callback options: the type check, then the switch. An id of the
    table without a case of its own leaves [setOptRetCode] as it was. *)
Definition SetOpt_function (E : Engine) (obj : Easy) (m : Memory)
    (optionId : Z) (setOptRetCode : Z) (value : JSValue) : SetOptResult :=
  let isNull := IsNull value in
  if negb (IsFunction value) && negb isNull then
    throwFrom obj m (JSTypeError "Option value must be a null or a function.")
  else if optionId =? CURLOPT_CHUNK_BGN_FUNCTION then
    SetOpt_chunk E obj m CURLOPT_CHUNK_BGN_FUNCTION CURLOPT_CHUNK_END_FUNCTION
      Fn_CbChunkBgn value
  else if optionId =? CURLOPT_CHUNK_END_FUNCTION then
    SetOpt_chunk E obj m CURLOPT_CHUNK_END_FUNCTION CURLOPT_CHUNK_BGN_FUNCTION
      Fn_CbChunkEnd value
  else if optionId =? CURLOPT_DEBUGFUNCTION then
    SetOpt_callback E obj m CURLOPT_DEBUGFUNCTION CURLOPT_DEBUGDATA Fn_CbDebug value
  else if optionId =? CURLOPT_FNMATCH_FUNCTION then
    SetOpt_callback E obj m CURLOPT_FNMATCH_FUNCTION CURLOPT_FNMATCH_DATA
      Fn_CbFnMatch value
  else if optionId =? CURLOPT_PROGRESSFUNCTION then
    SetOpt_callback E obj m CURLOPT_PROGRESSFUNCTION CURLOPT_PROGRESSDATA
      Fn_CbProgress value
  else if optionId =? CURLOPT_TRAILERFUNCTION then
    SetOpt_callback E obj m CURLOPT_TRAILERFUNCTION CURLOPT_TRAILERDATA
      Fn_CbTrailer value
  else if optionId =? CURLOPT_XFERINFOFUNCTION then
    SetOpt_callback E obj m CURLOPT_XFERINFOFUNCTION CURLOPT_XFERINFODATA
      Fn_CbXferinfo value
  else if optionId =? CURLOPT_WRITEFUNCTION then
    SetOpt_write obj m value
  else returnCode obj m setOptRetCode.

(** NAN_METHOD(Easy::SetOpt), with every version guard of the source
    taken as satisfied. *)
Definition SetOpt (H : Host) (E : Engine) (T : Tables) (obj : Easy) (m : Memory)
    (opt value : JSValue) : SetOptResult :=
  if negb (isOpen obj) then throwFrom obj m (JSError "Curl handle is closed.")
  else
    let setOptRetCode := CURLE_UNKNOWN_OPTION in
    if negb (curlOptionNotImplemented T opt =? 0) then
      throwFrom obj m
        (JSError ("Unsupported option, probably because it's too complex to implement " +:+
                  "using javascript or unecessary when using javascript (like the _DATA " +:+
                  "options)."))
    else if negb (curlOptionSpecific T opt =? 0) then
      returnCode obj m setOptRetCode
    else if negb (curlOptionLinkedList T opt =? 0) then
      let optionId := curlOptionLinkedList T opt in
      if optionId =? CURLOPT_HTTPPOST
      then SetOpt_httppost H E obj m value
      else SetOpt_slist H E obj m optionId value
    else if negb (curlOptionString T opt =? 0) then
      SetOpt_string H E obj m (curlOptionString T opt) setOptRetCode value
    else if negb (curlOptionInteger T opt =? 0) then
      SetOpt_integer H E obj m (curlOptionInteger T opt) value
    else if negb (curlOptionFunction T opt =? 0) then
      SetOpt_function E obj m (curlOptionFunction T opt) setOptRetCode value
    else returnCode obj m setOptRetCode.

(** ** getInfo *)

Definition CURLINFO_OFF_T : Z := 6291456.
Definition CURLINFO_SIZE_UPLOAD_T : Z := CURLINFO_OFF_T + 7.
Definition CURLINFO_SIZE_DOWNLOAD_T : Z := CURLINFO_OFF_T + 8.
Definition CURLINFO_SPEED_DOWNLOAD_T : Z := CURLINFO_OFF_T + 9.
Definition CURLINFO_SPEED_UPLOAD_T : Z := CURLINFO_OFF_T + 10.
Definition CURLINFO_FILETIME_T : Z := CURLINFO_OFF_T + 14.
Definition CURLINFO_CONTENT_LENGTH_DOWNLOAD_T : Z := CURLINFO_OFF_T + 15.
Definition CURLINFO_CONTENT_LENGTH_UPLOAD_T : Z := CURLINFO_OFF_T + 16.
Definition CURLINFO_TOTAL_TIME_T : Z := CURLINFO_OFF_T + 50.
Definition CURLINFO_NAMELOOKUP_TIME_T : Z := CURLINFO_OFF_T + 51.
Definition CURLINFO_CONNECT_TIME_T : Z := CURLINFO_OFF_T + 52.
Definition CURLINFO_PRETRANSFER_TIME_T : Z := CURLINFO_OFF_T + 53.
Definition CURLINFO_STARTTRANSFER_TIME_T : Z := CURLINFO_OFF_T + 54.
Definition CURLINFO_REDIRECT_TIME_T : Z := CURLINFO_OFF_T + 55.
Definition CURLINFO_APPCONNECT_TIME_T : Z := CURLINFO_OFF_T + 56.

(** [std::to_string(int)] *)
Definition to_string (z : Z) : string := NilZero.string_of_int (Z.to_int z).

Definition digit_value (c : ascii) : Z := Z.of_nat (nat_of_ascii c) - 48.

(** The value of the leading decimal digits of a text. *)
Fixpoint parse_digits (s : string) (acc : Z) : Z :=
  match s with
  | EmptyString => acc
  | String c rest =>
      if isdigit c then parse_digits rest (acc * 10 + digit_value c) else acc
  end.

(** [std::stoi] on a text that starts with a digit, the only kind of text
    GetInfo gives it: the value of the leading digits, or
    std::out_of_range ([None]) when that does not fit an int. A text that
    does not start with a digit is std::invalid_argument ([None]) unless
    it has leading blanks or a sign, which are not modelled. *)
Definition stoi (s : string) : option Z :=
  match s with
  | EmptyString => None
  | String c _ =>
      if isdigit c then
        let v := parse_digits s 0 in
        if v <=? INT32_MAX then Some v else None
      else None
  end.

(** [tryCatch.Message()->Get()]: V8's text for an uncaught exception. *)
Definition exceptionMessage (H : Host) (e : JSValue) : string :=
  match e with
  | JSError msg => "Uncaught Error: " +:+ msg
  | JSTypeError msg => "Uncaught TypeError: " +:+ msg
  | _ => "Uncaught " +:+ js_ToString H e
  end.

(** [GetInfoTmpl<char*, v8::String>]: the converted value, and the error
    thrown when the engine's code is not CURLE_OK. A null result becomes
    [Nan::EmptyString()]. *)
Definition GetInfoTmpl_char (E : Engine) (obj : Easy) (infoId : Z)
  : JSValue * option JSValue :=
  let '(code, result) := getinfo_string E (ch obj) infoId in
  let retVal := JSUndefined in
  if negb (code =? CURLE_OK) then (retVal, Some (JSError (to_string code)))
  else
    match result with
    | None => (JSString EmptyString, None)
    | Some s => (JSString s, None)
    end.

(** [GetInfoTmpl<TResultType, v8::Number>] for double, long and
    curl_off_t. *)
Definition GetInfoTmpl_number {R : Type} (getinfo : CURL -> Z -> Z * R)
    (toNumber : R -> JSValue) (obj : Easy) (infoId : Z)
  : JSValue * option JSValue :=
  let '(code, result) := getinfo (ch obj) infoId in
  let retVal := JSUndefined in
  if negb (code =? CURLE_OK) then (retVal, Some (JSError (to_string code)))
  else (toNumber result, None).

Definition isOffTInfo (infoId : Z) : bool :=
  (infoId =? CURLINFO_FILETIME_T) || (infoId =? CURLINFO_APPCONNECT_TIME_T)
  || (infoId =? CURLINFO_CONNECT_TIME_T) || (infoId =? CURLINFO_NAMELOOKUP_TIME_T)
  || (infoId =? CURLINFO_PRETRANSFER_TIME_T) || (infoId =? CURLINFO_REDIRECT_TIME_T)
  || (infoId =? CURLINFO_STARTTRANSFER_TIME_T) || (infoId =? CURLINFO_TOTAL_TIME_T)
  || (infoId =? CURLINFO_CONTENT_LENGTH_DOWNLOAD_T)
  || (infoId =? CURLINFO_CONTENT_LENGTH_UPLOAD_T)
  || (infoId =? CURLINFO_SIZE_DOWNLOAD_T) || (infoId =? CURLINFO_SIZE_UPLOAD_T)
  || (infoId =? CURLINFO_SPEED_DOWNLOAD_T) || (infoId =? CURLINFO_SPEED_UPLOAD_T).

(** What the classification chain of GetInfo leaves behind: [retVal],
    [code], and the exception the TryCatch has caught, if any. *)
Record InfoState := {
  is_retVal : JSValue;
  is_code : Z;
  is_caught : option JSValue
}.

Definition fromTmpl (r : JSValue * option JSValue) : InfoState :=
  {| is_retVal := fst r; is_code := CURLE_OK; is_caught := snd r |}.

Definition GetInfo_dispatch (E : Engine) (T : Tables) (obj : Easy)
    (infoVal : JSValue) : InfoState :=
  if negb (curlInfoString T infoVal =? 0) then
    fromTmpl (GetInfoTmpl_char E obj (curlInfoString T infoVal))
  else if negb (curlInfoDouble T infoVal =? 0) then
    let infoId := curlInfoDouble T infoVal in
    if isOffTInfo infoId
    then fromTmpl (GetInfoTmpl_number (getinfo_off_t E) JSInt obj infoId)
    else fromTmpl (GetInfoTmpl_number (getinfo_double E) JSNumber obj infoId)
  else if negb (curlInfoInteger T infoVal =? 0) then
    fromTmpl (GetInfoTmpl_number (getinfo_long E) JSInt obj (curlInfoInteger T infoVal))
  else if negb (curlInfoSocket T infoVal =? 0) then
    let '(code, socket) := getinfo_socket E (ch obj) (curlInfoSocket T infoVal) in
    {| is_retVal :=
         if code =? CURLE_OK
         then JSInt ((socket + 2 ^ 31) mod 2 ^ 32 - 2 ^ 31)
         else JSUndefined;
       is_code := code; is_caught := None |}
  else if negb (curlInfoLinkedList T infoVal =? 0) then
    let '(code, linkedList) :=
      getinfo_slist E (ch obj) (curlInfoLinkedList T infoVal) in
    {| is_retVal :=
         if code =? CURLE_OK then JSArray (map JSString linkedList) else JSUndefined;
       is_code := code; is_caught := None |}
  else {| is_retVal := JSUndefined; is_code := CURLE_OK; is_caught := None |}.

(** The code recovered from a caught exception. *)
Definition caughtCode (H : Host) (e : JSValue) : option Z :=
  let msg := exceptionMessage H e in
  let errCode := keep_digits msg in
  stoi (if (0 <? String.length errCode)%nat then errCode else "43").

Definition infoObject (code : Z) (retVal : JSValue) : JSValue :=
  JSObject [("code", JSInt code); ("data", retVal)].

(** The end of GetInfo, on what the classification chain left: the
    code is recovered from a caught exception, and the pair is built. *)
Definition GetInfo_finish (H : Host) (st : InfoState) : outcome Return :=
  match is_caught st with
  | Some e =>
      match caughtCode H e with
      | Some code => Done (RetValue (infoObject code (is_retVal st)))
      | None => Aborted "std::out_of_range"
      end
  | None => Done (RetValue (infoObject (is_code st) (is_retVal st)))
  end.

(** NAN_METHOD(Easy::GetInfo) *)
Definition GetInfo (H : Host) (E : Engine) (T : Tables) (obj : Easy)
    (infoVal : JSValue) : outcome Return :=
  if negb (isOpen obj) then Done (RetThrow (JSError "Curl handle is closed."))
  else if negb (curlInfoNotImplemented T infoVal =? 0) then
    Done (RetThrow
            (JSError ("Unsupported info, probably because it's too complex to implement " +:+
                      "using javascript or unecessary when using javascript.")))
  else GetInfo_finish H (GetInfo_dispatch E T obj infoVal).

(** ** Construction *)

(** Easy::ResetRequiredHandleOptions *)
Definition ResetRequiredHandleOptions (E : Engine) (h : CURL) : CURL :=
  let h := fst (curl_easy_setopt E h CURLOPT_PRIVATE VObj) in
  let h := fst (curl_easy_setopt E h CURLOPT_READDATA VObj) in
  let h := fst (curl_easy_setopt E h CURLOPT_SEEKDATA VObj) in
  let h := fst (curl_easy_setopt E h CURLOPT_WRITEFUNCTION (VFunc Fn_WriteFunction)) in
  fst (curl_easy_setopt E h CURLOPT_WRITEDATA VObj).

(** Easy::Easy(), on the handle [curl_easy_init] returned; the in-class
    initialisers of Easy.h are taken as: open, outside any Multi, no
    abort signalled, no deferred error. *)
Definition Easy_new (E : Engine) : Easy :=
  {| ch := ResetRequiredHandleOptions E {| options := ∅; setopt_log := [] |};
     isOpen := true; isInsideMultiHandle := false;
     isCbProgressAlreadyAborted := false; callbackError := None;
     callbacks := ∅;
     toFree := {| str := []; slist := []; post := [] |};
     readDataFileDescriptor := -1; onData := JSUndefined |}.

Definition Memory_empty : Memory := {| slists := ∅; brk := 0 |}.

(** ** Sample collaborators, for running the adapter on concrete inputs *)

(** A host whose callable 0 returns 0, 1 returns 1, 2 raises, 3 returns
    a string, and any other returns undefined. *)
Definition sampleHost : Host :=
  {| invoke := fun f _ =>
       match f with
       | 0%nat => Returns (JSInt 0)
       | 1%nat => Returns (JSInt 1)
       | 2%nat => Throws (JSError "boom")
       | 3%nat => Returns (JSString "three")
       | _ => Returns JSUndefined
       end;
     js_ToString := fun _ => "undefined";
     js_ToInt32 := fun _ => 0;
     js_ToUint32 := fun _ => 0;
     js_ToNumber := fun _ => DBits 0;
     trunc_bits := fun _ => 0;
     cast_overflow := fun _ => INT64_MIN |}.

(** An engine that accepts every option and form field and has nothing
    to report, and one that rejects every option. *)
Definition acceptingEngine : Engine :=
  {| setopt_code := fun _ _ _ => CURLE_OK;
     formadd_code := fun _ _ => CURL_FORMADD_OK;
     getinfo_string := fun _ _ => (CURLE_OK, None);
     getinfo_double := fun _ _ => (CURLE_OK, DInt 0);
     getinfo_off_t := fun _ _ => (CURLE_OK, 0);
     getinfo_long := fun _ _ => (CURLE_OK, 0);
     getinfo_socket := fun _ _ => (CURLE_OK, 0);
     getinfo_slist := fun _ _ => (CURLE_OK, []) |}.

Definition rejectingEngine : Engine :=
  {| setopt_code := fun _ _ _ => CURLE_UNKNOWN_OPTION;
     formadd_code := fun _ _ => CURL_FORMADD_OK;
     getinfo_string := fun _ _ => (CURLE_UNKNOWN_OPTION, None);
     getinfo_double := fun _ _ => (CURLE_UNKNOWN_OPTION, DInt 0);
     getinfo_off_t := fun _ _ => (CURLE_UNKNOWN_OPTION, 0);
     getinfo_long := fun _ _ => (CURLE_UNKNOWN_OPTION, 0);
     getinfo_socket := fun _ _ => (CURLE_UNKNOWN_OPTION, 0);
     getinfo_slist := fun _ _ => (CURLE_UNKNOWN_OPTION, []) |}.

Definition lookupName (table : list (string * Z)) (v : JSValue) : Z :=
  match v with
  | JSString s =>
      default 0 (snd <$> List.find (fun it => String.eqb (fst it) s) table)
  | _ => 0
  end.

(** A few rows of each table. *)
Definition sampleTables : Tables :=
  {| curlOptionNotImplemented := lookupName [("SSL_CTX_FUNCTION", 20108)];
     curlOptionSpecific := lookupName [("SHARE", 10100)];
     curlOptionLinkedList :=
       lookupName [("HTTPHEADER", 10023); ("HTTPPOST", CURLOPT_HTTPPOST)];
     curlOptionString :=
       lookupName [("URL", 10002); ("POSTFIELDS", CURLOPT_POSTFIELDS)];
     curlOptionInteger := lookupName [("VERBOSE", 41)];
     curlOptionFunction :=
       lookupName [("WRITEFUNCTION", CURLOPT_WRITEFUNCTION);
                   ("DEBUGFUNCTION", CURLOPT_DEBUGFUNCTION);
                   ("PROGRESSFUNCTION", CURLOPT_PROGRESSFUNCTION);
                   ("CHUNK_BGN_FUNCTION", CURLOPT_CHUNK_BGN_FUNCTION);
                   ("CHUNK_END_FUNCTION", CURLOPT_CHUNK_END_FUNCTION)];
     curlInfoNotImplemented := lookupName [("TLS_SESSION", 4194347)];
     curlInfoString := lookupName [("EFFECTIVE_URL", 1048577)];
     curlInfoDouble := lookupName [("TOTAL_TIME", 3145731)];
     curlInfoInteger := lookupName [("RESPONSE_CODE", 2097154)];
     curlInfoSocket := lookupName [("ACTIVESOCKET", 5242924)];
     curlInfoLinkedList := lookupName [("COOKIELIST", 4194332)] |}.

(** ** The engine driving a transfer *)

(** One callback invocation issued by the engine during a transfer. *)
Inductive EngineCall :=
| OnProgress (dltotal dlnow ultotal ulnow : double)
| OnXferinfo (dltotal dlnow ultotal ulnow : Z)
| OnChunkBgn (transferInfo : curl_fileinfo) (remains : Z)
| OnChunkEnd
| OnDebug (type : Z) (data : list Z) (size : Z)
| OnFnMatch (pattern string : string)
| OnTrailer (headerList : nat)
| OnWrite (ptr : list Z) (size nmemb : Z).

Definition isProgressCall (c : EngineCall) : bool :=
  match c with
  | OnProgress _ _ _ _ | OnXferinfo _ _ _ _ => true
  | _ => false
  end.

Definition keepMemory (m : Memory) (r : outcome CbResult)
  : outcome (CbResult * Memory) :=
  match r with
  | Done r => Done (r, m)
  | Aborted why => Aborted why
  end.

Definition engineCall (H : Host) (obj : Easy) (m : Memory) (c : EngineCall)
  : outcome (CbResult * Memory) :=
  match c with
  | OnProgress a b c d => keepMemory m (CbProgress H obj a b c d)
  | OnXferinfo a b c d => keepMemory m (CbXferinfo H obj a b c d)
  | OnChunkBgn fi remains => keepMemory m (CbChunkBgn H obj fi remains)
  | OnChunkEnd => keepMemory m (CbChunkEnd H obj)
  | OnDebug type data size => keepMemory m (CbDebug H obj type data size)
  | OnFnMatch pattern string => keepMemory m (CbFnMatch H obj pattern string)
  | OnTrailer headerList =>
      match CbTrailer H obj m headerList with
      | Done t => Done (tr_cb t, tr_mem t)
      | Aborted why => Aborted why
      end
  | OnWrite ptr size nmemb => keepMemory m (WriteFunction H obj ptr size nmemb)
  end.

(** The engine issuing a series of callback invocations on one handle,
    each against the host as it is at that moment; the handle left by
    one invocation is the handle of the next. Each entry of the result
    is the handle before the invocation, the invocation, and what it
    left. A failed assertion ends the series. *)
Fixpoint transfer (obj : Easy) (m : Memory) (cs : list (Host * EngineCall))
  : list (Easy * EngineCall * CbResult) :=
  match cs with
  | [] => []
  | (H, c) :: rest =>
      match engineCall H obj m c with
      | Done (r, m') => (obj, c, r) :: transfer (cb_obj r) m' rest
      | Aborted _ => []
      end
  end.

(** What a progress-class invocation leaves on a handle whose abort
    flag is set. *)
Definition latchedResult (obj : Easy) : CbResult :=
  {| cb_ret := 1; cb_obj := obj; cb_thrown := None; cb_calls := [] |}.

(** The test [if (returnValue)] of the progress trampolines: the values
    after which they set the abort flag. Only 0 lets the transfer go on. *)
Definition signalsAbort (returnValue : Z) : bool := negb (returnValue =? 0).

(** A handle with one more entry in its Callback Registry. *)
Definition withCallback (obj : Easy) (slot : Z) (f : nat) : Easy :=
  set_callbacks obj (<[slot := f]> (callbacks obj)).

Definition inMulti (obj : Easy) : Easy :=
  {| ch := ch obj; isOpen := isOpen obj; isInsideMultiHandle := true;
     isCbProgressAlreadyAborted := isCbProgressAlreadyAborted obj;
     callbackError := callbackError obj; callbacks := callbacks obj;
     toFree := toFree obj; readDataFileDescriptor := readDataFileDescriptor obj;
     onData := onData obj |}.

(** Handles used to run the trampolines: one whose abort flag is set,
    one whose PROGRESS callable raises, one whose XFERINFO callable
    returns 1, and what CbXferinfo leaves of the latter. *)
Definition latchedHandle : Easy :=
  set_isCbProgressAlreadyAborted
    (withCallback (Easy_new acceptingEngine) CURLOPT_PROGRESSFUNCTION 0) true.
Definition raisingHandle : Easy :=
  withCallback (Easy_new acceptingEngine) CURLOPT_PROGRESSFUNCTION 2.
Definition xferinfoHandle : Easy :=
  withCallback (Easy_new acceptingEngine) CURLOPT_XFERINFOFUNCTION 1.
Definition xferinfoAbortResult : CbResult :=
  {| cb_ret := 1; cb_obj := set_isCbProgressAlreadyAborted xferinfoHandle true;
     cb_thrown := None;
     cb_calls := [(1%nat, [JSInt 10; JSInt 6; JSInt 0; JSInt 0])] |}.

Definition writeRaisingHandle : Easy :=
  inMulti (withCallback (Easy_new acceptingEngine) CURLOPT_WRITEFUNCTION 2).

(** The branch of SetOpt (of GetInfo) an identifier reaches: the first
    table of the chain that knows it. *)
Definition isLinkedListOption (T : Tables) (opt : JSValue) : Prop :=
  curlOptionNotImplemented T opt = 0 /\ curlOptionSpecific T opt = 0 /\
  curlOptionLinkedList T opt <> 0.
Definition isStringOption (T : Tables) (opt : JSValue) : Prop :=
  curlOptionNotImplemented T opt = 0 /\ curlOptionSpecific T opt = 0 /\
  curlOptionLinkedList T opt = 0 /\ curlOptionString T opt <> 0.
Definition isFunctionOption (T : Tables) (opt : JSValue) : Prop :=
  curlOptionNotImplemented T opt = 0 /\ curlOptionSpecific T opt = 0 /\
  curlOptionLinkedList T opt = 0 /\ curlOptionString T opt = 0 /\
  curlOptionInteger T opt = 0 /\ curlOptionFunction T opt <> 0.
Definition isStringInfo (T : Tables) (infoVal : JSValue) : Prop :=
  curlInfoNotImplemented T infoVal = 0 /\ curlInfoString T infoVal <> 0.

(** The data of the list node made from one element of an array. *)
Definition nodeOf (H : Host) (x : JSValue) : string := c_str (Utf8String H x).

(** setOpt(HTTPHEADER, ["A: 1", "B: 2"]) on a new handle of an engine
    that rejects the option. *)
Definition rejectedHeaders : SetOptResult :=
  SetOpt sampleHost rejectingEngine sampleTables (Easy_new rejectingEngine)
    Memory_empty (JSString "HTTPHEADER")
    (JSArray [JSString "A: 1"; JSString "B: 2"]).

(** ** Field descriptors of a structured multipart post *)

(** How SetOpt recognises the keys of a descriptor: by the text of the
    key up to its first NUL, in upper case. *)
Definition keyIs (id : string) (kv : string * JSValue) : bool :=
  String.eqb (string_toupper (c_str (fst kv))) id.
Definition hasKey (id : string) (props : list (string * JSValue)) : bool :=
  existsb (keyIs id) props.
Definition knownKey (kv : string * JSValue) : bool :=
  existsb (fun it => String.eqb (fst it) (string_toupper (c_str (fst kv))))
          curlOptionHttpPost.

Definition hasUnknownKey (props : list (string * JSValue)) : bool :=
  existsb (fun kv => negb (knownKey kv)) props.
Definition hasNonStringValue (props : list (string * JSValue)) : bool :=
  existsb (fun kv => negb (IsString (snd kv))) props.


(** A descriptor SetOpt refuses: an unknown key, no name, neither
    contents nor file, or a value that is not a string. *)
Definition malformedDescriptor (props : list (string * JSValue)) : bool :=
  hasUnknownKey props
  || negb (hasKey "NAME" props)
  || (negb (hasKey "CONTENTS" props) && negb (hasKey "FILE" props))
  || hasNonStringValue props.


Definition malformedRow (row : JSValue) : bool :=
  negb (IsObject row) || malformedDescriptor (ownProps row).


(** ** Callback options *)

(** The callback options that have a function pointer of their own in
    the engine, with the trampoline SetOpt installs for each. *)
Definition engineCallbacks : list (Z * FnPtr) :=
  [(CURLOPT_CHUNK_BGN_FUNCTION, Fn_CbChunkBgn);
   (CURLOPT_CHUNK_END_FUNCTION, Fn_CbChunkEnd);
   (CURLOPT_DEBUGFUNCTION, Fn_CbDebug);
   (CURLOPT_FNMATCH_FUNCTION, Fn_CbFnMatch);
   (CURLOPT_PROGRESSFUNCTION, Fn_CbProgress);
   (CURLOPT_TRAILERFUNCTION, Fn_CbTrailer);
   (CURLOPT_XFERINFOFUNCTION, Fn_CbXferinfo)].

(** The slot has an entry in the Callback Registry. *)
Definition registered (obj : Easy) (slot : Z) : Prop :=
  is_Some (callbacks obj !! slot).

(** The engine holds a function pointer for the slot. *)
Definition installed (obj : Easy) (slot : Z) : Prop :=
  exists fn, options (ch obj) !! slot = Some (VFunc fn).

(** What SetOpt hands the engine for the function pointer. *)
Definition pointerFor (fn : FnPtr) (value : JSValue) : OptValue :=
  if IsFunction value then VFunc fn else VNull.

(** The user-data option that goes with each of these callback options,
    and the sibling of a chunk callback. *)
Definition userDataOption (slot : Z) : Z :=
  if (slot =? CURLOPT_CHUNK_BGN_FUNCTION) || (slot =? CURLOPT_CHUNK_END_FUNCTION)
  then CURLOPT_CHUNK_DATA
  else if slot =? CURLOPT_DEBUGFUNCTION then CURLOPT_DEBUGDATA
  else if slot =? CURLOPT_FNMATCH_FUNCTION then CURLOPT_FNMATCH_DATA
  else if slot =? CURLOPT_PROGRESSFUNCTION then CURLOPT_PROGRESSDATA
  else if slot =? CURLOPT_TRAILERFUNCTION then CURLOPT_TRAILERDATA
  else CURLOPT_XFERINFODATA.
Definition otherChunk (slot : Z) : option Z :=
  if slot =? CURLOPT_CHUNK_BGN_FUNCTION then Some CURLOPT_CHUNK_END_FUNCTION
  else if slot =? CURLOPT_CHUNK_END_FUNCTION then Some CURLOPT_CHUNK_BGN_FUNCTION
  else None.

(** What the last option-set call of a callback assignment leaves: the
    status returned is the engine's answer to it, and the engine handle
    is the one that call leaves. *)
Definition pointerAssigned (E : Engine) (r : SetOptResult) (h : CURL) (slot : Z)
    (v : OptValue) : Prop :=
  so_ret r = RetValue (JSInt (setopt_code E h slot v)) /\
  ch (so_obj r) = fst (curl_easy_setopt E h slot v).

(** The engine handle as the function-pointer assignment of a setOpt
    finds it, that is after the user-data option has been set to the
    adapter (for a callable) or cleared (for null); a chunk callback set
    to null clears the shared user data only when the other chunk
    callback is not registered. *)
Definition beforePointerCall (E : Engine) (obj : Easy) (slot : Z) (value : JSValue)
  : CURL :=
  if IsFunction value then
    fst (curl_easy_setopt E (ch obj) (userDataOption slot) VObj)
  else
    match otherChunk slot with
    | Some other =>
        if bool_decide (registered obj other) then ch obj
        else fst (curl_easy_setopt E (ch obj) CURLOPT_CHUNK_DATA VNull)
    | None => fst (curl_easy_setopt E (ch obj) (userDataOption slot) VNull)
    end.

(** A new handle on which both chunk callbacks have been set. *)
Definition chunkBothHandle : Easy :=
  so_obj (SetOpt sampleHost acceptingEngine sampleTables
            (so_obj (SetOpt sampleHost acceptingEngine sampleTables
                       (Easy_new acceptingEngine) Memory_empty
                       (JSString "CHUNK_BGN_FUNCTION") (JSFunction 0)))
            Memory_empty (JSString "CHUNK_END_FUNCTION") (JSFunction 1)).

(** setOpt(DEBUGFUNCTION, f) on a new handle of an engine that rejects
    the option, and setOpt(WRITEFUNCTION, null) on a new handle of an
    engine that accepts everything. *)
Definition rejectedDebug : SetOptResult :=
  SetOpt sampleHost rejectingEngine sampleTables (Easy_new rejectingEngine)
    Memory_empty (JSString "DEBUGFUNCTION") (JSFunction 0).
Definition clearedWrite : SetOptResult :=
  SetOpt sampleHost acceptingEngine sampleTables (Easy_new acceptingEngine)
    Memory_empty (JSString "WRITEFUNCTION") JSNull.

(** ** Status codes recovered from exception messages *)

(** The number spelled by the decimal digits of a text, read in order
    with everything else skipped, and whether the text has a digit. *)
Definition digitsValue (msg : string) : Z :=
  fold_left (fun acc c => 10 * acc + digit_value c)
            (List.filter isdigit (list_ascii_of_string msg)) 0.
Definition hasDigits (msg : string) : bool :=
  existsb isdigit (list_ascii_of_string msg).

(** CURLcode is a non-negative int. *)
Definition validCode (code : Z) : Prop := 0 <= code <= INT32_MAX.
Definition engineCodesValid (E : Engine) : Prop :=
  forall h infoId,
    validCode (fst (getinfo_string E h infoId)) /\
    validCode (fst (getinfo_double E h infoId)) /\
    validCode (fst (getinfo_off_t E h infoId)) /\
    validCode (fst (getinfo_long E h infoId)).

(** What the classification chain of getInfo would leave had it caught
    an exception whose message has no digit. *)
Definition caughtWithoutDigits : InfoState :=
  {| is_retVal := JSUndefined; is_code := CURLE_OK;
     is_caught := Some (JSError "no code here") |}.

(** A new handle with an onData property (callable 3) and nothing
    registered for WRITEFUNCTION, and the same with callable 0
    registered for WRITEFUNCTION. *)
Definition onDataHandle : Easy :=
  {| ch := ch (Easy_new acceptingEngine); isOpen := true;
     isInsideMultiHandle := false; isCbProgressAlreadyAborted := false;
     callbackError := None; callbacks := ∅;
     toFree := {| str := []; slist := []; post := [] |};
     readDataFileDescriptor := -1; onData := JSFunction 3 |}.
Definition bothWriteHandle : Easy :=
  withCallback onDataHandle CURLOPT_WRITEFUNCTION 0.

(** The arguments OnData hands the host callable. *)
Definition onDataArgs (data : list Z) (size nmemb : Z) : list JSValue :=
  [JSBuffer (take (Z.to_nat (((size * nmemb) mod 2 ^ 64) mod 2 ^ 32)) data);
   JSInt (size mod 2 ^ 32); JSInt (nmemb mod 2 ^ 32)].

(** ** The protocol of the trampolines *)

(** The registry slot a callback invocation looks up, the name its
    messages use, and the value its trampoline hands the engine when the
    host fails. *)
Definition slotOf (c : EngineCall) : Z :=
  match c with
  | OnProgress _ _ _ _ => CURLOPT_PROGRESSFUNCTION
  | OnXferinfo _ _ _ _ => CURLOPT_XFERINFOFUNCTION
  | OnChunkBgn _ _ => CURLOPT_CHUNK_BGN_FUNCTION
  | OnChunkEnd => CURLOPT_CHUNK_END_FUNCTION
  | OnDebug _ _ _ => CURLOPT_DEBUGFUNCTION
  | OnFnMatch _ _ => CURLOPT_FNMATCH_FUNCTION
  | OnTrailer _ => CURLOPT_TRAILERFUNCTION
  | OnWrite _ _ _ => CURLOPT_WRITEFUNCTION
  end.

Definition slotName (c : EngineCall) : string :=
  match c with
  | OnProgress _ _ _ _ => "PROGRESS"
  | OnXferinfo _ _ _ _ => "XFERINFO"
  | OnChunkBgn _ _ => "CHUNK_BGN"
  | OnChunkEnd => "CHUNK_END"
  | OnDebug _ _ _ => "DEBUG"
  | OnFnMatch _ _ => "FNMATCH"
  | OnTrailer _ => "Trailer"
  | OnWrite _ _ _ => "WRITE"
  end.

Definition failureSentinel (c : EngineCall) : Z :=
  match c with
  | OnProgress _ _ _ _ | OnXferinfo _ _ _ _ => 1
  | OnChunkBgn _ _ => CURL_CHUNK_BGN_FUNC_FAIL
  | OnChunkEnd => CURL_CHUNK_END_FUNC_FAIL
  | OnDebug _ _ _ => 1
  | OnFnMatch _ _ => CURL_FNMATCHFUNC_FAIL
  | OnTrailer _ => CURL_TRAILERFUNC_ABORT
  | OnWrite _ _ _ => 0
  end.

(** The invocations whose trampoline runs the callable under a
    TryCatch, and among them those whose callable must return an
    integer. *)
Definition hasTryCatch (c : EngineCall) : bool :=
  match c with OnWrite _ _ _ => false | _ => true end.
Definition expectsInt32 (c : EngineCall) : bool :=
  match c with OnWrite _ _ _ | OnTrailer _ => false | _ => true end.

Definition integerTypeError (c : EngineCall) : JSValue :=
  JSTypeError ("Return value from the " +:+ slotName c +:+
               " callback must be an integer.").

(** A list pointer that is NULL or the address of a list in memory. *)
Definition validList (m : Memory) (p : nat) : Prop :=
  p = 0%nat \/ is_Some (slists m !! p).

(** Handles with a callable that raises (2) or returns a string (3)
    registered for DEBUGFUNCTION, the first owned by a Multi; and a
    handle whose TRAILERFUNCTION callable is 4. *)
Definition debugRaisingHandle : Easy :=
  inMulti (withCallback (Easy_new acceptingEngine) CURLOPT_DEBUGFUNCTION 2).
Definition debugStringHandle : Easy :=
  withCallback (Easy_new acceptingEngine) CURLOPT_DEBUGFUNCTION 3.
Definition fnmatchHandle : Easy :=
  withCallback (Easy_new acceptingEngine) CURLOPT_FNMATCH_FUNCTION 1.

(** A host whose callable 0 returns two trailer lines and whose
    callable 1 returns a line, a number and a line; handles with one or
    the other registered for TRAILERFUNCTION. *)
Definition trailerHost : Host :=
  {| invoke := fun f _ =>
       match f with
       | 0%nat => Returns (JSArray [JSString "A: 1"; JSString "B: 2"])
       | _ => Returns (JSArray [JSString "A: 1"; JSInt 5; JSString "C: 3"])
       end;
     js_ToString := fun _ => "undefined";
     js_ToInt32 := fun _ => 0;
     js_ToUint32 := fun _ => 0;
     js_ToNumber := fun _ => DBits 0;
     trunc_bits := fun _ => 0;
     cast_overflow := fun _ => INT64_MIN |}.
Definition trailerHandle : Easy :=
  withCallback (Easy_new acceptingEngine) CURLOPT_TRAILERFUNCTION 0.
Definition badTrailerHandle : Easy :=
  inMulti (withCallback (Easy_new acceptingEngine) CURLOPT_TRAILERFUNCTION 1).

(** ** Outcomes of setOpt *)






(** The field SetOpt adds for a descriptor that passes its checks:
    a file field when the descriptor has a file (with its type when it
    has one, and its filename when it has a type as well), a content
    field otherwise. *)
Definition fieldOfDescriptor (H : Host) (props : list (string * JSValue)) : FormField :=
  let fieldName := Utf8String H (GetProp props "name") in
  if hasKey "FILE" props then
    let file := c_str (Utf8String H (GetProp props "file")) in
    if hasKey "TYPE" props then
      let contentType := c_str (Utf8String H (GetProp props "type")) in
      if hasKey "FILENAME" props then
        FileField fieldName file (Some contentType)
          (Some (c_str (Utf8String H (GetProp props "filename"))))
      else FileField fieldName file (Some contentType) None
    else FileField fieldName file None None
  else ContentField fieldName (Utf8String H (GetProp props "contents")).

(** [{name: "f", file: "p", filename: "q"}] and [{name: "g", contents: "v"}] *)
Definition twoDescriptors : list JSValue :=
  [JSObject [("name", JSString "f"); ("file", JSString "p"); ("filename", JSString "q")];
   JSObject [("name", JSString "g"); ("contents", JSString "v")]].

(** ** The rest of class Easy: life cycle and socket monitoring *)

(** Calls made on the readiness loop (libuv), by the socket they are
    about. *)
Inductive UvCall :=
| PollInit (socket : Z)
| PollStart (socket : Z)
| PollStop (socket : Z)
| PollClose (socket : Z).

(** The readiness loop's answers, and the two message tables the
    adapter reads (uv's error strings and easy_strerror of strerror.h,
    whose definition is not part of the sources). *)
Record Loop := {
  uv_poll_init_socket : Z -> Z;
  uv_poll_start : Z -> Z;
  uv_poll_stop : Z -> Z;
  UV_ERROR_STRING : Z -> string;
  easy_strerror : Z -> string
}.

(** An Easy object with the members the trampolines and setOpt do not
    use: the poll handle (the socket it was allocated for; [None] is the
    null pointer), the monitoring flag, the socket-event listener; and,
    to tell what was done to the collaborators, the calls made on the
    loop and the number of times the engine handle was released. *)
Record Handle := {
  easy : Easy;
  socketPollHandle : option Z;
  isMonitoringSockets : bool;
  cbOnSocketEvent : option nat;
  uv_log : list UvCall;
  cleanups : nat
}.

Definition set_easy (h : Handle) (o : Easy) : Handle :=
  {| easy := o; socketPollHandle := socketPollHandle h;
     isMonitoringSockets := isMonitoringSockets h;
     cbOnSocketEvent := cbOnSocketEvent h; uv_log := uv_log h;
     cleanups := cleanups h |}.

Definition set_cbOnSocketEvent (h : Handle) (cb : option nat) : Handle :=
  {| easy := easy h; socketPollHandle := socketPollHandle h;
     isMonitoringSockets := isMonitoringSockets h;
     cbOnSocketEvent := cb; uv_log := uv_log h; cleanups := cleanups h |}.

Definition set_isOpen (o : Easy) (b : bool) : Easy :=
  {| ch := ch o; isOpen := b; isInsideMultiHandle := isInsideMultiHandle o;
     isCbProgressAlreadyAborted := isCbProgressAlreadyAborted o;
     callbackError := callbackError o; callbacks := callbacks o;
     toFree := toFree o; readDataFileDescriptor := readDataFileDescriptor o;
     onData := onData o |}.

Definition CURLINFO_ACTIVESOCKET : Z := 5242924.
Definition CURL_SOCKET_BAD : Z := -1.

(** What a method of the host object ends with: it returns the object
    itself, returns a value, or throws. *)
Inductive MethodReturn :=
| RetThis
| Ret (v : JSValue)
| Thrown (e : JSValue).

(** Easy::MonitorSockets, with the exception it leaves pending. The
    poll handle, once allocated, stays allocated when the loop refuses
    the socket; the answer of uv_poll_start is not looked at. *)
Definition MonitorSockets (L : Loop) (E : Engine) (h : Handle)
  : Handle * option JSValue :=
  match socketPollHandle h with
  | Some _ => (h, Some (JSError "Already monitoring sockets!"))
  | None =>
      let '(retCurl, socket) :=
        getinfo_socket E (ch (easy h)) CURLINFO_ACTIVESOCKET in
      if socket =? CURL_SOCKET_BAD then
        (h, Some (JSError "Received invalid socket from the current connection!"))
      else if negb (retCurl =? CURLE_OK) then
        (h, Some (JSError ("Failed to receive socket. Reason: " +:+
                           easy_strerror L retCurl)))
      else
        let retUv := uv_poll_init_socket L socket in
        if retUv <? 0 then
          ({| easy := easy h; socketPollHandle := Some socket;
              isMonitoringSockets := isMonitoringSockets h;
              cbOnSocketEvent := cbOnSocketEvent h;
              uv_log := uv_log h ++ [PollInit socket];
              cleanups := cleanups h |},
           Some (JSError ("Failed to poll on connection socket. Reason:" +:+
                          UV_ERROR_STRING L retUv)))
        else
          ({| easy := easy h; socketPollHandle := Some socket;
              isMonitoringSockets := true;
              cbOnSocketEvent := cbOnSocketEvent h;
              uv_log := uv_log h ++ [PollInit socket; PollStart socket];
              cleanups := cleanups h |},
           None)
  end.

(** Easy::UnmonitorSockets. Stopping a poll handle that was never
    allocated dereferences a null pointer. The pointer is not reset
    after the handle has been closed. *)
Definition UnmonitorSockets (L : Loop) (h : Handle)
  : outcome (Handle * option JSValue) :=
  match socketPollHandle h with
  | None => Aborted "uv_poll_stop: null handle"
  | Some socket =>
      let retUv := uv_poll_stop L socket in
      if retUv <? 0 then
        Done ({| easy := easy h; socketPollHandle := socketPollHandle h;
                 isMonitoringSockets := isMonitoringSockets h;
                 cbOnSocketEvent := cbOnSocketEvent h;
                 uv_log := uv_log h ++ [PollStop socket];
                 cleanups := cleanups h |},
              Some (JSError ("Failed to stop polling on socket. Reason: " +:+
                             UV_ERROR_STRING L retUv)))
      else
        Done ({| easy := easy h; socketPollHandle := socketPollHandle h;
                 isMonitoringSockets := false;
                 cbOnSocketEvent := cbOnSocketEvent h;
                 uv_log := uv_log h ++ [PollStop socket; PollClose socket];
                 cleanups := cleanups h |},
              None)
  end.

(** Easy::Dispose, on the handle and the static counter of open
    handles (a uint32_t). The error UnmonitorSockets may throw is left
    pending; the handle is closed all the same. *)
Definition Dispose (L : Loop) (h : Handle) (currentOpenedHandles : Z)
  : outcome (Handle * option JSValue * Z) :=
  if negb (isOpen (easy h)) then Aborted "This handle was already closed."
  else
    let h1 :=
      {| easy := easy h; socketPollHandle := socketPollHandle h;
         isMonitoringSockets := isMonitoringSockets h;
         cbOnSocketEvent := cbOnSocketEvent h; uv_log := uv_log h;
         cleanups := S (cleanups h) |} in
    let stopped :=
      if isMonitoringSockets h1 then UnmonitorSockets L h1 else Done (h1, None) in
    match stopped with
    | Aborted why => Aborted why
    | Done (h2, pending) =>
        Done (set_easy h2 (set_callbackError (set_isOpen (easy h2) false) None),
              pending,
              (currentOpenedHandles - 1) mod 2 ^ 32)
    end.

(** Easy::Easy(), with the counter. *)
Definition Easy_construct (E : Engine) (currentOpenedHandles : Z) : Handle * Z :=
  ({| easy := Easy_new E; socketPollHandle := None; isMonitoringSockets := false;
      cbOnSocketEvent := None; uv_log := []; cleanups := 0 |},
   (currentOpenedHandles + 1) mod 2 ^ 32).

(** NAN_METHOD(Easy::Close) *)
Definition Close (L : Loop) (h : Handle) (currentOpenedHandles : Z)
  : outcome (MethodReturn * Handle * Z) :=
  if negb (isOpen (easy h)) then
    Done (Thrown (JSError "Curl handle already closed."), h, currentOpenedHandles)
  else if isInsideMultiHandle (easy h) then
    Done (Thrown (JSError
            "Curl handle is inside a Multi instance, you must remove it first."),
          h, currentOpenedHandles)
  else
    match Dispose L h currentOpenedHandles with
    | Aborted why => Aborted why
    | Done (h', pending, n) =>
        Done (match pending with Some e => Thrown e | None => Ret JSUndefined end,
              h', n)
    end.

(** NAN_METHOD(Easy::MonitorSocketEvents) and
    NAN_METHOD(Easy::UnmonitorSocketEvents) *)
Definition MonitorSocketEvents (L : Loop) (E : Engine) (h : Handle)
  : MethodReturn * Handle :=
  let '(h', caught) := MonitorSockets L E h in
  match caught with
  | Some e => (Thrown e, h')
  | None => (RetThis, h')
  end.

Definition UnmonitorSocketEvents (L : Loop) (h : Handle)
  : outcome (MethodReturn * Handle) :=
  match UnmonitorSockets L h with
  | Aborted why => Aborted why
  | Done (h', Some e) => Done (Thrown e, h')
  | Done (h', None) => Done (RetThis, h')
  end.

(** NAN_METHOD(Easy::OnSocketEvent), on the arguments of the call. *)
Definition OnSocketEvent (h : Handle) (info : list JSValue) : MethodReturn * Handle :=
  match info with
  | [] => (Thrown (JSError "You must specify the callback function."), h)
  | arg :: _ =>
      if IsNull arg then (RetThis, set_cbOnSocketEvent h None)
      else
        match arg with
        | JSFunction callback => (RetThis, set_cbOnSocketEvent h (Some callback))
        | _ => (Thrown (JSTypeError "Invalid callback given."), h)
        end
  end.

(** Easy::CallSocketEvent (what Easy::OnSocket runs on each readiness
    notification): the callables run with their arguments, and the
    error left pending. The listener's return value is not looked at. *)
Definition CallSocketEvent (H : Host) (L : Loop) (h : Handle) (status events : Z)
  : list (nat * list JSValue) * option JSValue :=
  match cbOnSocketEvent h with
  | None => ([], None)
  | Some cb =>
      let err :=
        if status <? 0 then JSError (UV_ERROR_STRING L status) else JSNull in
      let argv := [err; JSInt events] in
      ([(cb, argv)],
       match invoke H cb argv with
       | Throws e => Some e
       | Returns _ => None
       end)
  end.

(** ** Raw transfer and execution *)

(** The engine's answers to a raw send (status and bytes sent) and to a
    raw receive into a buffer of a given length (status and the bytes
    received, no more than the length). *)
Record Wire := {
  curl_easy_send : CURL -> list Z -> Z * Z;
  curl_easy_recv : CURL -> Z -> Z * list Z
}.

Definition int32_of (z : Z) : Z := (z + 2 ^ 31) mod 2 ^ 32 - 2 ^ 31.

(** NAN_METHOD(Easy::Send), on the arguments of the call. *)
Definition Send (W : Wire) (obj : Easy) (info : list JSValue) : Return :=
  if negb (isOpen obj) then RetThrow (JSError "Curl handle is closed.")
  else
    match info with
    | [] => RetThrow (JSError "Missing buffer argument.")
    | JSBuffer bufContent :: _ =>
        let '(curlRet, n) := curl_easy_send W (ch obj) bufContent in
        RetValue (JSObject [("code", JSInt (int32_of curlRet));
                            ("bytesSent", JSInt (int32_of n))])
    | _ :: _ => RetThrow (JSError "Invalid Buffer instance given.")
    end.

(** NAN_METHOD(Easy::Recv): what it returns, and the content of the
    buffer it was given once it has returned. *)
Definition Recv (W : Wire) (obj : Easy) (info : list JSValue)
  : Return * option (list Z) :=
  if negb (isOpen obj) then (RetThrow (JSError "Curl handle is closed."), None)
  else
    match info with
    | [] => (RetThrow (JSError "Missing buffer argument."), None)
    | JSBuffer bufContent :: _ =>
        let bufLength := Z.of_nat (List.length bufContent) in
        let '(curlRet, received) := curl_easy_recv W (ch obj) bufLength in
        let n := Z.of_nat (List.length received) in
        (RetValue (JSObject [("code", JSInt (int32_of curlRet));
                             ("bytesReceived", JSInt (int32_of n))]),
         Some (received ++ drop (List.length received) bufContent))
    | _ :: _ => (RetThrow (JSError "Invalid Buffer instance given."), None)
    end.

(** curl_easy_perform as the adapter meets it: from the callbacks issued
    so far and what each handed back, the engine issues one more or ends
    the transfer with a status. *)
Record Performer := {
  next_call : list (EngineCall * Z) -> EngineCall + Z
}.

Record PerformRun := {
  run_trace : list (Easy * EngineCall * CbResult);
  run_obj : Easy;
  run_mem : Memory;
  (* the status the transfer ended with; [None] when it did not end
     within the calls allowed, or a trampoline stopped the process *)
  run_code : option Z
}.

Fixpoint curl_easy_perform (fuel : nat) (P : Performer) (H : Host) (obj : Easy)
    (m : Memory) (issued : list (EngineCall * Z)) : PerformRun :=
  match fuel with
  | O => {| run_trace := []; run_obj := obj; run_mem := m; run_code := None |}
  | S fuel' =>
      match next_call P issued with
      | inr code =>
          {| run_trace := []; run_obj := obj; run_mem := m; run_code := Some code |}
      | inl c =>
          match engineCall H obj m c with
          | Aborted _ =>
              {| run_trace := []; run_obj := obj; run_mem := m; run_code := None |}
          | Done (r, m') =>
              let rest :=
                curl_easy_perform fuel' P H (cb_obj r) m' (issued ++ [(c, cb_ret r)]) in
              {| run_trace := (obj, c, r) :: run_trace rest;
                 run_obj := run_obj rest; run_mem := run_mem rest;
                 run_code := run_code rest |}
          end
      end
  end.

(** The error the callbacks of a run have left pending for the host
    caller: the one left last, a later error taking the place of an
    earlier one. *)
Definition pendingError (trace : list (Easy * EngineCall * CbResult))
  : option JSValue :=
  last (omap (fun x => cb_thrown (snd x)) trace).

(** NAN_METHOD(Easy::Perform): what the host caller gets once the
    engine has ended the transfer, and the run of the engine. The method
    sets the engine's status as its return value; an error that a
    trampoline has rethrown, or that OnData has left pending, is what
    the caller gets in its place. On a closed handle it throws and the
    engine does not run. *)
Definition Perform (fuel : nat) (P : Performer) (H : Host) (obj : Easy) (m : Memory)
  : option Return * PerformRun :=
  if negb (isOpen obj) then
    (Some (RetThrow (JSError "Curl handle is closed.")),
     {| run_trace := []; run_obj := obj; run_mem := m; run_code := None |})
  else
    let run := curl_easy_perform fuel P H obj m [] in
    (match run_code run with
     | Some code =>
         Some (match pendingError (run_trace run) with
               | Some e => RetThrow e
               | None => RetValue (JSInt (int32_of code))
               end)
     | None => None
     end, run).

(** ** Several handles and the count of open ones *)

Record World := {
  handles : list Handle;
  currentOpenedHandles : Z
}.

Inductive WorldOp :=
| NewHandle
| CloseHandle (i : nat)
| MonitorHandle (i : nat)
| UnmonitorHandle (i : nat).

Definition isPollClose (c : UvCall) : bool :=
  match c with PollClose _ => true | _ => false end.
Definition isPollStart (c : UvCall) : bool :=
  match c with PollStart _ => true | _ => false end.

(** One operation of the host on the handles it holds: construct one
    more, or call close, monitorSocketEvents or unmonitorSocketEvents on
    the i-th. Two of these calls use memory that has been released, and
    are taken to stop the process: monitorSocketEvents has no isOpen
    test, so on a closed handle whose poll pointer is not set it reaches
    curl_easy_getinfo with the CURL* that curl_easy_cleanup freed; and
    unmonitorSocketEvents hands uv_poll_stop whatever the poll pointer
    holds, be it a poll handle that has been closed (OnSocketClose
    deletes it) or one that uv_poll_init_socket refused to set up. *)
Definition worldStep (L : Loop) (E : Engine) (w : World) (op : WorldOp)
  : outcome World :=
  match op with
  | NewHandle =>
      let '(h, n) := Easy_construct E (currentOpenedHandles w) in
      Done {| handles := handles w ++ [h]; currentOpenedHandles := n |}
  | CloseHandle i =>
      match handles w !! i with
      | None => Done w
      | Some h =>
          match Close L h (currentOpenedHandles w) with
          | Aborted why => Aborted why
          | Done (_, h', n) =>
              Done {| handles := <[i := h']> (handles w); currentOpenedHandles := n |}
          end
      end
  | MonitorHandle i =>
      match handles w !! i with
      | None => Done w
      | Some h =>
          if negb (isOpen (easy h)) && negb (bool_decide (is_Some (socketPollHandle h)))
          then Aborted "curl_easy_getinfo: handle released by curl_easy_cleanup"
          else
            Done {| handles := <[i := snd (MonitorSocketEvents L E h)]> (handles w);
                    currentOpenedHandles := currentOpenedHandles w |}
      end
  | UnmonitorHandle i =>
      match handles w !! i with
      | None => Done w
      | Some h =>
          if existsb isPollClose (uv_log h) || negb (existsb isPollStart (uv_log h))
          then Aborted "uv_poll_stop: poll handle closed or never set up"
          else
            match UnmonitorSocketEvents L h with
            | Aborted why => Aborted why
            | Done (_, h') =>
                Done {| handles := <[i := h']> (handles w);
                        currentOpenedHandles := currentOpenedHandles w |}
            end
      end
  end.

Fixpoint worldRun (L : Loop) (E : Engine) (w : World) (ops : list WorldOp)
  : outcome World :=
  match ops with
  | [] => Done w
  | op :: rest =>
      match worldStep L E w op with
      | Aborted why => Aborted why
      | Done w' => worldRun L E w' rest
      end
  end.

Definition World_empty : World := {| handles := []; currentOpenedHandles := 0 |}.

(** The handles of a list that are open, and what holds of the handles
    between two operations: a monitored one has its poll handle, and
    the counter is the number of open ones. *)
Definition countOpen (l : list Handle) : nat :=
  List.length (List.filter (fun h => isOpen (easy h)) l).

Definition openCount (w : World) : nat := countOpen (handles w).


(** The poll handles ever initialised on the loop for a handle. *)
Definition isPollInit (c : UvCall) : bool :=
  match c with PollInit _ => true | _ => false end.

Definition pollInits (h : Handle) : nat :=
  List.length (List.filter isPollInit (uv_log h)).

(** What holds of a handle between two calls of the host: while it
    monitors its socket it has a poll handle, and it has initialised a
    poll handle on the loop once if its pointer is set, never
    otherwise. *)
Definition handleInv (h : Handle) : Prop :=
  (isMonitoringSockets h = true -> is_Some (socketPollHandle h)) /\
  pollInits h = match socketPollHandle h with Some _ => 1%nat | None => 0%nat end.

Definition worldInv (w : World) : Prop :=
  Forall handleInv (handles w) /\
  currentOpenedHandles w = Z.of_nat (openCount w) mod 2 ^ 32.

(** Every closed handle was closed by one of the calls [done]. *)
Definition closedBy (done : list WorldOp) (w : World) : Prop :=
  forall i h, handles w !! i = Some h -> isOpen (easy h) = false ->
              In (CloseHandle i) done.

(** Where a series of calls can stop the process: at an
    unmonitorSocketEvents, or at a monitorSocketEvents on a handle that
    an earlier close of the series has released. *)
Definition stopsAt (ops : list WorldOp) : Prop :=
  exists i before after,
    ops = before ++ UnmonitorHandle i :: after \/
    ops = before ++ MonitorHandle i :: after /\ In (CloseHandle i) before.

(** An engine that reports progress, delivers two bytes and reports
    progress again before it ends the transfer with status 0. *)
Definition samplePerformer : Performer :=
  {| next_call := fun issued =>
       match List.length issued with
       | 0%nat => inl (OnProgress (DInt 10) (DInt 5) (DInt 0) (DInt 0))
       | 1%nat => inl (OnWrite [104; 105] 1 2)
       | 2%nat => inl (OnXferinfo 10 6 0 0)
       | _ => inr 0
       end |}.

(** A loop that accepts everything and one whose uv_poll_stop fails; an
    engine whose active socket is 5; a wire that sends everything and
    receives two bytes. *)
Definition sampleLoop : Loop :=
  {| uv_poll_init_socket := fun _ => 0; uv_poll_start := fun _ => 0;
     uv_poll_stop := fun _ => 0;
     UV_ERROR_STRING := fun _ => "uv error"; easy_strerror := fun _ => "curl error" |}.
Definition stuckLoop : Loop :=
  {| uv_poll_init_socket := fun _ => 0; uv_poll_start := fun _ => 0;
     uv_poll_stop := fun _ => -9;
     UV_ERROR_STRING := fun _ => "uv error"; easy_strerror := fun _ => "curl error" |}.
Definition socketEngine : Engine :=
  {| setopt_code := fun _ _ _ => CURLE_OK;
     formadd_code := fun _ _ => CURL_FORMADD_OK;
     getinfo_string := fun _ _ => (CURLE_OK, None);
     getinfo_double := fun _ _ => (CURLE_OK, DInt 0);
     getinfo_off_t := fun _ _ => (CURLE_OK, 0);
     getinfo_long := fun _ _ => (CURLE_OK, 0);
     getinfo_socket := fun _ _ => (CURLE_OK, 5);
     getinfo_slist := fun _ _ => (CURLE_OK, []) |}.
Definition sampleWire : Wire :=
  {| curl_easy_send := fun _ bytes => (CURLE_OK, Z.of_nat (List.length bytes));
     curl_easy_recv := fun _ _ => (CURLE_OK, [111; 107]) |}.
Definition newHandle : Handle := fst (Easy_construct socketEngine 0).
Definition newSampleEasy : Easy := Easy_new acceptingEngine.

(** The new handle once monitored, then unmonitored, and once closed. *)
Definition monitoredHandle : Handle :=
  fst (MonitorSockets sampleLoop socketEngine newHandle).
Definition unmonitoredHandle : Handle :=
  match UnmonitorSockets sampleLoop monitoredHandle with
  | Done (h, _) => h
  | Aborted _ => monitoredHandle
  end.
Definition closedHandle : Handle :=
  match Close sampleLoop newHandle 1 with
  | Done (_, h, _) => h
  | Aborted _ => newHandle
  end.

(** * Properties *)

(** ** The abort latch of the progress trampolines *)

Lemma routeError_flag obj e :
  isCbProgressAlreadyAborted (fst (routeError obj e)) =
  isCbProgressAlreadyAborted obj.
Proof. unfold routeError. by destruct (isInsideMultiHandle obj). Qed.

Section AbortLatch.
Context (H : Host).

Lemma progressTrampoline_latched obj slot what argv :
  isCbProgressAlreadyAborted obj = true ->
  progressTrampoline H obj slot what argv = Done (latchedResult obj).
Proof. intros Hf. unfold progressTrampoline. by rewrite Hf. Qed.

Lemma progressTrampoline_returned obj slot what argv r f args v :
  isCbProgressAlreadyAborted obj = false ->
  progressTrampoline H obj slot what argv = Done r ->
  cb_calls r = [(f, args)] ->
  invoke H f args = Returns v ->
  isCbProgressAlreadyAborted (cb_obj r) = signalsAbort (cb_ret r).
Proof.
  intros Hf Hr Hc Hv. unfold progressTrampoline in Hr. rewrite Hf in Hr.
  destruct (callbacks obj !! slot) as [g|]; [|done].
  destruct (invoke H g argv) as [w|e] eqn:Hg.
  - destruct (negb (IsInt32 w)).
    + pose proof (routeError_flag obj
        (JSTypeError ("Return value from the " +:+ what +:+
                      " callback must be an integer."))) as Hk.
      destruct (routeError obj _) as [obj' thrown]. simpl in *.
      by inversion Hr.
    + simpl in Hr. unfold signalsAbort.
      destruct (negb (To_int32 H w =? 0)) eqn:Hz; inversion Hr; simpl;
        by rewrite ?Hz.
  - destruct (routeError obj e) as [obj' thrown]. inversion Hr; subst r.
    simpl in Hc. inversion Hc; subst. congruence.
Qed.

(** The trampolines outside the progress class never write the flag. *)
Lemma int32Trampoline_flag obj slot what fail argv r :
  int32Trampoline H obj slot what fail argv = Done r ->
  isCbProgressAlreadyAborted (cb_obj r) = isCbProgressAlreadyAborted obj.
Proof.
  unfold int32Trampoline. destruct (callbacks obj !! slot) as [f|]; [|done].
  destruct (invoke H f argv) as [v|e].
  - destruct (negb (IsInt32 v)).
    + pose proof (routeError_flag obj
        (JSTypeError ("Return value from the " +:+ what +:+
                      " callback must be an integer."))) as Hk.
      destruct (routeError obj _). by intros [= <-].
    + by intros [= <-].
  - pose proof (routeError_flag obj e) as Hk.
    destruct (routeError obj e). by intros [= <-].
Qed.

Lemma CbTrailer_flag obj m headerList t :
  CbTrailer H obj m headerList = Done t ->
  isCbProgressAlreadyAborted (cb_obj (tr_cb t)) = isCbProgressAlreadyAborted obj.
Proof.
  unfold CbTrailer. destruct (callbacks obj !! CURLOPT_TRAILERFUNCTION) as [f|]; [|done].
  pose proof (routeError_flag obj returnValueCbTypeError) as Hk.
  destruct (invoke H f []) as [v|e].
  - destruct (negb (IsArray v) && negb (IsFalse v)).
    + destruct (routeError obj returnValueCbTypeError). by intros [= <-].
    + destruct (IsFalse v); [by intros [= <-]|].
      destruct (trailerRows H m headerList _) as [[m' p] ok].
      destruct ok; [by intros [= <-]|].
      destruct (routeError obj returnValueCbTypeError). by intros [= <-].
  - pose proof (routeError_flag obj e) as Hk'.
    destruct (routeError obj e). by intros [= <-].
Qed.

Lemma OnData_flag obj data size nmemb r :
  OnData H obj data size nmemb = Done r ->
  isCbProgressAlreadyAborted (cb_obj r) = isCbProgressAlreadyAborted obj.
Proof.
  unfold OnData. destruct (negb _ && _); [by intros [= <-]|].
  destruct (callbacks obj !! CURLOPT_WRITEFUNCTION) as [f|].
  - destruct (invoke H f _); by intros [= <-].
  - destruct (onData obj); try done; try (by intros [= <-]).
    destruct (invoke H f _); by intros [= <-].
Qed.

Lemma engineCall_latched obj m c :
  isCbProgressAlreadyAborted obj = true ->
  isProgressCall c = true ->
  engineCall H obj m c = Done (latchedResult obj, m).
Proof.
  intros Hf Hc. destruct c; try discriminate Hc; cbn [engineCall];
    unfold CbProgress, CbXferinfo; by rewrite progressTrampoline_latched.
Qed.

Lemma engineCall_keeps_latch obj m c r m' :
  isCbProgressAlreadyAborted obj = true ->
  engineCall H obj m c = Done (r, m') ->
  isCbProgressAlreadyAborted (cb_obj r) = true.
Proof.
  intros Hf Hr. destruct (isProgressCall c) eqn:Hc.
  - rewrite engineCall_latched in Hr by done. by inversion Hr.
  - rewrite <- Hf. destruct c; try discriminate Hc; cbn [engineCall] in Hr.
    + unfold CbChunkBgn in Hr.
      destruct (int32Trampoline _ _ _ _ _ _) eqn:Ht; [|done].
      inversion Hr; subst. by eapply int32Trampoline_flag.
    + unfold CbChunkEnd in Hr.
      destruct (int32Trampoline _ _ _ _ _ _) eqn:Ht; [|done].
      inversion Hr; subst. by eapply int32Trampoline_flag.
    + unfold CbDebug in Hr.
      destruct (int32Trampoline _ _ _ _ _ _) eqn:Ht; [|done].
      inversion Hr; subst. by eapply int32Trampoline_flag.
    + unfold CbFnMatch in Hr.
      destruct (int32Trampoline _ _ _ _ _ _) eqn:Ht; [|done].
      inversion Hr; subst. by eapply int32Trampoline_flag.
    + destruct (CbTrailer _ _ _ _) eqn:Ht; [|done].
      inversion Hr; subst. by eapply CbTrailer_flag.
    + unfold WriteFunction in Hr.
      destruct (OnData _ _ _ _ _) eqn:Ht; [|done].
      inversion Hr; subst. by eapply OnData_flag.
Qed.
End AbortLatch.

Lemma transfer_latched cs : forall obj m,
  isCbProgressAlreadyAborted obj = true ->
  Forall (fun x => isCbProgressAlreadyAborted (fst (fst x)) = true /\
                   (isProgressCall (snd (fst x)) = true ->
                    snd x = latchedResult (fst (fst x))))
         (transfer obj m cs).
Proof.
  induction cs as [|[H c] cs IH]; intros obj m Hf; [by constructor|].
  cbn [transfer]. destruct (engineCall H obj m c) as [[r m']|] eqn:Hr;
    [|by constructor].
  constructor.
  - split; [done|]. intros Hc. rewrite engineCall_latched in Hr by done.
    by inversion Hr.
  - apply IH. by eapply engineCall_keeps_latch.
Qed.

(** C1, as amended. Once the abort flag of a handle is set, a
    progress-class invocation (CbProgress or CbXferinfo, whatever the
    host would do) runs to its end without entering the host, leaves the
    handle as it is, flag included, and hands the engine 1: the value
    [returnValue] starts with, which the trampolines themselves read as
    an abort, not a value that lets the transfer go on. This holds all
    along any series of callback invocations the engine issues on the
    handle afterwards, since no trampoline clears the flag. On a handle
    whose flag is clear, a progress-class invocation in which the host
    callable returns without raising sets the flag exactly when the
    value it hands to the engine is non-zero. *)
Theorem progress_abort_latch :
  (forall H obj m c,
     isCbProgressAlreadyAborted obj = true ->
     isProgressCall c = true ->
     engineCall H obj m c = Done (latchedResult obj, m) /\
     signalsAbort (cb_ret (latchedResult obj)) = true) /\
  (forall obj m cs,
     isCbProgressAlreadyAborted obj = true ->
     Forall (fun x => isCbProgressAlreadyAborted (fst (fst x)) = true /\
                      (isProgressCall (snd (fst x)) = true ->
                       snd x = latchedResult (fst (fst x))))
            (transfer obj m cs)) /\
  (forall H obj m c r m' f args v,
     isCbProgressAlreadyAborted obj = false ->
     isProgressCall c = true ->
     engineCall H obj m c = Done (r, m') ->
     cb_calls r = [(f, args)] ->
     invoke H f args = Returns v ->
     isCbProgressAlreadyAborted (cb_obj r) = signalsAbort (cb_ret r)).
Proof.
  split; [|split].
  - intros H obj m c Hf Hc. split; [by apply engineCall_latched | done].
  - intros obj m cs Hf. by apply transfer_latched.
  - intros H obj m c r m' f args v Hf Hc Hr Hcalls Hv.
    destruct c; try discriminate Hc; cbn [engineCall] in Hr.
    + unfold CbProgress in Hr.
      destruct (progressTrampoline _ _ _ _ _) eqn:Ht; [|done].
      inversion Hr; subst. eapply progressTrampoline_returned; eauto.
    + unfold CbXferinfo in Hr.
      destruct (progressTrampoline _ _ _ _ _) eqn:Ht; [|done].
      inversion Hr; subst. eapply progressTrampoline_returned; eauto.
Qed.

Lemma progress_abort_latch_witness :
  (engineCall sampleHost latchedHandle Memory_empty
     (OnProgress (DInt 10) (DInt 5) (DInt 0) (DInt 0)) =
   Done (latchedResult latchedHandle, Memory_empty) /\
   signalsAbort (cb_ret (latchedResult latchedHandle)) = true) /\
  Forall (fun x => isCbProgressAlreadyAborted (fst (fst x)) = true /\
                   (isProgressCall (snd (fst x)) = true ->
                    snd x = latchedResult (fst (fst x))))
         (transfer latchedHandle Memory_empty
            [(sampleHost, OnProgress (DInt 10) (DInt 5) (DInt 0) (DInt 0));
             (sampleHost, OnWrite [104; 105] 1 2);
             (sampleHost, OnXferinfo 10 6 0 0)]) /\
  isCbProgressAlreadyAborted (cb_obj xferinfoAbortResult) =
  signalsAbort (cb_ret xferinfoAbortResult).
Proof.
  split; [|split].
  - apply (proj1 progress_abort_latch sampleHost latchedHandle Memory_empty
             (OnProgress (DInt 10) (DInt 5) (DInt 0) (DInt 0))); reflexivity.
  - apply (proj1 (proj2 progress_abort_latch) latchedHandle). reflexivity.
  - apply (proj2 (proj2 progress_abort_latch) sampleHost xferinfoHandle Memory_empty
             (OnXferinfo 10 6 0 0) xferinfoAbortResult Memory_empty
             1%nat [JSInt 10; JSInt 6; JSInt 0; JSInt 0] (JSInt 1));
      reflexivity.
Defined.

(** C1 as stated fails twice. A latched invocation hands the engine 1,
    which is an abort by the trampoline's own test, not a continue value;
    and an invocation whose host callable raises hands the engine the
    non-zero 1 while the flag stays clear. *)
Lemma progress_abort_latch_counterexample :
  (exists r, CbProgress sampleHost latchedHandle (DInt 10) (DInt 5) (DInt 0) (DInt 0) = Done r /\
             cb_calls r = [] /\ cb_ret r = 1 /\ signalsAbort (cb_ret r) = true) /\
  (exists r, CbProgress sampleHost raisingHandle (DInt 10) (DInt 5) (DInt 0) (DInt 0) = Done r /\
             cb_calls r = [(2%nat, [JSNumber (DInt 10); JSNumber (DInt 5);
                                    JSNumber (DInt 0); JSNumber (DInt 0)])] /\
             cb_ret r = 1 /\ signalsAbort (cb_ret r) = true /\
             isCbProgressAlreadyAborted (cb_obj r) = false).
Proof.
  split; eexists; (split; [reflexivity|]); by vm_compute.
Qed.

(** ** Errors raised by the host callable *)

(** Where a raised error [e] must end up, by the ownership of the
    handle: in [callbackError] with nothing pending, or pending with
    [callbackError] untouched. *)
Definition routed (obj : Easy) (e : JSValue) (r : CbResult) : Prop :=
  if isInsideMultiHandle obj
  then callbackError (cb_obj r) = Some e /\ cb_thrown r = None
  else callbackError (cb_obj r) = callbackError obj /\ cb_thrown r = Some e.

Section RaisedErrors.
Context (H : Host).

Lemma routeError_routed obj e ret calls :
  routed obj e {| cb_ret := ret; cb_obj := fst (routeError obj e);
                  cb_thrown := snd (routeError obj e); cb_calls := calls |}.
Proof. unfold routed, routeError. by destruct (isInsideMultiHandle obj). Qed.

Lemma int32Trampoline_raise obj slot what fail argv f e :
  callbacks obj !! slot = Some f ->
  invoke H f argv = Throws e ->
  exists r, int32Trampoline H obj slot what fail argv = Done r /\
            cb_ret r = fail /\ routed obj e r.
Proof.
  intros Hf He. unfold int32Trampoline. rewrite Hf, He.
  pose proof (routeError_routed obj e fail [(f, argv)]) as Hr.
  destruct (routeError obj e) as [obj' thrown]. eauto.
Qed.

Lemma progressTrampoline_raise obj slot what argv f e :
  isCbProgressAlreadyAborted obj = false ->
  callbacks obj !! slot = Some f ->
  invoke H f argv = Throws e ->
  exists r, progressTrampoline H obj slot what argv = Done r /\
            cb_ret r = 1 /\ routed obj e r.
Proof.
  intros Ha Hf He. unfold progressTrampoline. rewrite Ha, Hf, He.
  pose proof (routeError_routed obj e 1 [(f, argv)]) as Hr.
  destruct (routeError obj e) as [obj' thrown]. eauto.
Qed.

Lemma CbTrailer_raise obj m headerList f e :
  callbacks obj !! CURLOPT_TRAILERFUNCTION = Some f ->
  invoke H f [] = Throws e ->
  exists r, CbTrailer H obj m headerList = Done r /\
            cb_ret (tr_cb r) = CURL_TRAILERFUNC_ABORT /\ routed obj e (tr_cb r).
Proof.
  intros Hf He. unfold CbTrailer. rewrite Hf, He.
  pose proof (routeError_routed obj e CURL_TRAILERFUNC_ABORT [(f, [])]) as Hr.
  destruct (routeError obj e) as [obj' thrown]. eauto.
Qed.

(** OnData runs the callable outside any TryCatch: whatever the
    ownership of the handle, the error stays pending and
    [callbackError] is not written. *)
Lemma OnData_raise obj data size nmemb f e :
  callbacks obj !! CURLOPT_WRITEFUNCTION = Some f ->
  (forall argv, invoke H f argv = Throws e) ->
  exists calls,
    OnData H obj data size nmemb =
    Done {| cb_ret := 0; cb_obj := obj; cb_thrown := Some e; cb_calls := calls |}.
Proof.
  intros Hf He. unfold OnData. rewrite Hf.
  rewrite bool_decide_eq_true_2 by eauto. simpl. rewrite He. eauto.
Qed.
End RaisedErrors.

(** C2 at the data-received trampoline. On a handle owned by a Multi
    whose WRITEFUNCTION callable raises, OnData hands the engine 0 but
    leaves the deferred-error slot empty and the error pending for the
    host caller: the routing that CbChunkBgn, CbChunkEnd, CbDebug,
    CbFnMatch, CbProgress, CbTrailer and CbXferinfo perform is missing
    here. *)
Theorem OnData_raise_not_deferred :
  isInsideMultiHandle writeRaisingHandle = true /\
  WriteFunction sampleHost writeRaisingHandle [104; 105] 1 2 =
  Done {| cb_ret := 0; cb_obj := writeRaisingHandle;
          cb_thrown := Some (JSError "boom");
          cb_calls := [(2%nat, [JSBuffer [104; 105]; JSInt 1; JSInt 2])] |} /\
  callbackError writeRaisingHandle = None /\
  ~ routed writeRaisingHandle (JSError "boom")
      {| cb_ret := 0; cb_obj := writeRaisingHandle;
         cb_thrown := Some (JSError "boom");
         cb_calls := [(2%nat, [JSBuffer [104; 105]; JSInt 1; JSInt 2])] |}.
Proof.
  repeat split; try reflexivity.
  unfold routed. simpl. intros [Hc _]. discriminate Hc.
Qed.

(** ** Dispatch of SetOpt and GetInfo *)

Lemma eqb0_false z : z <> 0 -> (z =? 0) = false.
Proof. intros. by apply Z.eqb_neq. Qed.

Section Dispatch.
Context (H : Host) (E : Engine) (T : Tables).

Lemma SetOpt_linkedList obj m opt value :
  isOpen obj = true -> isLinkedListOption T opt ->
  SetOpt H E T obj m opt value =
  if curlOptionLinkedList T opt =? CURLOPT_HTTPPOST
  then SetOpt_httppost H E obj m value
  else SetOpt_slist H E obj m (curlOptionLinkedList T opt) value.
Proof.
  intros Ho (H1 & H2 & H3). unfold SetOpt.
  by rewrite Ho, H1, H2, (eqb0_false _ H3).
Qed.

Lemma SetOpt_stringOption obj m opt value :
  isOpen obj = true -> isStringOption T opt ->
  SetOpt H E T obj m opt value =
  SetOpt_string H E obj m (curlOptionString T opt) CURLE_UNKNOWN_OPTION value.
Proof.
  intros Ho (H1 & H2 & H3 & H4). unfold SetOpt.
  by rewrite Ho, H1, H2, H3, (eqb0_false _ H4).
Qed.

Lemma SetOpt_functionOption obj m opt value :
  isOpen obj = true -> isFunctionOption T opt ->
  SetOpt H E T obj m opt value =
  SetOpt_function E obj m (curlOptionFunction T opt) CURLE_UNKNOWN_OPTION value.
Proof.
  intros Ho (H1 & H2 & H3 & H4 & H5 & H6). unfold SetOpt.
  by rewrite Ho, H1, H2, H3, H4, H5, (eqb0_false _ H6).
Qed.

Lemma GetInfo_stringInfo obj infoVal :
  isOpen obj = true -> isStringInfo T infoVal ->
  GetInfo_dispatch E T obj infoVal =
  fromTmpl (GetInfoTmpl_char E obj (curlInfoString T infoVal)).
Proof.
  intros Ho (H1 & H2). unfold GetInfo_dispatch. by rewrite (eqb0_false _ H2).
Qed.
End Dispatch.

(** ** Strings read back from the engine *)

(** C3, as amended. For a string info, when the engine's retrieval call
    succeeds and yields a null pointer or an empty string, getInfo
    returns code 0 with the empty string as the value: the null pointer
    is turned into [Nan::EmptyString()], never into host null. *)
Theorem getInfo_null_string_is_empty H E T obj infoVal result :
  isOpen obj = true ->
  isStringInfo T infoVal ->
  getinfo_string E (ch obj) (curlInfoString T infoVal) = (CURLE_OK, result) ->
  result = None \/ result = Some EmptyString ->
  GetInfo H E T obj infoVal =
  Done (RetValue (infoObject CURLE_OK (JSString EmptyString))).
Proof.
  intros Ho Hs Hg Hr. unfold GetInfo.
  rewrite Ho, (proj1 Hs), GetInfo_stringInfo by done. simpl.
  unfold GetInfoTmpl_char. rewrite Hg. simpl.
  by destruct Hr as [-> | ->].
Qed.

Lemma getInfo_null_string_is_empty_witness :
  GetInfo sampleHost acceptingEngine sampleTables (Easy_new acceptingEngine)
    (JSString "EFFECTIVE_URL") =
  Done (RetValue (infoObject CURLE_OK (JSString EmptyString))).
Proof.
  apply (getInfo_null_string_is_empty sampleHost acceptingEngine sampleTables
           (Easy_new acceptingEngine) (JSString "EFFECTIVE_URL") None).
  - reflexivity.
  - split; [reflexivity | by vm_compute].
  - reflexivity.
  - by left.
Defined.

(** C3 as stated fails: with the engine reporting success and a null
    pointer for EFFECTIVE_URL, the value getInfo returns is the empty
    string and not host null. *)
Lemma getInfo_null_string_counterexample :
  getinfo_string acceptingEngine (ch (Easy_new acceptingEngine)) 1048577 = (CURLE_OK, None) /\
  GetInfo sampleHost acceptingEngine sampleTables (Easy_new acceptingEngine)
    (JSString "EFFECTIVE_URL") =
  Done (RetValue (JSObject [("code", JSInt 0); ("data", JSString EmptyString)])) /\
  GetInfo sampleHost acceptingEngine sampleTables (Easy_new acceptingEngine)
    (JSString "EFFECTIVE_URL") <>
  Done (RetValue (JSObject [("code", JSInt 0); ("data", JSNull)])).
Proof. repeat split; by vm_compute. Qed.

(** ** String options *)

(** Whatever the option, a string option set to null is refused by the
    type check that opens the branch: the handle is left as it was and
    the engine sees no call. *)
Lemma SetOpt_string_null H E obj m optionId code :
  SetOpt_string H E obj m optionId code JSNull =
  throwFrom obj m (JSTypeError "Option value must be a string.").
Proof. reflexivity. Qed.

(** C4 at URL := null. On an open handle, setOpt(URL, null) throws the
    type error of the string branch; no option-set call reaches the
    engine and no status code is returned. *)
Theorem setOpt_string_null_rejected :
  SetOpt sampleHost acceptingEngine sampleTables (Easy_new acceptingEngine)
    Memory_empty (JSString "URL") JSNull =
  {| so_ret := RetThrow (JSTypeError "Option value must be a string.");
     so_obj := Easy_new acceptingEngine; so_mem := Memory_empty |}.
Proof.
  rewrite SetOpt_stringOption.
  - apply SetOpt_string_null.
  - reflexivity.
  - repeat split; by vm_compute.
Qed.

(** ** Linked-list options *)

Section LinkedLists.
Context (H : Host).

Lemma buildSlist_grow array : forall m p,
  p <> 0%nat -> is_Some (slists m !! p) ->
  snd (buildSlist H m p array) = p /\
  slist_nodes (fst (buildSlist H m p array)) p =
  slist_nodes m p ++ map (nodeOf H) array.
Proof.
  induction array as [|x rest IH]; intros m p Hp [l Hl].
  - simpl. by rewrite app_nil_r.
  - destruct p as [|p']; [done|].
    cbn [buildSlist curl_slist_append map]. change (c_str (Utf8String H x)) with (nodeOf H x).
    destruct (IH {| slists := alter (fun l0 => l0 ++ [nodeOf H x]) (S p') (slists m);
                    brk := brk m |} (S p')) as [Hq Hn].
    + done.
    + cbn [slists]. rewrite lookup_alter_eq, Hl. by eexists.
    + split; [exact Hq|].
      rewrite Hn. unfold slist_nodes. cbn [slists].
      rewrite lookup_alter_eq, Hl. simpl. by rewrite <- app_assoc.
Qed.

(** The list built from an array has one node per element, in the
    order of the array, each holding the text of its element. *)
Lemma buildSlist_nodes m array :
  slist_nodes (fst (buildSlist H m 0%nat array)) (snd (buildSlist H m 0%nat array)) =
  map (nodeOf H) array.
Proof.
  destruct array as [|x rest]; [done|].
  cbn [buildSlist curl_slist_append map]. change (c_str (Utf8String H x)) with (nodeOf H x).
  destruct (buildSlist_grow rest
              {| slists := <[S (brk m) := [nodeOf H x]]> (slists m); brk := S (brk m) |}
              (S (brk m))) as [Hq Hn].
  - done.
  - cbn [slists]. rewrite lookup_insert_eq. by eexists.
  - rewrite Hq, Hn. unfold slist_nodes. cbn [slists]. by rewrite lookup_insert_eq.
Qed.

End LinkedLists.

(** C5 at HTTPHEADER := ["A: 1", "B: 2"] on an engine that rejects the
    option. The two-node list is built and handed to the engine, the
    engine answers CURLE_UNKNOWN_OPTION, the list is not registered in
    the Retained Allocation Store and the engine does not hold it; it is
    still allocated once the store has been destroyed. *)
Theorem setOpt_slist_rejected_leaks :
  so_ret rejectedHeaders = RetValue (JSInt CURLE_UNKNOWN_OPTION) /\
  last (setopt_log (ch (so_obj rejectedHeaders))) = Some (10023, VSlist 1) /\
  slist_nodes (so_mem rejectedHeaders) 1 = ["A: 1"; "B: 2"] /\
  slist (toFree (so_obj rejectedHeaders)) = [] /\
  options (ch (so_obj rejectedHeaders)) !! 10023 = None /\
  slists (ToFree_destroy (so_mem rejectedHeaders) (toFree (so_obj rejectedHeaders))) !! 1%nat =
    Some ["A: 1"; "B: 2"].
Proof. repeat split; by vm_compute. Qed.


(** ** The structured multipart post *)

Lemma findHttpPostId_spec s :
  match findHttpPostId s with
  | Some HP_NAME => s = "NAME"
  | Some HP_FILE => s = "FILE"
  | Some HP_CONTENTS => s = "CONTENTS"
  | Some HP_TYPE => s = "TYPE"
  | Some HP_FILENAME => s = "FILENAME"
  | None => existsb (fun it => String.eqb (fst it) s) curlOptionHttpPost = false
  end.
Proof.
  unfold findHttpPostId, curlOptionHttpPost. cbn [foldl existsb fst snd].
  destruct (String.eqb_spec "FILENAME" s) as [<-|]; [done|].
  destruct (String.eqb_spec "TYPE" s) as [<-|]; [done|].
  destruct (String.eqb_spec "CONTENTS" s) as [<-|]; [done|].
  destruct (String.eqb_spec "FILE" s) as [<-|]; [done|].
  destruct (String.eqb_spec "NAME" s) as [<-|]; done.
Qed.

Lemma markPostFlag_flags fl id s :
  match id with
  | HP_NAME => s = "NAME" | HP_FILE => s = "FILE" | HP_CONTENTS => s = "CONTENTS"
  | HP_TYPE => s = "TYPE" | HP_FILENAME => s = "FILENAME"
  end ->
  hasName (markPostFlag fl id) = hasName fl || String.eqb s "NAME" /\
  hasFile (markPostFlag fl id) = hasFile fl || String.eqb s "FILE" /\
  hasContent (markPostFlag fl id) = hasContent fl || String.eqb s "CONTENTS".
Proof.
  destruct id; intros ->; cbn; rewrite ?orb_true_r, ?orb_false_r; done.
Qed.

(** When the loop over the properties runs to its end, every key was
    known, every value was a string, and the flags record the keys met. *)
Lemma checkPostProps_inr props : forall fl fl',
  checkPostProps props fl = inr fl' ->
  hasUnknownKey props = false /\ hasNonStringValue props = false /\
  hasName fl' = hasName fl || hasKey "NAME" props /\
  hasFile fl' = hasFile fl || hasKey "FILE" props /\
  hasContent fl' = hasContent fl || hasKey "CONTENTS" props.
Proof.
  induction props as [|[k v] rest IH]; intros fl fl' Hc.
  - inversion Hc; subst. cbn. by rewrite !orb_false_r.
  - cbn [checkPostProps] in Hc.
    pose proof (findHttpPostId_spec (string_toupper (c_str k))) as Hs.
    destruct (findHttpPostId (string_toupper (c_str k))) as [id|] eqn:Hid; [|done].
    destruct (IsString v) eqn:Hv; [|done]. cbn [negb] in Hc.
    apply IH in Hc as (Hu & Hn & H1 & H2 & H3).
    destruct (markPostFlag_flags fl id (string_toupper (c_str k))) as (F1 & F2 & F3);
      [by destruct id|].
    unfold hasUnknownKey, hasNonStringValue, hasKey in *. cbn [existsb].
    unfold keyIs at 1 3 5. cbn [fst snd].
    rewrite Hv, H1, H2, H3, F1, F2, F3, !orb_assoc.
    fold hasUnknownKey hasNonStringValue. rewrite Hu, Hn.
    repeat split; try done.
    rewrite orb_false_r. unfold knownKey. cbn [fst].
    destruct id; subst; rewrite Hs; done.
Qed.

Section MultipartPost.
Context (H : Host) (E : Engine).




End MultipartPost.

Lemma markPostFlag_more fl id s :
  match id with
  | HP_NAME => s = "NAME" | HP_FILE => s = "FILE" | HP_CONTENTS => s = "CONTENTS"
  | HP_TYPE => s = "TYPE" | HP_FILENAME => s = "FILENAME"
  end ->
  hasContentType (markPostFlag fl id) = hasContentType fl || String.eqb s "TYPE" /\
  hasNewFileName (markPostFlag fl id) = hasNewFileName fl || String.eqb s "FILENAME".
Proof.
  destruct id; intros ->; cbn; rewrite ?orb_true_r, ?orb_false_r; done.
Qed.

Lemma checkPostProps_more props : forall fl fl',
  checkPostProps props fl = inr fl' ->
  hasContentType fl' = hasContentType fl || hasKey "TYPE" props /\
  hasNewFileName fl' = hasNewFileName fl || hasKey "FILENAME" props.
Proof.
  induction props as [|[k v] rest IH]; intros fl fl' Hc.
  - inversion Hc; subst. cbn. by rewrite !orb_false_r.
  - cbn [checkPostProps] in Hc.
    pose proof (findHttpPostId_spec (string_toupper (c_str k))) as Hs.
    destruct (findHttpPostId (string_toupper (c_str k))) as [id|] eqn:Hid; [|done].
    destruct (IsString v) eqn:Hv; [|done]. cbn [negb] in Hc.
    apply IH in Hc as (H1 & H2).
    destruct (markPostFlag_more fl id (string_toupper (c_str k))) as (F1 & F2);
      [by destruct id|].
    unfold hasKey in *. cbn [existsb]. unfold keyIs at 1 3. cbn [fst].
    by rewrite H1, H2, F1, F2, !orb_assoc.
Qed.

Lemma checkPostProps_complete props : forall fl,
  hasUnknownKey props = false ->
  hasNonStringValue props = false ->
  exists fl', checkPostProps props fl = inr fl'.
Proof.
  induction props as [|[k v] rest IH]; intros fl Hu Hn; [by eexists|].
  unfold hasUnknownKey, hasNonStringValue in Hu, Hn. cbn [existsb snd] in Hu, Hn.
  apply orb_false_iff in Hu as [Hk Hu], Hn as [Hv Hn].
  apply negb_false_iff in Hk, Hv. unfold knownKey in Hk. cbn [fst] in Hk.
  cbn [checkPostProps].
  pose proof (findHttpPostId_spec (string_toupper (c_str k))) as Hs.
  destruct (findHttpPostId (string_toupper (c_str k))) as [id|]; [|congruence].
  rewrite Hv. cbn [negb]. by apply IH.
Qed.

Section WellFormedPost.
Context (H : Host) (E : Engine).
Hypothesis formadd_ok : forall body f, formadd_code E body f = CURL_FORMADD_OK.

Lemma addPostRow_wellformed httpPost props :
  malformedDescriptor props = false ->
  addPostRow H E httpPost props =
  inr {| first := first httpPost ++ [fieldOfDescriptor H props] |}.
Proof.
  intros Hm. unfold malformedDescriptor in Hm.
  apply orb_false_iff in Hm as [Hm Hn].
  apply orb_false_iff in Hm as [Hm Hcf].
  apply orb_false_iff in Hm as [Hu Hname].
  apply negb_false_iff in Hname.
  destruct (checkPostProps_complete props noPostFlags Hu Hn) as [fl Hc].
  pose proof (checkPostProps_inr props _ _ Hc) as (_ & _ & H1 & H2 & H3).
  pose proof (checkPostProps_more props _ _ Hc) as (H4 & H5).
  cbn [noPostFlags hasName hasFile hasContent hasContentType hasNewFileName orb]
    in H1, H2, H3, H4, H5.
  unfold addPostRow, fieldOfDescriptor, CurlHttpPost_Add.
  rewrite Hc, H1, H2, H3, H4, H5, Hname. cbn [negb].
  destruct (hasKey "FILE" props) eqn:Hf.
  - destruct (hasKey "TYPE" props); [destruct (hasKey "FILENAME" props)|];
      by rewrite formadd_ok.
  - cbn [negb andb] in Hcf. rewrite andb_true_r in Hcf.
    apply negb_false_iff in Hcf. rewrite Hcf. by rewrite formadd_ok.
Qed.

Lemma addPostRows_wellformed rows : forall httpPost,
  existsb malformedRow rows = false ->
  addPostRows H E httpPost rows =
  inr {| first := first httpPost ++
                  map (fun row => fieldOfDescriptor H (ownProps row)) rows |}.
Proof.
  induction rows as [|row rest IH]; intros httpPost Hm.
  - cbn. rewrite app_nil_r. by destruct httpPost.
  - cbn [existsb] in Hm. apply orb_false_iff in Hm as [Hrow Hrest].
    unfold malformedRow in Hrow. apply orb_false_iff in Hrow as [Ho Hd].
    apply negb_false_iff in Ho. cbn [addPostRows]. rewrite Ho. cbn [negb].
    rewrite addPostRow_wellformed by done. rewrite IH by done.
    cbn [first map]. by rewrite <- app_assoc.
Qed.
End WellFormedPost.




(** ** The Callback Registry and the engine's callback pointers *)

Section CallbackOptions.
Context (E : Engine).

Lemma SetOpt_callback_spec obj m slot data fn value :
  IsFunction value = true \/ value = JSNull ->
  pointerAssigned E (SetOpt_callback E obj m slot data fn value)
    (if IsFunction value then fst (curl_easy_setopt E (ch obj) data VObj)
     else fst (curl_easy_setopt E (ch obj) data VNull))
    slot (pointerFor fn value) /\
  (registered (so_obj (SetOpt_callback E obj m slot data fn value)) slot <->
   IsFunction value = true).
Proof.
  intros [Hv | ->]; [destruct value; try discriminate Hv|];
    unfold SetOpt_callback, pointerAssigned, curl_easy_setopt, registered, pointerFor;
    cbn -[setopt_code].
  - split; [done|]. rewrite lookup_insert_eq. split; [done | by intros _; eexists].
  - split; [done|]. rewrite lookup_delete_eq. split; [by intros [? ?] | done].
Qed.

Lemma SetOpt_chunk_spec obj m slot other fn value :
  IsFunction value = true \/ value = JSNull ->
  pointerAssigned E (SetOpt_chunk E obj m slot other fn value)
    (if IsFunction value then fst (curl_easy_setopt E (ch obj) CURLOPT_CHUNK_DATA VObj)
     else if bool_decide (registered obj other) then ch obj
     else fst (curl_easy_setopt E (ch obj) CURLOPT_CHUNK_DATA VNull))
    slot (pointerFor fn value) /\
  (registered (so_obj (SetOpt_chunk E obj m slot other fn value)) slot <->
   IsFunction value = true).
Proof.
  intros [Hv | ->]; [destruct value; try discriminate Hv|];
    unfold SetOpt_chunk, pointerAssigned, curl_easy_setopt, registered, pointerFor;
    cbn -[setopt_code].
  - split; [done|]. rewrite lookup_insert_eq. split; [done | by intros _; eexists].
  - split; [by case_bool_decide|].
    rewrite lookup_delete_eq. split; [by intros [? ?] | done].
Qed.
End CallbackOptions.

Lemma typeCheck_function value :
  IsFunction value = true \/ value = JSNull ->
  negb (IsFunction value) && negb (IsNull value) = false.
Proof. intros [-> | ->]; done. Qed.

Lemma SetOpt_function_spec E obj m slot fn code0 value :
  In (slot, fn) engineCallbacks ->
  IsFunction value = true \/ value = JSNull ->
  pointerAssigned E (SetOpt_function E obj m slot code0 value)
    (beforePointerCall E obj slot value) slot (pointerFor fn value) /\
  (registered (so_obj (SetOpt_function E obj m slot code0 value)) slot <->
   IsFunction value = true).
Proof.
  intros Hin Hv. unfold SetOpt_function. rewrite (typeCheck_function _ Hv).
  cbn in Hin.
  destruct Hin as [Heq|[Heq|[Heq|[Heq|[Heq|[Heq|[Heq|[]]]]]]]];
    inversion Heq; subst slot fn; cbn [Z.eqb Pos.eqb];
    unfold beforePointerCall, otherChunk, userDataOption;
    cbn [Z.eqb Pos.eqb orb CURLOPT_CHUNK_BGN_FUNCTION CURLOPT_CHUNK_END_FUNCTION
         CURLOPT_DEBUGFUNCTION CURLOPT_FNMATCH_FUNCTION CURLOPT_PROGRESSFUNCTION
         CURLOPT_TRAILERFUNCTION CURLOPT_XFERINFOFUNCTION];
    first [ by apply SetOpt_chunk_spec | by apply SetOpt_callback_spec ].
Qed.

(** C7, as amended. Setting a callback option that has an engine-side
    function pointer of its own (every one but WRITEFUNCTION) to a
    callable or to null updates the Callback Registry whatever the
    engine answers: the entry is present after the call exactly when the
    value was a callable. The status the call returns is the engine's
    answer to the function-pointer assignment, the last option-set call
    made, on the engine handle as the user-data call before it left it;
    the engine handle after the call is what that assignment leaves.
    When that answer is success the engine holds the trampoline for a
    callable and a null pointer for null, so the engine-side pointer is
    installed exactly when the registry entry is present. *)
Theorem setOpt_callback_registry H E T obj m opt value slot fn :
  isOpen obj = true ->
  isFunctionOption T opt ->
  curlOptionFunction T opt = slot ->
  In (slot, fn) engineCallbacks ->
  IsFunction value = true \/ value = JSNull ->
  so_ret (SetOpt H E T obj m opt value) =
    RetValue (JSInt (setopt_code E (beforePointerCall E obj slot value) slot
                       (pointerFor fn value))) /\
  ch (so_obj (SetOpt H E T obj m opt value)) =
    fst (curl_easy_setopt E (beforePointerCall E obj slot value) slot
           (pointerFor fn value)) /\
  last (setopt_log (ch (so_obj (SetOpt H E T obj m opt value)))) =
    Some (slot, pointerFor fn value) /\
  (registered (so_obj (SetOpt H E T obj m opt value)) slot <->
   IsFunction value = true) /\
  (setopt_code E (beforePointerCall E obj slot value) slot (pointerFor fn value) =
     CURLE_OK ->
   (installed (so_obj (SetOpt H E T obj m opt value)) slot <->
    registered (so_obj (SetOpt H E T obj m opt value)) slot)).
Proof.
  intros Ho Hf Hs Hin Hv. rewrite SetOpt_functionOption, Hs by done.
  destruct (SetOpt_function_spec E obj m slot fn CURLE_UNKNOWN_OPTION value Hin Hv)
    as ([Hr Hch] & Hreg).
  split; [done|]. split; [done|]. split.
  { rewrite Hch. unfold curl_easy_setopt. cbn [fst setopt_log]. by rewrite last_snoc. }
  split; [done|]. intros Hc.
  assert (options (ch (so_obj (SetOpt_function E obj m slot CURLE_UNKNOWN_OPTION value)))
            !! slot = Some (pointerFor fn value)) as Hopt.
  { rewrite Hch. unfold curl_easy_setopt. cbn [fst options]. rewrite Hc.
    cbn. by rewrite lookup_insert_eq. }
  split.
  - intros [fn' Hi]. apply Hreg. rewrite Hopt in Hi.
    unfold pointerFor in Hi. by destruct (IsFunction value).
  - intros Hg. apply Hreg in Hg. unfold installed. rewrite Hopt.
    unfold pointerFor. rewrite Hg. by exists fn.
Qed.

Lemma setOpt_callback_registry_witness :
  so_ret (SetOpt sampleHost acceptingEngine sampleTables (Easy_new acceptingEngine)
            Memory_empty (JSString "DEBUGFUNCTION") (JSFunction 0)) =
    RetValue (JSInt (setopt_code acceptingEngine
                       (beforePointerCall acceptingEngine (Easy_new acceptingEngine)
                          CURLOPT_DEBUGFUNCTION (JSFunction 0))
                       CURLOPT_DEBUGFUNCTION (pointerFor Fn_CbDebug (JSFunction 0)))) /\
  ch (so_obj (SetOpt sampleHost acceptingEngine sampleTables (Easy_new acceptingEngine)
                Memory_empty (JSString "DEBUGFUNCTION") (JSFunction 0))) =
    fst (curl_easy_setopt acceptingEngine
           (beforePointerCall acceptingEngine (Easy_new acceptingEngine)
              CURLOPT_DEBUGFUNCTION (JSFunction 0))
           CURLOPT_DEBUGFUNCTION (pointerFor Fn_CbDebug (JSFunction 0))) /\
  last (setopt_log (ch (so_obj
    (SetOpt sampleHost acceptingEngine sampleTables (Easy_new acceptingEngine)
       Memory_empty (JSString "DEBUGFUNCTION") (JSFunction 0))))) =
    Some (CURLOPT_DEBUGFUNCTION, pointerFor Fn_CbDebug (JSFunction 0)) /\
  (registered (so_obj
     (SetOpt sampleHost acceptingEngine sampleTables (Easy_new acceptingEngine)
        Memory_empty (JSString "DEBUGFUNCTION") (JSFunction 0)))
     CURLOPT_DEBUGFUNCTION <->
   IsFunction (JSFunction 0) = true) /\
  (setopt_code acceptingEngine
     (beforePointerCall acceptingEngine (Easy_new acceptingEngine)
        CURLOPT_DEBUGFUNCTION (JSFunction 0))
     CURLOPT_DEBUGFUNCTION (pointerFor Fn_CbDebug (JSFunction 0)) = CURLE_OK ->
   (installed (so_obj
      (SetOpt sampleHost acceptingEngine sampleTables (Easy_new acceptingEngine)
         Memory_empty (JSString "DEBUGFUNCTION") (JSFunction 0)))
      CURLOPT_DEBUGFUNCTION <->
    registered (so_obj
      (SetOpt sampleHost acceptingEngine sampleTables (Easy_new acceptingEngine)
         Memory_empty (JSString "DEBUGFUNCTION") (JSFunction 0)))
      CURLOPT_DEBUGFUNCTION)).
Proof.
  apply (setOpt_callback_registry sampleHost acceptingEngine sampleTables
           (Easy_new acceptingEngine) Memory_empty (JSString "DEBUGFUNCTION")
           (JSFunction 0) CURLOPT_DEBUGFUNCTION Fn_CbDebug).
  - reflexivity.
  - repeat split; by vm_compute.
  - reflexivity.
  - cbn. tauto.
  - by left.
Defined.

(** C7 as stated fails twice. When the engine rejects DEBUGFUNCTION the
    call returns the failure status, the engine holds no pointer, and the
    registry entry is present all the same. And WRITEFUNCTION set to null
    returns success with no registry entry while the engine keeps the
    write trampoline installed at construction. *)
Lemma setOpt_callback_registry_counterexample :
  (so_ret rejectedDebug = RetValue (JSInt CURLE_UNKNOWN_OPTION) /\
   callbacks (so_obj rejectedDebug) !! CURLOPT_DEBUGFUNCTION = Some 0%nat /\
   options (ch (so_obj rejectedDebug)) !! CURLOPT_DEBUGFUNCTION = None) /\
  (so_ret clearedWrite = RetValue (JSInt CURLE_OK) /\
   callbacks (so_obj clearedWrite) !! CURLOPT_WRITEFUNCTION = None /\
   options (ch (so_obj clearedWrite)) !! CURLOPT_WRITEFUNCTION =
     Some (VFunc Fn_WriteFunction)).
Proof. repeat split; by vm_compute. Qed.

(** ** The user-data slot shared by the chunk callbacks *)

Lemma SetOpt_chunk_null E obj m slot other fn :
  slot <> other -> slot <> CURLOPT_CHUNK_DATA ->
  callbacks (so_obj (SetOpt_chunk E obj m slot other fn JSNull)) !! slot = None /\
  callbacks (so_obj (SetOpt_chunk E obj m slot other fn JSNull)) !! other =
    callbacks obj !! other /\
  setopt_log (ch (so_obj (SetOpt_chunk E obj m slot other fn JSNull))) =
    setopt_log (ch obj)
    ++ (if bool_decide (registered obj other) then [] else [(CURLOPT_CHUNK_DATA, VNull)])
    ++ [(slot, VNull)] /\
  (registered obj other ->
   options (ch (so_obj (SetOpt_chunk E obj m slot other fn JSNull))) !! CURLOPT_CHUNK_DATA =
     options (ch obj) !! CURLOPT_CHUNK_DATA) /\
  (~ registered obj other ->
   setopt_code E (ch obj) CURLOPT_CHUNK_DATA VNull = CURLE_OK ->
   options (ch (so_obj (SetOpt_chunk E obj m slot other fn JSNull))) !! CURLOPT_CHUNK_DATA =
     Some VNull) /\
  so_ret (SetOpt_chunk E obj m slot other fn JSNull) =
    RetValue (JSInt (setopt_code E
      (if bool_decide (registered obj other) then ch obj
       else fst (curl_easy_setopt E (ch obj) CURLOPT_CHUNK_DATA VNull)) slot VNull)) /\
  options (ch (so_obj (SetOpt_chunk E obj m slot other fn JSNull))) !! slot =
    (if setopt_code E
          (if bool_decide (registered obj other) then ch obj
           else fst (curl_easy_setopt E (ch obj) CURLOPT_CHUNK_DATA VNull)) slot VNull
        =? CURLE_OK
     then Some VNull else options (ch obj) !! slot).
Proof.
  intros Hne Hd. unfold SetOpt_chunk, curl_easy_setopt, registered.
  cbn -[setopt_code]. case_bool_decide as Hreg; cbn -[setopt_code].
  - split; [by rewrite lookup_delete_eq|].
    split; [by rewrite lookup_delete_ne|].
    split; [done|]. split; [|split; [done|]].
    + intros _. destruct (_ =? CURLE_OK); [by rewrite lookup_insert_ne | done].
    + split; [done|]. destruct (_ =? CURLE_OK); [by rewrite lookup_insert_eq | done].
  - split; [by rewrite lookup_delete_eq|].
    split; [by rewrite lookup_delete_ne|].
    split; [by rewrite <- app_assoc|]. split; [done|]. split.
    + intros _ Hc. rewrite Hc. cbn.
      destruct (_ =? CURLE_OK);
        [rewrite lookup_insert_ne by done|]; by rewrite lookup_insert_eq.
    + split; [done|].
      destruct (setopt_code E _ slot VNull =? CURLE_OK).
      * by rewrite lookup_insert_eq.
      * destruct (_ =? CURLE_OK); [by rewrite lookup_insert_ne | done].
Qed.

(** C8. Setting CHUNK_BGN_FUNCTION or CHUNK_END_FUNCTION to null removes
    its entry from the Callback Registry, leaves the entry of the other
    chunk callback alone, and clears the function pointer in the engine:
    the last call made is the assignment of a null pointer, the status
    returned is the engine's answer to it, and the engine holds a null
    pointer for the callback when that answer is success (and what it
    held before otherwise). The engine is asked to clear CHUNK_DATA,
    before that, only when the other chunk callback is not registered;
    while the other is registered no call touches CHUNK_DATA and the
    slot keeps what was installed. *)
Theorem setOpt_chunk_null_shared_data H E T obj m opt slot other :
  isOpen obj = true ->
  isFunctionOption T opt ->
  curlOptionFunction T opt = slot ->
  (slot = CURLOPT_CHUNK_BGN_FUNCTION /\ other = CURLOPT_CHUNK_END_FUNCTION) \/
  (slot = CURLOPT_CHUNK_END_FUNCTION /\ other = CURLOPT_CHUNK_BGN_FUNCTION) ->
  callbacks (so_obj (SetOpt H E T obj m opt JSNull)) !! slot = None /\
  callbacks (so_obj (SetOpt H E T obj m opt JSNull)) !! other =
    callbacks obj !! other /\
  setopt_log (ch (so_obj (SetOpt H E T obj m opt JSNull))) =
    setopt_log (ch obj)
    ++ (if bool_decide (registered obj other) then [] else [(CURLOPT_CHUNK_DATA, VNull)])
    ++ [(slot, VNull)] /\
  (registered obj other ->
   options (ch (so_obj (SetOpt H E T obj m opt JSNull))) !! CURLOPT_CHUNK_DATA =
     options (ch obj) !! CURLOPT_CHUNK_DATA) /\
  (~ registered obj other ->
   setopt_code E (ch obj) CURLOPT_CHUNK_DATA VNull = CURLE_OK ->
   options (ch (so_obj (SetOpt H E T obj m opt JSNull))) !! CURLOPT_CHUNK_DATA =
     Some VNull) /\
  so_ret (SetOpt H E T obj m opt JSNull) =
    RetValue (JSInt (setopt_code E
      (if bool_decide (registered obj other) then ch obj
       else fst (curl_easy_setopt E (ch obj) CURLOPT_CHUNK_DATA VNull)) slot VNull)) /\
  options (ch (so_obj (SetOpt H E T obj m opt JSNull))) !! slot =
    (if setopt_code E
          (if bool_decide (registered obj other) then ch obj
           else fst (curl_easy_setopt E (ch obj) CURLOPT_CHUNK_DATA VNull)) slot VNull
        =? CURLE_OK
     then Some VNull else options (ch obj) !! slot).
Proof.
  intros Ho Hf Hs Hso. rewrite SetOpt_functionOption, Hs by done.
  destruct Hso as [[-> ->] | [-> ->]]; unfold SetOpt_function;
    cbn [IsFunction IsNull negb andb Z.eqb Pos.eqb
         CURLOPT_CHUNK_BGN_FUNCTION CURLOPT_CHUNK_END_FUNCTION];
    by apply SetOpt_chunk_null.
Qed.

Lemma setOpt_chunk_null_shared_data_witness :
  callbacks (so_obj (SetOpt sampleHost acceptingEngine sampleTables chunkBothHandle
                       Memory_empty (JSString "CHUNK_BGN_FUNCTION") JSNull))
    !! CURLOPT_CHUNK_BGN_FUNCTION = None /\
  callbacks (so_obj (SetOpt sampleHost acceptingEngine sampleTables chunkBothHandle
                       Memory_empty (JSString "CHUNK_BGN_FUNCTION") JSNull))
    !! CURLOPT_CHUNK_END_FUNCTION =
    callbacks chunkBothHandle !! CURLOPT_CHUNK_END_FUNCTION /\
  setopt_log (ch (so_obj (SetOpt sampleHost acceptingEngine sampleTables chunkBothHandle
                            Memory_empty (JSString "CHUNK_BGN_FUNCTION") JSNull))) =
    setopt_log (ch chunkBothHandle)
    ++ (if bool_decide (registered chunkBothHandle CURLOPT_CHUNK_END_FUNCTION)
        then [] else [(CURLOPT_CHUNK_DATA, VNull)])
    ++ [(CURLOPT_CHUNK_BGN_FUNCTION, VNull)] /\
  (registered chunkBothHandle CURLOPT_CHUNK_END_FUNCTION ->
   options (ch (so_obj (SetOpt sampleHost acceptingEngine sampleTables chunkBothHandle
                          Memory_empty (JSString "CHUNK_BGN_FUNCTION") JSNull)))
     !! CURLOPT_CHUNK_DATA =
     options (ch chunkBothHandle) !! CURLOPT_CHUNK_DATA) /\
  (~ registered chunkBothHandle CURLOPT_CHUNK_END_FUNCTION ->
   setopt_code acceptingEngine (ch chunkBothHandle) CURLOPT_CHUNK_DATA VNull = CURLE_OK ->
   options (ch (so_obj (SetOpt sampleHost acceptingEngine sampleTables chunkBothHandle
                          Memory_empty (JSString "CHUNK_BGN_FUNCTION") JSNull)))
     !! CURLOPT_CHUNK_DATA = Some VNull) /\
  so_ret (SetOpt sampleHost acceptingEngine sampleTables chunkBothHandle
            Memory_empty (JSString "CHUNK_BGN_FUNCTION") JSNull) =
    RetValue (JSInt (setopt_code acceptingEngine
      (if bool_decide (registered chunkBothHandle CURLOPT_CHUNK_END_FUNCTION)
       then ch chunkBothHandle
       else fst (curl_easy_setopt acceptingEngine (ch chunkBothHandle)
                   CURLOPT_CHUNK_DATA VNull))
      CURLOPT_CHUNK_BGN_FUNCTION VNull)) /\
  options (ch (so_obj (SetOpt sampleHost acceptingEngine sampleTables chunkBothHandle
                         Memory_empty (JSString "CHUNK_BGN_FUNCTION") JSNull)))
    !! CURLOPT_CHUNK_BGN_FUNCTION =
    (if setopt_code acceptingEngine
          (if bool_decide (registered chunkBothHandle CURLOPT_CHUNK_END_FUNCTION)
           then ch chunkBothHandle
           else fst (curl_easy_setopt acceptingEngine (ch chunkBothHandle)
                       CURLOPT_CHUNK_DATA VNull))
          CURLOPT_CHUNK_BGN_FUNCTION VNull =? CURLE_OK
     then Some VNull
     else options (ch chunkBothHandle) !! CURLOPT_CHUNK_BGN_FUNCTION).
Proof.
  apply (setOpt_chunk_null_shared_data sampleHost acceptingEngine sampleTables
           chunkBothHandle Memory_empty (JSString "CHUNK_BGN_FUNCTION")
           CURLOPT_CHUNK_BGN_FUNCTION CURLOPT_CHUNK_END_FUNCTION).
  - reflexivity.
  - repeat split; by vm_compute.
  - reflexivity.
  - left. split; reflexivity.
Defined.

(** The scenario of the specification: with both chunk callbacks set,
    clearing CHUNK_BGN_FUNCTION leaves CHUNK_DATA installed; clearing
    CHUNK_END_FUNCTION afterwards clears it. *)
Example chunk_data_cleared_last :
  options (ch chunkBothHandle) !! CURLOPT_CHUNK_DATA = Some VObj /\
  options (ch (so_obj (SetOpt sampleHost acceptingEngine sampleTables chunkBothHandle
                         Memory_empty (JSString "CHUNK_BGN_FUNCTION") JSNull)))
    !! CURLOPT_CHUNK_DATA = Some VObj /\
  options (ch (so_obj (SetOpt sampleHost acceptingEngine sampleTables chunkBothHandle
                         Memory_empty (JSString "CHUNK_BGN_FUNCTION") JSNull)))
    !! CURLOPT_CHUNK_BGN_FUNCTION = Some VNull /\
  options (ch (so_obj
    (SetOpt sampleHost acceptingEngine sampleTables
       (so_obj (SetOpt sampleHost acceptingEngine sampleTables chunkBothHandle
                  Memory_empty (JSString "CHUNK_BGN_FUNCTION") JSNull))
       Memory_empty (JSString "CHUNK_END_FUNCTION") JSNull)))
    !! CURLOPT_CHUNK_DATA = Some VNull.
Proof. repeat split; by vm_compute. Qed.

(** ** Decimal texts *)

Lemma keep_digits_app a b :
  keep_digits (a +:+ b) = keep_digits a +:+ keep_digits b.
Proof.
  induction a as [|c a IH]; [done|]. simpl.
  destruct (isdigit c); simpl; by rewrite IH.
Qed.

Lemma keep_digits_uint d :
  keep_digits (NilEmpty.string_of_uint d) = NilEmpty.string_of_uint d.
Proof. induction d; cbn; by rewrite ?IHd. Qed.

Lemma parse_digits_acc d : forall acc : positive,
  parse_digits (NilEmpty.string_of_uint d) (Z.pos acc) = Z.pos (Pos.of_uint_acc d acc).
Proof.
  induction d; intros acc; cbn [NilEmpty.string_of_uint parse_digits Pos.of_uint_acc];
    [done|..];
    (change (isdigit _) with true; cbn match;
     match goal with
     | |- parse_digits _ ?z = Z.pos (Pos.of_uint_acc _ ?q) =>
         replace z with (Z.pos q)
           by (match goal with
               | |- context [digit_value ?c] =>
                   let v := eval vm_compute in (digit_value c) in
                   change (digit_value c) with v
               end; lia)
     end; apply IHd).
Qed.

Lemma parse_digits_uint d :
  parse_digits (NilEmpty.string_of_uint d) 0 = Z.of_N (Pos.of_uint d).
Proof.
  induction d; cbn [NilEmpty.string_of_uint parse_digits Pos.of_uint]; [done|..];
    change (isdigit _) with true; cbn match;
    first [ exact IHd | apply (parse_digits_acc d) ].
Qed.

Lemma to_string_pos p : to_string (Z.pos p) = NilEmpty.string_of_uint (Pos.to_uint p).
Proof.
  unfold to_string. cbn [Z.to_int NilZero.string_of_int].
  pose proof (Unsigned.to_uint_nonnil p). by destruct (Pos.to_uint p).
Qed.

Lemma keep_digits_to_string c : 0 <= c -> keep_digits (to_string c) = to_string c.
Proof.
  destruct c as [|p|p]; [done| |lia]. intros _.
  rewrite to_string_pos. apply keep_digits_uint.
Qed.

Lemma parse_digits_to_string c : 0 <= c -> parse_digits (to_string c) 0 = c.
Proof.
  destruct c as [|p|p]; [done| |lia]. intros _.
  by rewrite to_string_pos, parse_digits_uint, Unsigned.of_to.
Qed.

Lemma parse_digits_keep s : forall acc,
  parse_digits (keep_digits s) acc =
  fold_left (fun acc c => 10 * acc + digit_value c)
            (List.filter isdigit (list_ascii_of_string s)) acc.
Proof.
  induction s as [|c s IH]; intros acc; [done|].
  cbn [keep_digits list_ascii_of_string List.filter].
  destruct (isdigit c) eqn:Hc; [|apply IH].
  cbn [parse_digits fold_left]. rewrite Hc, IH. f_equal. lia.
Qed.

Lemma keep_digits_head s c r : keep_digits s = String c r -> isdigit c = true.
Proof.
  induction s as [|a s IH]; [done|]. cbn [keep_digits].
  destruct (isdigit a) eqn:Ha; [|done]. by intros [= <- _].
Qed.

Lemma hasDigits_keep s : hasDigits s = (0 <? String.length (keep_digits s))%nat.
Proof.
  unfold hasDigits. induction s as [|c s IH]; [done|].
  cbn [keep_digits list_ascii_of_string existsb]. by destruct (isdigit c).
Qed.

(** The code recovered from a caught exception is the number its
    message's digits spell, 43 when the message has no digit, provided
    the number fits an int. *)
Lemma caughtCode_digits H e :
  digitsValue (exceptionMessage H e) <= INT32_MAX ->
  caughtCode H e =
  Some (if hasDigits (exceptionMessage H e)
        then digitsValue (exceptionMessage H e)
        else CURLE_BAD_FUNCTION_ARGUMENT).
Proof.
  intros Hfit. unfold caughtCode, digitsValue in *.
  rewrite hasDigits_keep, <- parse_digits_keep in *.
  destruct (keep_digits (exceptionMessage H e)) as [|c r] eqn:Hk; [done|].
  cbn [String.length Nat.ltb Nat.leb]. unfold stoi.
  rewrite (keep_digits_head _ _ _ Hk).
  by rewrite (proj2 (Z.leb_le _ _) Hfit).
Qed.

(** ** getInfo on a failing retrieval *)

Lemma tmpl_caught {R : Type} (getinfo : CURL -> Z -> Z * R) toNumber obj infoId e :
  validCode (fst (getinfo (ch obj) infoId)) ->
  snd (GetInfoTmpl_number getinfo toNumber obj infoId) = Some e ->
  exists c, 0 < c <= INT32_MAX /\ e = JSError (to_string c) /\
            fst (GetInfoTmpl_number getinfo toNumber obj infoId) = JSUndefined.
Proof.
  unfold GetInfoTmpl_number, validCode.
  destruct (getinfo (ch obj) infoId) as [code result]. cbn [fst].
  destruct (Z.eqb_spec code CURLE_OK) as [->|Hne]; cbn; [done|].
  intros Hv [= <-]. exists code. unfold CURLE_OK in Hne. repeat split; lia || done.
Qed.

Lemma tmpl_char_caught E obj infoId e :
  validCode (fst (getinfo_string E (ch obj) infoId)) ->
  snd (GetInfoTmpl_char E obj infoId) = Some e ->
  exists c, 0 < c <= INT32_MAX /\ e = JSError (to_string c) /\
            fst (GetInfoTmpl_char E obj infoId) = JSUndefined.
Proof.
  unfold GetInfoTmpl_char, validCode.
  destruct (getinfo_string E (ch obj) infoId) as [code result]. cbn [fst].
  destruct (Z.eqb_spec code CURLE_OK) as [->|Hne]; cbn; [by destruct result|].
  intros Hv [= <-]. exists code. unfold CURLE_OK in Hne. repeat split; lia || done.
Qed.

(** The only exception GetInfo ever catches is the one GetInfoTmpl
    throws for a failed retrieval: its message is the decimal text of the
    engine's status code, and [retVal] is still undefined. *)
Lemma GetInfo_dispatch_caught E T obj infoVal e :
  engineCodesValid E ->
  is_caught (GetInfo_dispatch E T obj infoVal) = Some e ->
  exists c, 0 < c <= INT32_MAX /\ e = JSError (to_string c) /\
            is_retVal (GetInfo_dispatch E T obj infoVal) = JSUndefined.
Proof.
  intros Hv. unfold GetInfo_dispatch.
  destruct (negb (curlInfoString T infoVal =? 0)).
  { apply tmpl_char_caught, Hv. }
  destruct (negb (curlInfoDouble T infoVal =? 0)).
  { destruct (isOffTInfo _); apply tmpl_caught, Hv. }
  destruct (negb (curlInfoInteger T infoVal =? 0)).
  { apply tmpl_caught, Hv. }
  destruct (negb (curlInfoSocket T infoVal =? 0)).
  { by destruct (getinfo_socket _ _ _). }
  destruct (negb (curlInfoLinkedList T infoVal =? 0)); [|done].
  by destruct (getinfo_slist _ _ _).
Qed.

Lemma message_digits H c :
  0 <= c ->
  hasDigits (exceptionMessage H (JSError (to_string c))) = true /\
  digitsValue (exceptionMessage H (JSError (to_string c))) = c.
Proof.
  intros Hc. unfold digitsValue. rewrite hasDigits_keep, <- parse_digits_keep.
  cbn [exceptionMessage]. rewrite keep_digits_app, keep_digits_to_string by done.
  change (keep_digits "Uncaught Error: ") with EmptyString. cbn [String.append].
  split; [|by apply parse_digits_to_string].
  pose proof (parse_digits_to_string c Hc) as Hp.
  destruct (to_string c) eqn:Hs; [|done]. cbn in Hp. subst c.
  by vm_compute in Hs.
Qed.



(** getInfo(EFFECTIVE_URL) on an engine that answers 48: the pair
    {code: 48, data: undefined}. A message without digits gives 43. *)
Example getInfo_failure_code :
  GetInfo sampleHost rejectingEngine sampleTables (Easy_new rejectingEngine)
    (JSString "EFFECTIVE_URL") =
  Done (RetValue (JSObject [("code", JSInt 48); ("data", JSUndefined)])) /\
  GetInfo_finish sampleHost caughtWithoutDigits =
  Done (RetValue (JSObject [("code", JSInt 43); ("data", JSUndefined)])).
Proof. split; by vm_compute. Qed.

(** ** Data received *)

(** C10. With no WRITEFUNCTION entry in the Callback Registry and no
    onData property on the handle object, OnData enters no host callable
    and returns size * nmemb (the size_t product), leaving the handle as
    it is. With a WRITEFUNCTION entry, the registered callable is the one
    and only callable run, whatever the onData property holds. *)
Theorem onData_default_and_priority :
  (forall H obj data size nmemb,
     callbacks obj !! CURLOPT_WRITEFUNCTION = None ->
     onData obj = JSUndefined ->
     OnData H obj data size nmemb =
     Done {| cb_ret := (size * nmemb) mod 2 ^ 64; cb_obj := obj;
             cb_thrown := None; cb_calls := [] |} /\
     (0 <= size * nmemb <= SIZE_MAX ->
      OnData H obj data size nmemb =
      Done {| cb_ret := size * nmemb; cb_obj := obj;
              cb_thrown := None; cb_calls := [] |})) /\
  (forall H obj data size nmemb f,
     callbacks obj !! CURLOPT_WRITEFUNCTION = Some f ->
     exists r, OnData H obj data size nmemb = Done r /\
               cb_calls r = [(f, onDataArgs data size nmemb)]).
Proof.
  split.
  - intros H obj data size nmemb Hc Hd.
    assert (OnData H obj data size nmemb =
            Done {| cb_ret := (size * nmemb) mod 2 ^ 64; cb_obj := obj;
                    cb_thrown := None; cb_calls := [] |}) as Hr.
    { unfold OnData. rewrite Hc, Hd.
      rewrite bool_decide_eq_false_2 by (by intros [? ?]). done. }
    split; [exact Hr|]. intros Hb. rewrite Hr.
    rewrite Z.mod_small; [done|]. unfold SIZE_MAX in Hb. lia.
  - intros H obj data size nmemb f Hc. unfold OnData. rewrite Hc.
    rewrite bool_decide_eq_true_2 by eauto. cbn [negb andb].
    fold (onDataArgs data size nmemb).
    destruct (invoke H f (onDataArgs data size nmemb)); eauto.
Qed.

Lemma onData_default_and_priority_witness :
  OnData sampleHost (Easy_new acceptingEngine) [104; 105; 33] 1 3 =
  Done {| cb_ret := 3; cb_obj := Easy_new acceptingEngine;
          cb_thrown := None; cb_calls := [] |} /\
  exists r, OnData sampleHost bothWriteHandle [104; 105; 33] 1 3 = Done r /\
            cb_calls r = [(0%nat, onDataArgs [104; 105; 33] 1 3)].
Proof.
  split.
  - apply (proj1 onData_default_and_priority sampleHost (Easy_new acceptingEngine)
             [104; 105; 33] 1 3); [reflexivity | reflexivity | by vm_compute].
  - apply (proj2 onData_default_and_priority sampleHost bothWriteHandle
             [104; 105; 33] 1 3 0%nat). reflexivity.
Defined.

(** With only the onData property set, the property is the callable
    run; with both, the property is not entered. *)
Example onData_property_fallback :
  (exists r, OnData sampleHost onDataHandle [104; 105; 33] 1 3 = Done r /\
             cb_calls r = [(3%nat, onDataArgs [104; 105; 33] 1 3)]) /\
  (exists r, OnData sampleHost bothWriteHandle [104; 105; 33] 1 3 = Done r /\
             cb_calls r = [(0%nat, onDataArgs [104; 105; 33] 1 3)] /\
             cb_ret r = 0).
Proof. split; eexists; (split; [reflexivity|]); by vm_compute. Qed.

(** ** The protocol of the trampolines, slot by slot *)

Lemma int32_in_range z :
  IsInt32 (JSInt z) = true -> (z + 2 ^ 31) mod 2 ^ 32 - 2 ^ 31 = z.
Proof.
  unfold IsInt32, JSInt, INT32_MIN, INT32_MAX. intros Hr.
  apply andb_true_iff in Hr as [Hlo Hhi].
  apply Z.leb_le in Hlo, Hhi. rewrite Z.mod_small; lia.
Qed.

Section TrampolineProtocol.
Context (H : Host).

Lemma int32Trampoline_wrong_type obj slot what fail argv f v :
  callbacks obj !! slot = Some f ->
  invoke H f argv = Returns v ->
  IsInt32 v = false ->
  exists r,
    int32Trampoline H obj slot what fail argv = Done r /\
    cb_ret r = fail /\ cb_calls r = [(f, argv)] /\
    routed obj (JSTypeError ("Return value from the " +:+ what +:+
                             " callback must be an integer.")) r /\
    isCbProgressAlreadyAborted (cb_obj r) = isCbProgressAlreadyAborted obj.
Proof.
  intros Hf Hv Hi. unfold int32Trampoline. rewrite Hf, Hv, Hi. cbn [negb].
  pose proof (routeError_routed obj
    (JSTypeError ("Return value from the " +:+ what +:+
                  " callback must be an integer.")) fail [(f, argv)]) as Hr.
  pose proof (routeError_flag obj
    (JSTypeError ("Return value from the " +:+ what +:+
                  " callback must be an integer."))) as Hk.
  destruct (routeError obj _) as [obj' thrown]. eauto 10.
Qed.

Lemma progressTrampoline_wrong_type obj slot what argv f v :
  isCbProgressAlreadyAborted obj = false ->
  callbacks obj !! slot = Some f ->
  invoke H f argv = Returns v ->
  IsInt32 v = false ->
  exists r,
    progressTrampoline H obj slot what argv = Done r /\
    cb_ret r = 1 /\ cb_calls r = [(f, argv)] /\
    routed obj (JSTypeError ("Return value from the " +:+ what +:+
                             " callback must be an integer.")) r /\
    isCbProgressAlreadyAborted (cb_obj r) = true.
Proof.
  intros Ha Hf Hv Hi. unfold progressTrampoline. rewrite Ha, Hf, Hv, Hi.
  cbn [negb]. unfold routeError, routed.
  destruct (isInsideMultiHandle obj) eqn:Hm; cbn; eauto 10.
Qed.

Lemma int32Trampoline_value obj slot what fail argv f z :
  callbacks obj !! slot = Some f ->
  invoke H f argv = Returns (JSInt z) ->
  IsInt32 (JSInt z) = true ->
  int32Trampoline H obj slot what fail argv =
  Done {| cb_ret := z; cb_obj := obj; cb_thrown := None; cb_calls := [(f, argv)] |}.
Proof.
  intros Hf Hv Hi. unfold int32Trampoline. rewrite Hf, Hv, Hi. cbn [negb].
  unfold To_int32, JSInt. by rewrite int32_in_range.
Qed.

Lemma progressTrampoline_value obj slot what argv f z :
  isCbProgressAlreadyAborted obj = false ->
  callbacks obj !! slot = Some f ->
  invoke H f argv = Returns (JSInt z) ->
  IsInt32 (JSInt z) = true ->
  progressTrampoline H obj slot what argv =
  Done {| cb_ret := z;
          cb_obj := if z =? 0 then obj else set_isCbProgressAlreadyAborted obj true;
          cb_thrown := None; cb_calls := [(f, argv)] |}.
Proof.
  intros Ha Hf Hv Hi. unfold progressTrampoline. rewrite Ha, Hf, Hv, Hi.
  cbn [negb]. unfold To_int32, JSInt. rewrite int32_in_range by done.
  by destruct (z =? 0).
Qed.
End TrampolineProtocol.

(** Error raised by the host, at every trampoline that runs the
    callable under a TryCatch (all but the data-received one): the
    callable is run once, the engine is handed the failure value of the
    slot, and the error ends in the deferred-error slot when the handle
    is owned by a Multi, or pending for the host caller otherwise. The
    abort flag is not written. *)
Theorem trampolines_route_raised_error H obj m c f e :
  hasTryCatch c = true ->
  isCbProgressAlreadyAborted obj = false ->
  callbacks obj !! slotOf c = Some f ->
  (forall argv, invoke H f argv = Throws e) ->
  exists r argv,
    engineCall H obj m c = Done (r, m) /\
    cb_calls r = [(f, argv)] /\
    cb_ret r = failureSentinel c /\
    routed obj e r /\
    isCbProgressAlreadyAborted (cb_obj r) = false.
Proof.
  intros Ht Ha Hf He.
  assert (forall slot what fail argv, callbacks obj !! slot = Some f ->
            exists r, int32Trampoline H obj slot what fail argv = Done r /\
                      cb_calls r = [(f, argv)] /\ cb_ret r = fail /\ routed obj e r /\
                      isCbProgressAlreadyAborted (cb_obj r) = false) as Hint.
  { intros slot what fail argv Hs. unfold int32Trampoline. rewrite Hs, He.
    pose proof (routeError_routed obj e fail [(f, argv)]) as Hr.
    pose proof (routeError_flag obj e) as Hk.
    destruct (routeError obj e) as [obj' thrown]. cbn [fst snd] in *.
    eexists. repeat split; try done. cbn [cb_obj]. congruence. }
  assert (forall slot what argv, callbacks obj !! slot = Some f ->
            exists r, progressTrampoline H obj slot what argv = Done r /\
                      cb_calls r = [(f, argv)] /\ cb_ret r = 1 /\ routed obj e r /\
                      isCbProgressAlreadyAborted (cb_obj r) = false) as Hpro.
  { intros slot what argv Hs. unfold progressTrampoline. rewrite Ha, Hs, He.
    pose proof (routeError_routed obj e 1 [(f, argv)]) as Hr.
    pose proof (routeError_flag obj e) as Hk.
    destruct (routeError obj e) as [obj' thrown]. cbn [fst snd] in *.
    eexists. repeat split; try done. cbn [cb_obj]. congruence. }
  destruct c; try discriminate Ht; cbn [engineCall slotOf failureSentinel] in *.
  - destruct (Hpro _ "PROGRESS" [JSNumber dltotal; JSNumber dlnow; JSNumber ultotal;
                                  JSNumber ulnow] Hf) as (r & Hr & ?).
    unfold CbProgress. rewrite Hr. eauto.
  - destruct (Hpro _ "XFERINFO" [JSInt dltotal; JSInt dlnow; JSInt ultotal;
                                  JSInt ulnow] Hf) as (r & Hr & ?).
    unfold CbXferinfo. rewrite Hr. eauto.
  - destruct (Hint _ "CHUNK_BGN" CURL_CHUNK_BGN_FUNC_FAIL
                [CreateV8ObjectFromCurlFileInfo transferInfo; JSInt remains] Hf)
      as (r & Hr & ?).
    unfold CbChunkBgn. rewrite Hr. eauto.
  - destruct (Hint _ "CHUNK_END" CURL_CHUNK_END_FUNC_FAIL [] Hf) as (r & Hr & ?).
    unfold CbChunkEnd. rewrite Hr. eauto.
  - destruct (Hint _ "DEBUG" 1
                [JSInt type; JSBuffer (take (Z.to_nat (size mod 2 ^ 32)) data)] Hf)
      as (r & Hr & ?).
    unfold CbDebug. rewrite Hr. eauto.
  - destruct (Hint _ "FNMATCH" CURL_FNMATCHFUNC_FAIL
                [JSString pattern; JSString string] Hf) as (r & Hr & ?).
    unfold CbFnMatch. rewrite Hr. eauto.
  - unfold CbTrailer. rewrite Hf, He.
    pose proof (routeError_routed obj e CURL_TRAILERFUNC_ABORT [(f, [])]) as Hr.
    pose proof (routeError_flag obj e) as Hk.
    destruct (routeError obj e) as [obj' thrown]. cbn [fst snd] in *.
    eexists _, _. repeat split; try done. cbn [cb_obj tr_cb]. congruence.
Qed.

Lemma trampolines_route_raised_error_witness :
  exists r argv,
    engineCall sampleHost debugRaisingHandle Memory_empty (OnDebug 0 [104; 105] 2) =
      Done (r, Memory_empty) /\
    cb_calls r = [(2%nat, argv)] /\
    cb_ret r = failureSentinel (OnDebug 0 [104; 105] 2) /\
    routed debugRaisingHandle (JSError "boom") r /\
    isCbProgressAlreadyAborted (cb_obj r) = false.
Proof.
  apply (trampolines_route_raised_error sampleHost debugRaisingHandle Memory_empty
           (OnDebug 0 [104; 105] 2) 2%nat (JSError "boom")); reflexivity.
Defined.

(** A return value that is not an int32, at the six trampolines whose
    callable must return an integer (chunk begin and end, debug, file-name
    match, progress, transfer progress): the engine is handed the failure
    value of the slot and a TypeError naming the slot is routed like a
    raised error. At the two progress trampolines this also sets the
    abort flag; the others leave it clear. *)
Theorem int32_trampolines_refuse_other_types H obj m c f v :
  expectsInt32 c = true ->
  isCbProgressAlreadyAborted obj = false ->
  callbacks obj !! slotOf c = Some f ->
  (forall argv, invoke H f argv = Returns v) ->
  IsInt32 v = false ->
  exists r argv,
    engineCall H obj m c = Done (r, m) /\
    cb_calls r = [(f, argv)] /\
    cb_ret r = failureSentinel c /\
    routed obj (integerTypeError c) r /\
    isCbProgressAlreadyAborted (cb_obj r) = isProgressCall c.
Proof.
  intros Ht Ha Hf Hv Hi.
  destruct c; try discriminate Ht;
    cbn [engineCall slotOf failureSentinel isProgressCall] in *;
    unfold integerTypeError; cbn [slotName];
    unfold CbProgress, CbXferinfo, CbChunkBgn, CbChunkEnd, CbDebug, CbFnMatch.
  1,2: match goal with
       | |- context [progressTrampoline _ _ ?s ?w ?a] =>
           destruct (progressTrampoline_wrong_type H obj s w a f v Ha Hf (Hv a) Hi)
             as (r & -> & ? & ? & ? & ?)
       end; cbn [keepMemory]; eauto 10.
  all: match goal with
       | |- context [int32Trampoline _ _ ?s ?w ?fl ?a] =>
           destruct (int32Trampoline_wrong_type H obj s w fl a f v Hf (Hv a) Hi)
             as (r & -> & ? & ? & ? & Hk)
       end; cbn [keepMemory]; rewrite Ha in Hk; eauto 10.
Qed.

Lemma int32_trampolines_refuse_other_types_witness :
  exists r argv,
    engineCall sampleHost debugStringHandle Memory_empty (OnDebug 0 [104; 105] 2) =
      Done (r, Memory_empty) /\
    cb_calls r = [(3%nat, argv)] /\
    cb_ret r = failureSentinel (OnDebug 0 [104; 105] 2) /\
    routed debugStringHandle (integerTypeError (OnDebug 0 [104; 105] 2)) r /\
    isCbProgressAlreadyAborted (cb_obj r) = isProgressCall (OnDebug 0 [104; 105] 2).
Proof.
  apply (int32_trampolines_refuse_other_types sampleHost debugStringHandle Memory_empty
           (OnDebug 0 [104; 105] 2) 3%nat (JSString "three")); reflexivity.
Defined.

(** An int32 return value, at the same six trampolines: the engine is
    handed that very integer, nothing is raised or deferred, and the
    handle is left as it was, except that a progress trampoline sets the
    abort flag when the integer is not 0. *)
Theorem int32_trampolines_hand_back_value H obj m c f z :
  expectsInt32 c = true ->
  isCbProgressAlreadyAborted obj = false ->
  callbacks obj !! slotOf c = Some f ->
  (forall argv, invoke H f argv = Returns (JSInt z)) ->
  IsInt32 (JSInt z) = true ->
  exists argv,
    engineCall H obj m c =
    Done ({| cb_ret := z;
             cb_obj := if isProgressCall c && negb (z =? 0)
                       then set_isCbProgressAlreadyAborted obj true
                       else obj;
             cb_thrown := None; cb_calls := [(f, argv)] |}, m).
Proof.
  intros Ht Ha Hf Hv Hi.
  destruct c; try discriminate Ht;
    cbn [engineCall slotOf isProgressCall andb] in *;
    unfold CbProgress, CbXferinfo, CbChunkBgn, CbChunkEnd, CbDebug, CbFnMatch.
  1,2: match goal with
       | |- context [progressTrampoline _ _ ?s ?w ?a] =>
           rewrite (progressTrampoline_value H obj s w a f z Ha Hf (Hv a) Hi)
       end; cbn [keepMemory]; eexists; by destruct (z =? 0).
  all: match goal with
       | |- context [int32Trampoline _ _ ?s ?w ?fl ?a] =>
           rewrite (int32Trampoline_value H obj s w fl a f z Hf (Hv a) Hi)
       end; cbn [keepMemory]; by eexists.
Qed.

Lemma int32_trampolines_hand_back_value_witness :
  exists argv,
    engineCall sampleHost fnmatchHandle Memory_empty (OnFnMatch "*.txt" "a.txt") =
    Done ({| cb_ret := 1;
             cb_obj := if isProgressCall (OnFnMatch "*.txt" "a.txt") && negb (1 =? 0)
                       then set_isCbProgressAlreadyAborted fnmatchHandle true
                       else fnmatchHandle;
             cb_thrown := None; cb_calls := [(1%nat, argv)] |}, Memory_empty).
Proof.
  apply (int32_trampolines_hand_back_value sampleHost fnmatchHandle Memory_empty
           (OnFnMatch "*.txt" "a.txt") 1%nat 1); reflexivity.
Defined.

(** ** Trailer fields *)

Section Trailers.
Context (H : Host).

Lemma buildSlist_valid m p rows :
  validList m p ->
  slist_nodes (fst (buildSlist H m p rows)) (snd (buildSlist H m p rows)) =
  slist_nodes m p ++ map (nodeOf H) rows.
Proof.
  intros Hv. destruct p as [|p'].
  - apply buildSlist_nodes.
  - destruct Hv as [Hv|Hv]; [done|].
    destruct (buildSlist_grow H rows m (S p')) as [Hq Hn]; [done|done|].
    by rewrite Hq.
Qed.

Lemma trailerRows_strings rows : forall m p,
  forallb IsString rows = true ->
  trailerRows H m p rows = (buildSlist H m p rows, true).
Proof.
  induction rows as [|x rest IH]; intros m p Hs; [done|].
  cbn [forallb] in Hs. apply andb_true_iff in Hs as [Hx Hr].
  cbn [trailerRows buildSlist]. rewrite Hx. cbn [negb].
  destruct (curl_slist_append m p _) as [m' q]. by apply IH.
Qed.

Lemma trailerRows_stop pre bad rest : forall m p,
  forallb IsString pre = true ->
  IsString bad = false ->
  trailerRows H m p (pre ++ bad :: rest) = (buildSlist H m p pre, false).
Proof.
  induction pre as [|x pre IH]; intros m p Hs Hb.
  - cbn. by rewrite Hb.
  - cbn [forallb] in Hs. apply andb_true_iff in Hs as [Hx Hr].
    cbn [app trailerRows buildSlist]. rewrite Hx. cbn [negb].
    destruct (curl_slist_append m p _) as [m' q]. by apply IH.
Qed.
End Trailers.

(** Trailer fields accepted. When the TRAILERFUNCTION callable returns
    an array of strings, CbTrailer answers CURL_TRAILERFUNC_OK and the
    outgoing header list is the list it was given followed by one node
    per string, in the order of the array; the handle, its Retained
    Allocation Store included, is left as it was. *)
Theorem CbTrailer_appends_in_order H obj m headerList f rows :
  callbacks obj !! CURLOPT_TRAILERFUNCTION = Some f ->
  invoke H f [] = Returns (JSArray rows) ->
  forallb IsString rows = true ->
  validList m headerList ->
  exists t,
    CbTrailer H obj m headerList = Done t /\
    tr_cb t = {| cb_ret := CURL_TRAILERFUNC_OK; cb_obj := obj;
                 cb_thrown := None; cb_calls := [(f, [])] |} /\
    slist_nodes (tr_mem t) (tr_headerList t) =
      slist_nodes m headerList ++ map (nodeOf H) rows.
Proof.
  intros Hf Hv Hs Hl. unfold CbTrailer. rewrite Hf, Hv. cbn [IsArray IsFalse negb andb].
  pose proof (buildSlist_valid H m headerList rows Hl) as Hn.
  rewrite (trailerRows_strings H rows m headerList Hs).
  destruct (buildSlist H m headerList rows) as [m' p]. eauto.
Qed.

Lemma CbTrailer_appends_in_order_witness :
  exists t,
    CbTrailer trailerHost trailerHandle Memory_empty 0%nat = Done t /\
    tr_cb t = {| cb_ret := CURL_TRAILERFUNC_OK; cb_obj := trailerHandle;
                 cb_thrown := None; cb_calls := [(0%nat, [])] |} /\
    slist_nodes (tr_mem t) (tr_headerList t) =
      slist_nodes Memory_empty 0%nat ++
      map (nodeOf trailerHost) [JSString "A: 1"; JSString "B: 2"].
Proof.
  apply (CbTrailer_appends_in_order trailerHost trailerHandle Memory_empty 0%nat 0%nat
           [JSString "A: 1"; JSString "B: 2"]); try reflexivity.
  by left.
Defined.

(** Trailer fields refused half-way. When the array the callable
    returns holds an element that is not a string, CbTrailer answers
    CURL_TRAILERFUNC_ABORT and routes its TypeError like a raised error,
    but the strings that come before that element have already been
    appended: the header list is the list it was given followed by those
    strings, and nothing of what follows the element. *)
Theorem CbTrailer_stops_at_non_string H obj m headerList f pre bad rest :
  callbacks obj !! CURLOPT_TRAILERFUNCTION = Some f ->
  invoke H f [] = Returns (JSArray (pre ++ bad :: rest)) ->
  forallb IsString pre = true ->
  IsString bad = false ->
  validList m headerList ->
  exists t,
    CbTrailer H obj m headerList = Done t /\
    cb_ret (tr_cb t) = CURL_TRAILERFUNC_ABORT /\
    cb_calls (tr_cb t) = [(f, [])] /\
    routed obj returnValueCbTypeError (tr_cb t) /\
    slist_nodes (tr_mem t) (tr_headerList t) =
      slist_nodes m headerList ++ map (nodeOf H) pre.
Proof.
  intros Hf Hv Hs Hb Hl. unfold CbTrailer. rewrite Hf, Hv.
  cbn [IsArray IsFalse negb andb].
  pose proof (buildSlist_valid H m headerList pre Hl) as Hn.
  rewrite (trailerRows_stop H pre bad rest m headerList Hs Hb).
  destruct (buildSlist H m headerList pre) as [m' p].
  pose proof (routeError_routed obj returnValueCbTypeError
                CURL_TRAILERFUNC_ABORT [(f, [])]) as Hr.
  destruct (routeError obj returnValueCbTypeError) as [obj' thrown]. eauto 10.
Qed.

Lemma CbTrailer_stops_at_non_string_witness :
  exists t,
    CbTrailer trailerHost badTrailerHandle Memory_empty 0%nat = Done t /\
    cb_ret (tr_cb t) = CURL_TRAILERFUNC_ABORT /\
    cb_calls (tr_cb t) = [(1%nat, [])] /\
    routed badTrailerHandle returnValueCbTypeError (tr_cb t) /\
    slist_nodes (tr_mem t) (tr_headerList t) =
      slist_nodes Memory_empty 0%nat ++ map (nodeOf trailerHost) [JSString "A: 1"].
Proof.
  apply (CbTrailer_stops_at_non_string trailerHost badTrailerHandle Memory_empty 0%nat
           1%nat [JSString "A: 1"] (JSInt 5) [JSString "C: 3"]); try reflexivity.
  by left.
Defined.

(** ** Data received, in every case *)



(** ** setOpt, branch by branch *)




Section Settled.
Context (H : Host) (E : Engine).





End Settled.



(** Options that lead nowhere. On an open handle, an option found in
    the table of engine-specific options, an option found in no table at
    all, and a callback option of the table that has no case of its own
    (set to a callable or to null) all return CURLE_UNKNOWN_OPTION: no
    error is thrown, the engine is not called and the handle is left as
    it was. *)
Theorem setOpt_unrouted_option H E T obj m opt value :
  isOpen obj = true ->
  curlOptionNotImplemented T opt = 0 ->
  curlOptionSpecific T opt <> 0 \/
  (curlOptionLinkedList T opt = 0 /\ curlOptionString T opt = 0 /\
   curlOptionInteger T opt = 0 /\
   (curlOptionFunction T opt = 0 \/
    ((IsFunction value = true \/ value = JSNull) /\
     ~ In (curlOptionFunction T opt) (CURLOPT_WRITEFUNCTION :: map fst engineCallbacks)))) ->
  SetOpt H E T obj m opt value =
  {| so_ret := RetValue (JSInt CURLE_UNKNOWN_OPTION); so_obj := obj; so_mem := m |}.
Proof.
  intros Ho Hn Hc. unfold SetOpt. rewrite Ho, Hn. cbn [negb Z.eqb].
  destruct Hc as [Hs | (Hl & Hstr & Hi & Hf)].
  - by rewrite (eqb0_false _ Hs).
  - destruct (Z.eqb_spec (curlOptionSpecific T opt) 0); [|done]. cbn [negb].
    rewrite Hl, Hstr, Hi. cbn [negb Z.eqb].
    destruct Hf as [-> | [Hv Hnin]]; [done|].
    destruct (Z.eqb_spec (curlOptionFunction T opt) 0); [done|]. cbn [negb].
    unfold SetOpt_function. rewrite (typeCheck_function _ Hv).
    cbn [engineCallbacks map fst In] in Hnin.
    repeat match goal with
           | |- context [?x =? ?k] =>
               destruct (Z.eqb_spec x k) as [Heq|];
                 [exfalso; apply Hnin; rewrite Heq; tauto|]
           end.
    done.
Qed.

Lemma setOpt_unrouted_option_witness :
  SetOpt sampleHost acceptingEngine sampleTables (Easy_new acceptingEngine) Memory_empty
    (JSString "NO_SUCH_OPTION") (JSString "x") =
  {| so_ret := RetValue (JSInt CURLE_UNKNOWN_OPTION);
     so_obj := Easy_new acceptingEngine; so_mem := Memory_empty |}.
Proof.
  apply (setOpt_unrouted_option sampleHost acceptingEngine sampleTables
           (Easy_new acceptingEngine) Memory_empty (JSString "NO_SUCH_OPTION")
           (JSString "x")).
  - reflexivity.
  - reflexivity.
  - right. repeat split; try reflexivity. by left.
Defined.




(** String options set to a string. The engine is handed the text up
    to its first NUL, and nothing is added to the Retained Allocation
    Store, for every string option but POSTFIELDS; for POSTFIELDS it is
    handed the adapter's own copy of the whole text with a NUL appended,
    and that copy is retained exactly when the engine answers CURLE_OK.
    Either way exactly one option-set call is made and its status is
    returned. *)
Theorem setOpt_string_option H E T obj m opt s :
  isOpen obj = true ->
  isStringOption T opt ->
  exists buffer,
    buffer = (if curlOptionString T opt =? CURLOPT_POSTFIELDS
              then s +:+ String Ascii.zero EmptyString
              else c_str s) /\
    so_ret (SetOpt H E T obj m opt (JSString s)) =
      RetValue (JSInt (setopt_code E (ch obj) (curlOptionString T opt) (VStr buffer))) /\
    setopt_log (ch (so_obj (SetOpt H E T obj m opt (JSString s)))) =
      setopt_log (ch obj) ++ [(curlOptionString T opt, VStr buffer)] /\
    toFree (so_obj (SetOpt H E T obj m opt (JSString s))) =
      (if (curlOptionString T opt =? CURLOPT_POSTFIELDS)
          && (setopt_code E (ch obj) (curlOptionString T opt) (VStr buffer) =? CURLE_OK)
       then push_str (toFree obj) buffer
       else toFree obj).
Proof.
  intros Ho Hs. rewrite SetOpt_stringOption by done.
  unfold SetOpt_string, curl_easy_setopt. cbn [IsString IsNull negb Utf8String].
  destruct (curlOptionString T opt =? CURLOPT_POSTFIELDS); cbn [andb].
  - eexists. split; [reflexivity|].
    destruct (setopt_code E (ch obj) _ _ =? CURLE_OK); done.
  - eexists. split; [reflexivity|]. done.
Qed.

Lemma setOpt_string_option_witness :
  exists buffer,
    buffer = (if curlOptionString sampleTables (JSString "POSTFIELDS") =? CURLOPT_POSTFIELDS
              then "a=1" +:+ String Ascii.zero EmptyString
              else c_str "a=1") /\
    so_ret (SetOpt sampleHost acceptingEngine sampleTables (Easy_new acceptingEngine)
              Memory_empty (JSString "POSTFIELDS") (JSString "a=1")) =
      RetValue (JSInt (setopt_code acceptingEngine (ch (Easy_new acceptingEngine))
                         (curlOptionString sampleTables (JSString "POSTFIELDS"))
                         (VStr buffer))) /\
    setopt_log (ch (so_obj (SetOpt sampleHost acceptingEngine sampleTables
                              (Easy_new acceptingEngine) Memory_empty
                              (JSString "POSTFIELDS") (JSString "a=1")))) =
      setopt_log (ch (Easy_new acceptingEngine)) ++
      [(curlOptionString sampleTables (JSString "POSTFIELDS"), VStr buffer)] /\
    toFree (so_obj (SetOpt sampleHost acceptingEngine sampleTables
                      (Easy_new acceptingEngine) Memory_empty
                      (JSString "POSTFIELDS") (JSString "a=1"))) =
      (if (curlOptionString sampleTables (JSString "POSTFIELDS") =? CURLOPT_POSTFIELDS)
          && (setopt_code acceptingEngine (ch (Easy_new acceptingEngine))
                (curlOptionString sampleTables (JSString "POSTFIELDS")) (VStr buffer)
              =? CURLE_OK)
       then push_str (toFree (Easy_new acceptingEngine)) buffer
       else toFree (Easy_new acceptingEngine)).
Proof.
  apply (setOpt_string_option sampleHost acceptingEngine sampleTables
           (Easy_new acceptingEngine) Memory_empty (JSString "POSTFIELDS") "a=1").
  - reflexivity.
  - repeat split; by vm_compute.
Defined.

(** ** Lists retained and released *)




(** ** The write callback, from setOpt to the data trampoline *)

(** WRITEFUNCTION end to end. Setting WRITEFUNCTION never reaches the
    engine (the engine handle is untouched and the status is CURLE_OK).
    After it is set to a callable, every delivery of data runs that
    callable, once, whatever the onData property holds; after it is set
    to null the Callback Registry has no entry for it, and on a handle
    without an onData property every delivery is accepted whole without
    entering the host. *)
Theorem setOpt_writefunction_then_onData H E T obj m opt f :
  isOpen obj = true ->
  isFunctionOption T opt ->
  curlOptionFunction T opt = CURLOPT_WRITEFUNCTION ->
  (so_ret (SetOpt H E T obj m opt (JSFunction f)) = RetValue (JSInt CURLE_OK) /\
   ch (so_obj (SetOpt H E T obj m opt (JSFunction f))) = ch obj /\
   forall H' data size nmemb,
     exists r,
       OnData H' (so_obj (SetOpt H E T obj m opt (JSFunction f))) data size nmemb = Done r /\
       cb_calls r = [(f, onDataArgs data size nmemb)]) /\
  (so_ret (SetOpt H E T obj m opt JSNull) = RetValue (JSInt CURLE_OK) /\
   ch (so_obj (SetOpt H E T obj m opt JSNull)) = ch obj /\
   callbacks (so_obj (SetOpt H E T obj m opt JSNull)) !! CURLOPT_WRITEFUNCTION = None /\
   forall H' data size nmemb,
     onData obj = JSUndefined ->
     OnData H' (so_obj (SetOpt H E T obj m opt JSNull)) data size nmemb =
     Done {| cb_ret := (size * nmemb) mod 2 ^ 64;
             cb_obj := so_obj (SetOpt H E T obj m opt JSNull);
             cb_thrown := None; cb_calls := [] |}).
Proof.
  intros Ho Hf Hid. rewrite !SetOpt_functionOption, Hid by done.
  unfold SetOpt_function. cbn [IsFunction IsNull negb andb].
  change (CURLOPT_WRITEFUNCTION =? CURLOPT_CHUNK_BGN_FUNCTION) with false.
  change (CURLOPT_WRITEFUNCTION =? CURLOPT_CHUNK_END_FUNCTION) with false.
  change (CURLOPT_WRITEFUNCTION =? CURLOPT_DEBUGFUNCTION) with false.
  change (CURLOPT_WRITEFUNCTION =? CURLOPT_FNMATCH_FUNCTION) with false.
  change (CURLOPT_WRITEFUNCTION =? CURLOPT_PROGRESSFUNCTION) with false.
  change (CURLOPT_WRITEFUNCTION =? CURLOPT_TRAILERFUNCTION) with false.
  change (CURLOPT_WRITEFUNCTION =? CURLOPT_XFERINFOFUNCTION) with false.
  change (CURLOPT_WRITEFUNCTION =? CURLOPT_WRITEFUNCTION) with true.
  unfold SetOpt_write, returnCode. cbn [so_ret so_obj ch set_callbacks callbacks].
  split; (split; [done|]); (split; [done|]).
  - intros H' data size nmemb. unfold OnData. cbn [callbacks set_callbacks].
    rewrite lookup_insert_eq. rewrite bool_decide_eq_true_2 by eauto.
    cbn [negb andb]. fold (onDataArgs data size nmemb).
    destruct (invoke H' f _); eauto.
  - split; [by rewrite lookup_delete_eq|].
    intros H' data size nmemb Hd. unfold OnData. cbn [callbacks set_callbacks onData].
    rewrite lookup_delete_eq, Hd.
    by rewrite bool_decide_eq_false_2 by (by intros [? ?]).
Qed.

Lemma setOpt_writefunction_then_onData_witness :
  exists r,
    OnData sampleHost
      (so_obj (SetOpt sampleHost acceptingEngine sampleTables (Easy_new acceptingEngine)
                 Memory_empty (JSString "WRITEFUNCTION") (JSFunction 1)))
      [104; 105] 1 2 = Done r /\
    cb_calls r = [(1%nat, onDataArgs [104; 105] 1 2)].
Proof.
  destruct (setOpt_writefunction_then_onData sampleHost acceptingEngine sampleTables
              (Easy_new acceptingEngine) Memory_empty (JSString "WRITEFUNCTION") 1%nat)
    as [(_ & _ & Hr) _].
  - reflexivity.
  - repeat split; by vm_compute.
  - reflexivity.
  - apply Hr.
Defined.

(** ** Well-formed multipart descriptors *)

(** A well-formed multipart post. When every descriptor of the sequence
    is an object that passes the checks and the engine's form-add calls
    succeed, setOpt does not throw: the body handed to the engine has
    one field per descriptor, in the order of the sequence. A descriptor
    with a file becomes a file field, whose type is passed on when given
    and whose filename is passed on only when a type is given as well;
    any other descriptor becomes a content field. The body is retained
    exactly when the engine answers CURLE_OK. *)
Theorem setOpt_httppost_wellformed H E T obj m opt rows :
  isOpen obj = true ->
  isLinkedListOption T opt ->
  curlOptionLinkedList T opt = CURLOPT_HTTPPOST ->
  (forall body f, formadd_code E body f = CURL_FORMADD_OK) ->
  existsb malformedRow rows = false ->
  so_ret (SetOpt H E T obj m opt (JSArray rows)) =
    RetValue (JSInt (setopt_code E (ch obj) CURLOPT_HTTPPOST
       (VPost (map (fun row => fieldOfDescriptor H (ownProps row)) rows)))) /\
  setopt_log (ch (so_obj (SetOpt H E T obj m opt (JSArray rows)))) =
    setopt_log (ch obj) ++
    [(CURLOPT_HTTPPOST, VPost (map (fun row => fieldOfDescriptor H (ownProps row)) rows))] /\
  post (toFree (so_obj (SetOpt H E T obj m opt (JSArray rows)))) =
    (if setopt_code E (ch obj) CURLOPT_HTTPPOST
          (VPost (map (fun row => fieldOfDescriptor H (ownProps row)) rows)) =? CURLE_OK
     then post (toFree obj) ++
          [{| first := map (fun row => fieldOfDescriptor H (ownProps row)) rows |}]
     else post (toFree obj)) /\
  so_mem (SetOpt H E T obj m opt (JSArray rows)) = m.
Proof.
  intros Ho Hl Hid Hadd Hm. rewrite SetOpt_linkedList, Hid by done.
  change (CURLOPT_HTTPPOST =? CURLOPT_HTTPPOST) with true. cbn iota.
  unfold SetOpt_httppost. rewrite (addPostRows_wellformed H E Hadd rows) by done.
  cbn [first app]. unfold curl_easy_setopt.
  destruct (setopt_code E (ch obj) CURLOPT_HTTPPOST _ =? CURLE_OK); done.
Qed.

Lemma setOpt_httppost_wellformed_witness :
  so_ret (SetOpt sampleHost acceptingEngine sampleTables (Easy_new acceptingEngine)
            Memory_empty (JSString "HTTPPOST") (JSArray twoDescriptors)) =
    RetValue (JSInt (setopt_code acceptingEngine (ch (Easy_new acceptingEngine))
       CURLOPT_HTTPPOST
       (VPost (map (fun row => fieldOfDescriptor sampleHost (ownProps row))
                 twoDescriptors)))) /\
  setopt_log (ch (so_obj (SetOpt sampleHost acceptingEngine sampleTables
                            (Easy_new acceptingEngine) Memory_empty (JSString "HTTPPOST")
                            (JSArray twoDescriptors)))) =
    setopt_log (ch (Easy_new acceptingEngine)) ++
    [(CURLOPT_HTTPPOST,
      VPost (map (fun row => fieldOfDescriptor sampleHost (ownProps row)) twoDescriptors))] /\
  post (toFree (so_obj (SetOpt sampleHost acceptingEngine sampleTables
                          (Easy_new acceptingEngine) Memory_empty (JSString "HTTPPOST")
                          (JSArray twoDescriptors)))) =
    (if setopt_code acceptingEngine (ch (Easy_new acceptingEngine)) CURLOPT_HTTPPOST
          (VPost (map (fun row => fieldOfDescriptor sampleHost (ownProps row))
                    twoDescriptors)) =? CURLE_OK
     then post (toFree (Easy_new acceptingEngine)) ++
          [{| first := map (fun row => fieldOfDescriptor sampleHost (ownProps row))
                         twoDescriptors |}]
     else post (toFree (Easy_new acceptingEngine))) /\
  so_mem (SetOpt sampleHost acceptingEngine sampleTables (Easy_new acceptingEngine)
            Memory_empty (JSString "HTTPPOST") (JSArray twoDescriptors)) = Memory_empty.
Proof.
  apply (setOpt_httppost_wellformed sampleHost acceptingEngine sampleTables
           (Easy_new acceptingEngine) Memory_empty (JSString "HTTPPOST") twoDescriptors).
  - reflexivity.
  - repeat split; by vm_compute.
  - reflexivity.
  - reflexivity.
  - reflexivity.
Defined.

(** The two descriptors as fields: the filename given without a type
    is not passed on. *)
Example twoDescriptors_fields :
  map (fun row => fieldOfDescriptor sampleHost (ownProps row)) twoDescriptors =
  [FileField "f" "p" None None; ContentField "g" "v"].
Proof. reflexivity. Qed.

(** ** The pair getInfo returns *)

Lemma GetInfo_dispatch_failed E T obj infoVal :
  is_caught (GetInfo_dispatch E T obj infoVal) = None ->
  is_code (GetInfo_dispatch E T obj infoVal) <> CURLE_OK ->
  is_retVal (GetInfo_dispatch E T obj infoVal) = JSUndefined.
Proof.
  unfold GetInfo_dispatch.
  destruct (negb (curlInfoString T infoVal =? 0)); [by cbn|].
  destruct (negb (curlInfoDouble T infoVal =? 0)).
  { destruct (isOffTInfo _); by cbn. }
  destruct (negb (curlInfoInteger T infoVal =? 0)); [by cbn|].
  destruct (negb (curlInfoSocket T infoVal =? 0)).
  { destruct (getinfo_socket _ _ _) as [code socket]. cbn.
    intros _ Hc. by rewrite (proj2 (Z.eqb_neq _ _) Hc). }
  destruct (negb (curlInfoLinkedList T infoVal =? 0)); [|done].
  destruct (getinfo_slist _ _ _) as [code l]. cbn.
  intros _ Hc. by rewrite (proj2 (Z.eqb_neq _ _) Hc).
Qed.

(** The shape of every answer of getInfo. On an open handle, for any
    info identifier that is not in the table of unsupported ones, getInfo
    neither throws nor stops: it returns the pair {code, data}, and data
    is undefined whenever code is not CURLE_OK. An identifier that no
    table knows is answered with CURLE_OK and undefined, without asking
    the engine. *)
Theorem getInfo_result_shape H E T obj infoVal :
  isOpen obj = true ->
  curlInfoNotImplemented T infoVal = 0 ->
  engineCodesValid E ->
  (exists code data,
     GetInfo H E T obj infoVal = Done (RetValue (infoObject code data)) /\
     (code <> CURLE_OK -> data = JSUndefined)) /\
  (curlInfoString T infoVal = 0 -> curlInfoDouble T infoVal = 0 ->
   curlInfoInteger T infoVal = 0 -> curlInfoSocket T infoVal = 0 ->
   curlInfoLinkedList T infoVal = 0 ->
   GetInfo H E T obj infoVal = Done (RetValue (infoObject CURLE_OK JSUndefined))).
Proof.
  intros Ho Hn Hv. unfold GetInfo, GetInfo_finish. rewrite Ho, Hn.
  cbn [negb Z.eqb]. split.
  - destruct (is_caught (GetInfo_dispatch E T obj infoVal)) as [e|] eqn:Hc.
    + destruct (GetInfo_dispatch_caught E T obj infoVal e Hv Hc) as (c & Hr & -> & Hu).
      destruct (message_digits H c) as [Hd Hval]; [lia|].
      rewrite caughtCode_digits by (rewrite Hval; lia).
      rewrite Hd, Hval, Hu. eauto.
    + eexists _, _. split; [reflexivity|]. by apply GetInfo_dispatch_failed.
  - intros H1 H2 H3 H4 H5. unfold GetInfo_dispatch.
    by rewrite H1, H2, H3, H4, H5.
Qed.

Lemma getInfo_result_shape_witness :
  (exists code data,
     GetInfo sampleHost rejectingEngine sampleTables (Easy_new rejectingEngine)
       (JSString "COOKIELIST") = Done (RetValue (infoObject code data)) /\
     (code <> CURLE_OK -> data = JSUndefined)) /\
  (curlInfoString sampleTables (JSString "COOKIELIST") = 0 ->
   curlInfoDouble sampleTables (JSString "COOKIELIST") = 0 ->
   curlInfoInteger sampleTables (JSString "COOKIELIST") = 0 ->
   curlInfoSocket sampleTables (JSString "COOKIELIST") = 0 ->
   curlInfoLinkedList sampleTables (JSString "COOKIELIST") = 0 ->
   GetInfo sampleHost rejectingEngine sampleTables (Easy_new rejectingEngine)
     (JSString "COOKIELIST") = Done (RetValue (infoObject CURLE_OK JSUndefined))).
Proof.
  apply (getInfo_result_shape sampleHost rejectingEngine sampleTables
           (Easy_new rejectingEngine) (JSString "COOKIELIST")).
  - reflexivity.
  - reflexivity.
  - intros h infoId. repeat split; by vm_compute.
Defined.

(** ** Closing a handle *)

Section Closing.
Context (L : Loop).

Lemma Dispose_unmonitored h n :
  isOpen (easy h) = true ->
  isMonitoringSockets h = false ->
  Dispose L h n =
  Done ({| easy := set_callbackError (set_isOpen (easy h) false) None;
           socketPollHandle := socketPollHandle h; isMonitoringSockets := false;
           cbOnSocketEvent := cbOnSocketEvent h; uv_log := uv_log h;
           cleanups := S (cleanups h) |},
        None, (n - 1) mod 2 ^ 32).
Proof.
  intros Ho Hm. unfold Dispose. rewrite Ho. cbn [negb isMonitoringSockets].
  rewrite Hm. unfold set_easy. cbn. by rewrite ?Hm.
Qed.

Lemma Dispose_monitored h n socket :
  isOpen (easy h) = true ->
  isMonitoringSockets h = true ->
  socketPollHandle h = Some socket ->
  exists h' pending,
    Dispose L h n = Done (h', pending, (n - 1) mod 2 ^ 32) /\
    isOpen (easy h') = false /\ callbackError (easy h') = None /\
    cleanups h' = S (cleanups h) /\
    socketPollHandle h' = Some socket /\
    (if uv_poll_stop L socket <? 0
     then pending = Some (JSError ("Failed to stop polling on socket. Reason: " +:+
                                   UV_ERROR_STRING L (uv_poll_stop L socket))) /\
          isMonitoringSockets h' = true /\
          uv_log h' = uv_log h ++ [PollStop socket]
     else pending = None /\ isMonitoringSockets h' = false /\
          uv_log h' = uv_log h ++ [PollStop socket; PollClose socket]).
Proof.
  intros Ho Hm Hs. unfold Dispose, UnmonitorSockets. rewrite Ho.
  cbn [negb isMonitoringSockets socketPollHandle]. rewrite Hm, Hs.
  destruct (uv_poll_stop L socket <? 0) eqn:Hstop; cbn;
    eexists _, _; (split; [reflexivity|]); cbn; by rewrite ?Hs.
Qed.
End Closing.

(** close(), once and again. A closed handle refuses close with
    "already closed" and a handle owned by a Multi refuses it too; both
    leave the handle and the count of open handles untouched. Otherwise,
    on a handle that is not monitoring its socket, close returns
    undefined, releases the engine handle (once), marks the handle
    closed, empties the deferred-error slot, leaves the loop alone and
    lowers the count of open handles by one; and a second close is then
    refused, so the engine handle is never released twice. *)
Theorem close_releases_once L h n :
  (isOpen (easy h) = false ->
   Close L h n = Done (Thrown (JSError "Curl handle already closed."), h, n)) /\
  (isOpen (easy h) = true -> isInsideMultiHandle (easy h) = true ->
   Close L h n =
   Done (Thrown (JSError
           "Curl handle is inside a Multi instance, you must remove it first."), h, n)) /\
  (isOpen (easy h) = true -> isInsideMultiHandle (easy h) = false ->
   isMonitoringSockets h = false ->
   exists h',
     Close L h n = Done (Ret JSUndefined, h', (n - 1) mod 2 ^ 32) /\
     isOpen (easy h') = false /\ callbackError (easy h') = None /\
     cleanups h' = S (cleanups h) /\ uv_log h' = uv_log h /\
     Close L h' ((n - 1) mod 2 ^ 32) =
       Done (Thrown (JSError "Curl handle already closed."), h', (n - 1) mod 2 ^ 32)).
Proof.
  repeat split.
  - intros Ho. unfold Close. by rewrite Ho.
  - intros Ho Hm. unfold Close. by rewrite Ho, Hm.
  - intros Ho Hm Hmon. unfold Close at 1. rewrite Ho, Hm. cbn [negb].
    rewrite Dispose_unmonitored by done. eexists. split; [reflexivity|].
    repeat split. 
Qed.

Lemma close_releases_once_witness :
  exists h',
    Close sampleLoop newHandle 1 = Done (Ret JSUndefined, h', (1 - 1) mod 2 ^ 32) /\
    isOpen (easy h') = false /\ callbackError (easy h') = None /\
    cleanups h' = S (cleanups newHandle) /\ uv_log h' = uv_log newHandle /\
    Close sampleLoop h' ((1 - 1) mod 2 ^ 32) =
      Done (Thrown (JSError "Curl handle already closed."), h', (1 - 1) mod 2 ^ 32).
Proof.
  apply (proj2 (proj2 (close_releases_once sampleLoop newHandle 1))); reflexivity.
Defined.

(** close() on a handle that is monitoring its socket. The handle is
    closed, the engine handle released and the count lowered whatever
    the loop answers. When the loop stops the poll handle, the poll
    handle is closed too and close returns undefined; when the loop
    refuses to stop it, close throws the loop's error, the poll handle is
    not closed and the handle still counts as monitoring. *)
Theorem close_while_monitoring L h n socket :
  isOpen (easy h) = true ->
  isInsideMultiHandle (easy h) = false ->
  isMonitoringSockets h = true ->
  socketPollHandle h = Some socket ->
  exists r h',
    Close L h n = Done (r, h', (n - 1) mod 2 ^ 32) /\
    isOpen (easy h') = false /\ callbackError (easy h') = None /\
    cleanups h' = S (cleanups h) /\
    (if uv_poll_stop L socket <? 0
     then r = Thrown (JSError ("Failed to stop polling on socket. Reason: " +:+
                               UV_ERROR_STRING L (uv_poll_stop L socket))) /\
          isMonitoringSockets h' = true /\
          uv_log h' = uv_log h ++ [PollStop socket]
     else r = Ret JSUndefined /\ isMonitoringSockets h' = false /\
          uv_log h' = uv_log h ++ [PollStop socket; PollClose socket]).
Proof.
  intros Ho Hm Hmon Hs. unfold Close. rewrite Ho, Hm. cbn [negb].
  destruct (Dispose_monitored L h n socket Ho Hmon Hs)
    as (h' & pending & -> & Hc & He & Hk & _ & Hif).
  eexists _, h'. split; [reflexivity|]. repeat split; try done.
  destruct (uv_poll_stop L socket <? 0); destruct Hif as (-> & ? & ?); done.
Qed.

Lemma close_while_monitoring_witness :
  exists r h',
    Close stuckLoop (snd (MonitorSocketEvents stuckLoop socketEngine newHandle)) 1 =
      Done (r, h', (1 - 1) mod 2 ^ 32) /\
    isOpen (easy h') = false /\ callbackError (easy h') = None /\
    cleanups h' =
      S (cleanups (snd (MonitorSocketEvents stuckLoop socketEngine newHandle))) /\
    (if uv_poll_stop stuckLoop 5 <? 0
     then r = Thrown (JSError ("Failed to stop polling on socket. Reason: " +:+
                               UV_ERROR_STRING stuckLoop (uv_poll_stop stuckLoop 5))) /\
          isMonitoringSockets h' = true /\
          uv_log h' =
            uv_log (snd (MonitorSocketEvents stuckLoop socketEngine newHandle)) ++
            [PollStop 5]
     else r = Ret JSUndefined /\ isMonitoringSockets h' = false /\
          uv_log h' =
            uv_log (snd (MonitorSocketEvents stuckLoop socketEngine newHandle)) ++
            [PollStop 5; PollClose 5]).
Proof.
  apply (close_while_monitoring stuckLoop
           (snd (MonitorSocketEvents stuckLoop socketEngine newHandle)) 1 5);
    reflexivity.
Defined.

(** ** The count of open handles *)

Lemma countOpen_app l1 l2 : countOpen (l1 ++ l2) = (countOpen l1 + countOpen l2)%nat.
Proof. unfold countOpen. by rewrite List.filter_app, length_app. Qed.

Lemma countOpen_insert l : forall i h h',
  l !! i = Some h ->
  (countOpen (<[i := h']> l) + (if isOpen (easy h) then 1 else 0) =
   countOpen l + (if isOpen (easy h') then 1 else 0))%nat.
Proof.
  induction l as [|x l IH]; intros i h h' Hi; [done|].
  destruct i as [|i].
  - cbn in Hi. inversion Hi; subst x. unfold countOpen.
    cbn [list_insert insert List.filter].
    destruct (isOpen (easy h)), (isOpen (easy h')); cbn [List.length];
      rewrite ?Nat.add_0_r, ?Nat.add_1_r; reflexivity.
  - cbn in Hi. specialize (IH i h h' Hi). unfold countOpen in *.
    cbn [list_insert insert List.filter].
    destruct (isOpen (easy x)); cbn [List.length]; [|exact IH].
    cbn [Nat.add]. f_equal. exact IH.
Qed.

Lemma pred_mod n : (0 < n)%nat ->
  (Z.of_nat n mod 2 ^ 32 - 1) mod 2 ^ 32 = Z.of_nat (n - 1) mod 2 ^ 32.
Proof.
  intros Hn. rewrite Zminus_mod_idemp_l. f_equal. lia.
Qed.

Lemma succ_mod n :
  (Z.of_nat n mod 2 ^ 32 + 1) mod 2 ^ 32 = Z.of_nat (n + 1) mod 2 ^ 32.
Proof. rewrite Zplus_mod_idemp_l. f_equal. lia. Qed.

Lemma pollInits_log h h' l :
  uv_log h' = uv_log h ++ l ->
  pollInits h' = (pollInits h + List.length (List.filter isPollInit l))%nat.
Proof. intros Hl. unfold pollInits. by rewrite Hl, List.filter_app, length_app. Qed.

Section OpenCount.
Context (L : Loop) (E : Engine).

Lemma MonitorSockets_keeps h :
  handleInv h ->
  easy (fst (MonitorSockets L E h)) = easy h /\
  handleInv (fst (MonitorSockets L E h)).
Proof.
  intros Hh. pose proof Hh as [Hm Hp]. unfold MonitorSockets.
  destruct (socketPollHandle h) eqn:Hs; [done|].
  destruct (getinfo_socket E _ _) as [retCurl socket].
  destruct (socket =? CURL_SOCKET_BAD); [done|].
  destruct (negb (retCurl =? CURLE_OK)); [done|].
  destruct (uv_poll_init_socket L socket <? 0); cbn [fst easy];
    (split; [done|]); (split; [cbn; eauto|]);
    erewrite pollInits_log by reflexivity; rewrite Hp; reflexivity.
Qed.

Lemma UnmonitorSockets_keeps h h' pending :
  handleInv h ->
  UnmonitorSockets L h = Done (h', pending) ->
  easy h' = easy h /\ handleInv h'.
Proof.
  intros [Hm Hp]. unfold UnmonitorSockets.
  destruct (socketPollHandle h) as [socket|] eqn:Hs; [|done].
  destruct (uv_poll_stop L socket <? 0); intros [= <- <-]; cbn [easy];
    (split; [done|]); (split; [cbn; rewrite ?Hs; eauto|]);
    erewrite pollInits_log by reflexivity; cbn; rewrite ?Hs, Hp; lia.
Qed.

Lemma Dispose_keeps h n h' pending n' :
  isOpen (easy h) = true ->
  handleInv h ->
  Dispose L h n = Done (h', pending, n') ->
  handleInv h' /\ isOpen (easy h') = false /\ n' = (n - 1) mod 2 ^ 32.
Proof.
  intros Ho [Hm Hp]. destruct (isMonitoringSockets h) eqn:Hmon.
  - destruct (Hm eq_refl) as [socket Hs].
    destruct (Dispose_monitored L h n socket Ho Hmon Hs)
      as (h2 & pending2 & -> & Hc & _ & _ & Hs' & Hlog).
    intros [= <- <- <-]. repeat split; [by rewrite Hs'; eauto| |done].
    rewrite Hs'. rewrite Hs in Hp.
    destruct (uv_poll_stop L socket <? 0);
      destruct Hlog as (_ & _ & Hl);
      erewrite pollInits_log by exact Hl; rewrite Hp; reflexivity.
  - rewrite Dispose_unmonitored by done. intros [= <- <- <-].
    repeat split; done.
Qed.

Lemma Dispose_returns h n :
  isOpen (easy h) = true ->
  handleInv h ->
  exists h' pending n', Dispose L h n = Done (h', pending, n').
Proof.
  intros Ho [Hm Hp]. destruct (isMonitoringSockets h) eqn:Hmon.
  - destruct (Hm eq_refl) as [socket Hs].
    destruct (Dispose_monitored L h n socket Ho Hmon Hs) as (h2 & pending2 & -> & _).
    eauto.
  - rewrite Dispose_unmonitored by done. eauto.
Qed.

Lemma worldStep_inv w op :
  worldInv w ->
  match worldStep L E w op with
  | Done w' =>
      worldInv w' /\
      (forall i h', handles w' !! i = Some h' -> isOpen (easy h') = false ->
         (exists h, handles w !! i = Some h /\ isOpen (easy h) = false) \/
         op = CloseHandle i)
  | Aborted _ =>
      (exists i, op = UnmonitorHandle i) \/
      (exists i h, op = MonitorHandle i /\ handles w !! i = Some h /\
                   isOpen (easy h) = false)
  end.
Proof.
  unfold worldInv, openCount. intros [Hmon Hcnt].
  destruct op as [|i|i|i]; cbn [worldStep].
  - unfold Easy_construct. split; [split|]; cbn [handles currentOpenedHandles].
    + apply Forall_app. split; [done|]. by repeat constructor.
    + rewrite countOpen_app, Hcnt. unfold countOpen at 2. cbn. apply succ_mod.
    + intros j h' Hj Hc. apply lookup_snoc_Some in Hj as [[_ Hj]|[_ <-]]; [eauto|done].
  - destruct (handles w !! i) as [h|] eqn:Hi; [|by split; [split|]; eauto].
    pose proof (Forall_lookup_1 _ _ _ _ Hmon Hi) as Hh.
    assert (forall h' n', handleInv h' ->
              n' = Z.of_nat (countOpen (<[i := h']> (handles w))) mod 2 ^ 32 ->
              (Forall handleInv (<[i := h']> (handles w)) /\
               n' = Z.of_nat (countOpen (<[i := h']> (handles w))) mod 2 ^ 32) /\
              (forall j h2, <[i := h']> (handles w) !! j = Some h2 ->
                 isOpen (easy h2) = false ->
                 (exists h0, handles w !! j = Some h0 /\ isOpen (easy h0) = false) \/
                 CloseHandle i = CloseHandle j)) as Hstep.
    { intros h' n' Hh' Hn. split; [split; [by apply Forall_insert|done]|].
      intros j h2 Hj Hc. destruct (decide (i = j)) as [->|Hne]; [by right|].
      rewrite list_lookup_insert_ne in Hj by done. eauto. }
    unfold Close. destruct (isOpen (easy h)) eqn:Ho; cbn [negb].
    + destruct (isInsideMultiHandle (easy h)).
      { cbn [handles currentOpenedHandles]. rewrite list_insert_id by done.
        split; [done|]. eauto. }
      destruct (Dispose_returns h (currentOpenedHandles w) Ho Hh)
        as (h' & pending & n' & Hd).
      rewrite Hd. destruct (Dispose_keeps _ _ _ _ _ Ho Hh Hd) as (Hh' & Hc & ->).
      cbn [handles currentOpenedHandles].
      pose proof (countOpen_insert (handles w) i h h' Hi) as Hk.
      apply Hstep; [done|].
      rewrite Ho, Hc in Hk. rewrite Hcnt, pred_mod by lia. f_equal. lia.
    + cbn [handles currentOpenedHandles]. rewrite list_insert_id by done.
      split; [done|]. eauto.
  - destruct (handles w !! i) as [h|] eqn:Hi; [|by split; [split|]; eauto].
    destruct (negb (isOpen (easy h)) && _) eqn:Hfreed.
    { right. exists i, h. apply andb_true_iff in Hfreed as [Hc _].
      apply negb_true_iff in Hc. done. }
    pose proof (Forall_lookup_1 _ _ _ _ Hmon Hi) as Hh.
    destruct (MonitorSockets_keeps h Hh) as [He Hk].
    unfold MonitorSocketEvents.
    destruct (MonitorSockets L E h) as [h' caught]. cbn [fst] in He, Hk.
    assert (snd (let '(h'0, caught0) := (h', caught) in
                 match caught0 with
                 | Some e => (Thrown e, h'0)
                 | None => (RetThis, h'0)
                 end) = h') as -> by (by destruct caught).
    split; [split|]; cbn [handles currentOpenedHandles].
    + by apply Forall_insert.
    + pose proof (countOpen_insert (handles w) i h h' Hi) as Hc.
      rewrite He in Hc. rewrite Hcnt. f_equal.
      destruct (isOpen (easy h)); lia.
    + intros j h2 Hj Hc. left. destruct (decide (i = j)) as [<-|Hne].
      * rewrite list_lookup_insert_eq in Hj by (by eapply lookup_lt_Some).
        inversion Hj; subst h2. exists h. by rewrite <- He.
      * rewrite list_lookup_insert_ne in Hj by done. eauto.
  - destruct (handles w !! i) as [h|] eqn:Hi; [|by split; [split|]; eauto].
    destruct (existsb isPollClose (uv_log h) || _); [by left; eauto|].
    pose proof (Forall_lookup_1 _ _ _ _ Hmon Hi) as Hh.
    unfold UnmonitorSocketEvents.
    destruct (UnmonitorSockets L h) as [[h' pending]|] eqn:Hu; [|by left; eauto].
    destruct (UnmonitorSockets_keeps h h' pending Hh Hu) as [He Hk].
    assert (match pending with
            | Some e => Done (Thrown e, h')
            | None => Done (RetThis, h')
            end = Done (match pending with Some e => Thrown e | None => RetThis end, h'))
      as -> by (by destruct pending).
    split; [split|]; cbn [handles currentOpenedHandles].
    + by apply Forall_insert.
    + pose proof (countOpen_insert (handles w) i h h' Hi) as Hc.
      rewrite He in Hc. rewrite Hcnt. f_equal.
      destruct (isOpen (easy h)); lia.
    + intros j h2 Hj Hc. left. destruct (decide (i = j)) as [<-|Hne].
      * rewrite list_lookup_insert_eq in Hj by (by eapply lookup_lt_Some).
        inversion Hj; subst h2. exists h. by rewrite <- He.
      * rewrite list_lookup_insert_ne in Hj by done. eauto.
Qed.

Lemma worldRun_inv ops : forall done w,
  worldInv w -> closedBy done w ->
  match worldRun L E w ops with
  | Done w' => worldInv w' /\ closedBy (done ++ ops) w'
  | Aborted _ =>
      exists i before after,
        ops = before ++ UnmonitorHandle i :: after \/
        ops = before ++ MonitorHandle i :: after /\ In (CloseHandle i) (done ++ before)
  end.
Proof.
  induction ops as [|op rest IH]; intros done w Hw Hcl.
  - cbn. by rewrite app_nil_r.
  - cbn [worldRun]. pose proof (worldStep_inv w op Hw) as Hs.
    destruct (worldStep L E w op) as [w'|why].
    + destruct Hs as [Hw' Hnew].
      assert (closedBy (done ++ [op]) w') as Hcl'.
      { intros i h' Hi Hc. apply List.in_or_app.
        destruct (Hnew i h' Hi Hc) as [(h & Hh & Hhc)| ->]; [left; eauto|].
        right. by left. }
      specialize (IH (done ++ [op]) w' Hw' Hcl').
      rewrite <- app_assoc in IH. cbn [app] in IH.
      destruct (worldRun L E w' rest); [done|].
      destruct IH as (i & before & after & [->|[-> Hin]]).
      * exists i, (op :: before), after. by left.
      * exists i, (op :: before), after. right. split; [done|].
        rewrite <- app_assoc in Hin. exact Hin.
    + destruct Hs as [[i ->]|(i & h & -> & Hi & Hc)].
      * exists i, [], rest. by left.
      * exists i, [], rest. right. split; [done|]. rewrite app_nil_r. eauto.
Qed.
End OpenCount.

Lemma worldInv_empty : worldInv World_empty.
Proof. by split; [constructor|]. Qed.

Lemma closedBy_empty : closedBy [] World_empty.
Proof. by intros i h Hi. Qed.


(** One poll handle per handle. Over any such series, for as long as
    the process runs, no handle ever initialises more than one poll
    handle on the loop: the pointer set by the first monitorSocketEvents
    that reaches uv_poll_init_socket is never reset, not by
    unmonitorSocketEvents and not by close, and a set pointer makes
    monitorSocketEvents throw before it reaches the loop. A handle that
    monitors its socket has its poll handle. *)
Theorem poll_handle_initialised_once L E ops :
  match worldRun L E World_empty ops with
  | Done w =>
      Forall (fun h => (pollInits h <= 1)%nat /\
                       (pollInits h = 1%nat <-> is_Some (socketPollHandle h)) /\
                       (isMonitoringSockets h = true -> pollInits h = 1%nat))
             (handles w)
  | Aborted _ => stopsAt ops
  end.
Proof.
  pose proof (worldRun_inv L E ops [] World_empty worldInv_empty closedBy_empty) as Hr.
  destruct (worldRun L E World_empty ops) as [w|why]; [|exact Hr].
  destruct Hr as [[Hall _] _]. eapply Forall_impl; [exact Hall|].
  intros h [Hm Hp]. cbv beta. rewrite Hp.
  destruct (socketPollHandle h) eqn:Hs.
  - repeat split; eauto.
  - repeat split; try lia; try done.
    intros Hmon. by destruct (Hm Hmon).
Qed.

(** Three handles constructed, the second closed twice: two are open. *)
Example two_of_three_open :
  match worldRun sampleLoop socketEngine World_empty
          [NewHandle; NewHandle; CloseHandle 1; NewHandle; CloseHandle 1;
           MonitorHandle 0] with
  | Done w => currentOpenedHandles w = 2 /\ openCount w = 2%nat
  | Aborted _ => False
  end.
Proof. by vm_compute. Qed.

(** A handle constructed, closed, then monitored: curl_easy_getinfo is
    reached with the engine handle that close released. *)
Example monitor_after_close_stops :
  worldRun sampleLoop socketEngine World_empty
    [NewHandle; CloseHandle 0; MonitorHandle 0] =
  Aborted "curl_easy_getinfo: handle released by curl_easy_cleanup".
Proof. by vm_compute. Qed.


(** Monitoring again. Once monitorSocketEvents has succeeded on a
    handle, the handle cannot be monitored a second time, not even
    after unmonitorSocketEvents has stopped and closed the poll handle:
    UnmonitorSockets leaves the pointer set, and MonitorSockets throws
    "Already monitoring sockets!" on a set pointer without looking at
    the loop or the engine. *)
Theorem remonitoring_refused L E h h1 h2 pending :
  MonitorSockets L E h = (h1, None) ->
  UnmonitorSockets L h1 = Done (h2, pending) ->
  isMonitoringSockets h1 = true /\
  (pending = None -> isMonitoringSockets h2 = false) /\
  MonitorSockets L E h2 = (h2, Some (JSError "Already monitoring sockets!")) /\
  uv_log (fst (MonitorSockets L E h2)) = uv_log h2.
Proof.
  intros Hm Hu.
  assert (isMonitoringSockets h1 = true /\ is_Some (socketPollHandle h1)) as [Hmon [s1 Hs1]].
  { unfold MonitorSockets in Hm. destruct (socketPollHandle h); [done|].
    destruct (getinfo_socket E _ _) as [retCurl socket].
    destruct (socket =? CURL_SOCKET_BAD); [done|].
    destruct (negb (retCurl =? CURLE_OK)); [done|].
    destruct (uv_poll_init_socket L socket <? 0); [done|].
    inversion Hm; subst h1. cbn. eauto. }
  assert (socketPollHandle h2 = Some s1 /\
          (pending = None -> isMonitoringSockets h2 = false)) as [Hs2 Hp].
  { unfold UnmonitorSockets in Hu. rewrite Hs1 in Hu.
    destruct (uv_poll_stop L s1 <? 0); inversion Hu; subst; cbn; split; done. }
  unfold MonitorSockets. rewrite Hs2. by repeat split.
Qed.

Lemma remonitoring_refused_witness :
  isMonitoringSockets monitoredHandle = true /\
  (@None JSValue = None -> isMonitoringSockets unmonitoredHandle = false) /\
  MonitorSockets sampleLoop socketEngine unmonitoredHandle =
    (unmonitoredHandle, Some (JSError "Already monitoring sockets!")) /\
  uv_log (fst (MonitorSockets sampleLoop socketEngine unmonitoredHandle)) =
    uv_log unmonitoredHandle.
Proof.
  apply (remonitoring_refused sampleLoop socketEngine newHandle
           monitoredHandle unmonitoredHandle None); reflexivity.
Defined.

(** ** Methods of a closed handle *)

Lemma Dispose_closed L h n h' pending n' :
  Dispose L h n = Done (h', pending, n') -> isOpen (easy h') = false.
Proof.
  unfold Dispose. destruct (negb (isOpen (easy h))); [done|].
  destruct (if isMonitoringSockets _ then _ else _) as [[h2 p]|]; [|done].
  by intros [= <- <- <-].
Qed.

(** After close. Once close() has gone through Dispose, whether it
    returned or threw the error of the loop, every method that reaches
    the engine refuses the handle: setOpt, getInfo, send, recv and
    perform throw "Curl handle is closed." before they look at their
    arguments, leave the handle and the string lists as they are and do
    not run the engine; a second close throws too. *)
Theorem close_then_methods_throw H E T L W P fuel h n r h' n' m opt value infoVal info :
  isOpen (easy h) = true ->
  isInsideMultiHandle (easy h) = false ->
  Close L h n = Done (r, h', n') ->
  SetOpt H E T (easy h') m opt value =
    throwFrom (easy h') m (JSError "Curl handle is closed.") /\
  GetInfo H E T (easy h') infoVal = Done (RetThrow (JSError "Curl handle is closed.")) /\
  Send W (easy h') info = RetThrow (JSError "Curl handle is closed.") /\
  Recv W (easy h') info = (RetThrow (JSError "Curl handle is closed."), None) /\
  Perform fuel P H (easy h') m =
    (Some (RetThrow (JSError "Curl handle is closed.")),
     {| run_trace := []; run_obj := easy h'; run_mem := m; run_code := None |}) /\
  Close L h' n' = Done (Thrown (JSError "Curl handle already closed."), h', n').
Proof.
  intros Ho Hm Hc. unfold Close in Hc. rewrite Ho, Hm in Hc. cbn [negb] in Hc.
  destruct (Dispose L h n) as [[[h2 pending] n2]|] eqn:Hd; [|done].
  apply Dispose_closed in Hd. inversion Hc; subst h2 n2. clear Hc.
  unfold SetOpt, GetInfo, Send, Recv, Perform, Close. rewrite Hd. by repeat split.
Qed.

Lemma close_then_methods_throw_witness :
  SetOpt sampleHost acceptingEngine sampleTables (easy closedHandle) Memory_empty
      (JSString "URL") (JSString "http://example.org") =
    throwFrom (easy closedHandle) Memory_empty (JSError "Curl handle is closed.") /\
  GetInfo sampleHost acceptingEngine sampleTables (easy closedHandle) (JSString "EFFECTIVE_URL") =
    Done (RetThrow (JSError "Curl handle is closed.")) /\
  Send sampleWire (easy closedHandle) [JSBuffer [104; 105]] =
    RetThrow (JSError "Curl handle is closed.") /\
  Recv sampleWire (easy closedHandle) [JSBuffer [104; 105]] =
    (RetThrow (JSError "Curl handle is closed."), None) /\
  Perform 5 samplePerformer sampleHost (easy closedHandle) Memory_empty =
    (Some (RetThrow (JSError "Curl handle is closed.")),
     {| run_trace := []; run_obj := easy closedHandle; run_mem := Memory_empty;
        run_code := None |}) /\
  Close sampleLoop closedHandle 0 =
    Done (Thrown (JSError "Curl handle already closed."), closedHandle, 0).
Proof.
  apply (close_then_methods_throw sampleHost acceptingEngine sampleTables sampleLoop
           sampleWire samplePerformer 5 newHandle 1 (Ret JSUndefined) closedHandle 0);
    reflexivity.
Defined.

(** ** The listener of socket events *)

(** onSocketEvent and the readiness notifications. A function given to
    onSocketEvent is what the next notification runs, once, with two
    arguments: null, or an Error made of the loop's text when the status
    is negative, and the events. What the listener returns is not looked
    at; what it raises is left pending. null removes the listener, and a
    notification then runs nothing. A call with no argument, or with a
    value that is neither null nor a function, throws and leaves the
    listener that was there. *)
Theorem socket_listener_round_trip H L h cb status events v rest :
  IsNull v = false ->
  IsFunction v = false ->
  CallSocketEvent H L (snd (OnSocketEvent h (JSFunction cb :: rest))) status events =
    ([(cb, [if status <? 0 then JSError (UV_ERROR_STRING L status) else JSNull;
            JSInt events])],
     match invoke H cb [if status <? 0 then JSError (UV_ERROR_STRING L status) else JSNull;
                        JSInt events] with
     | Throws e => Some e
     | Returns _ => None
     end) /\
  CallSocketEvent H L
    (snd (OnSocketEvent (snd (OnSocketEvent h (JSFunction cb :: rest))) (JSNull :: rest)))
    status events = ([], None) /\
  OnSocketEvent h (v :: rest) = (Thrown (JSTypeError "Invalid callback given."), h) /\
  OnSocketEvent h [] = (Thrown (JSError "You must specify the callback function."), h) /\
  easy (snd (OnSocketEvent h (JSFunction cb :: rest))) = easy h.
Proof.
  intros Hn Hf. repeat split.
  by destruct v.
Qed.

Lemma socket_listener_round_trip_witness :
  CallSocketEvent sampleHost sampleLoop
      (snd (OnSocketEvent newHandle (JSFunction 2 :: []))) (-4) 1 =
    ([(2%nat, [if -4 <? 0 then JSError (UV_ERROR_STRING sampleLoop (-4)) else JSNull;
               JSInt 1])],
     match invoke sampleHost 2
             [if -4 <? 0 then JSError (UV_ERROR_STRING sampleLoop (-4)) else JSNull;
              JSInt 1] with
     | Throws e => Some e
     | Returns _ => None
     end) /\
  CallSocketEvent sampleHost sampleLoop
    (snd (OnSocketEvent (snd (OnSocketEvent newHandle (JSFunction 2 :: []))) (JSNull :: [])))
    (-4) 1 = ([], None) /\
  OnSocketEvent newHandle (JSString "listener" :: []) =
    (Thrown (JSTypeError "Invalid callback given."), newHandle) /\
  OnSocketEvent newHandle [] =
    (Thrown (JSError "You must specify the callback function."), newHandle) /\
  easy (snd (OnSocketEvent newHandle (JSFunction 2 :: []))) = easy newHandle.
Proof.
  apply (socket_listener_round_trip sampleHost sampleLoop newHandle 2 (-4) 1
           (JSString "listener") []); reflexivity.
Defined.

(** ** Raw send and receive *)

Lemma int32_of_range z : IsInt32 (JSInt (int32_of z)) = true.
Proof.
  unfold IsInt32, JSInt, int32_of, INT32_MIN, INT32_MAX.
  pose proof (Z.mod_pos_bound (z + 2 ^ 31) (2 ^ 32) ltac:(lia)).
  apply andb_true_iff. split; apply Z.leb_le; lia.
Qed.

(** send and recv. Each reaches the engine, and returns, exactly when
    the handle is open and its first argument is a Buffer; in every
    other case it throws. What it returns is the engine's answer: an
    object of two members, the status of curl_easy_send (curl_easy_recv)
    on the bytes of the Buffer (on its length) and the count of bytes
    sent (received), both cut to 32-bit signed integers; recv writes
    what the engine received at the start of the Buffer and leaves the
    rest of it as it was. *)
Theorem send_recv_guards W obj info :
  ((exists v, Send W obj info = RetValue v) <->
   isOpen obj = true /\ exists b rest, info = JSBuffer b :: rest) /\
  ((exists v, fst (Recv W obj info) = RetValue v) <->
   isOpen obj = true /\ exists b rest, info = JSBuffer b :: rest) /\
  (forall b rest,
     isOpen obj = true ->
     info = JSBuffer b :: rest ->
     Send W obj info =
       RetValue (JSObject
         [("code", JSInt (int32_of (fst (curl_easy_send W (ch obj) b))));
          ("bytesSent", JSInt (int32_of (snd (curl_easy_send W (ch obj) b))))]) /\
     Recv W obj info =
       (RetValue (JSObject
          [("code",
            JSInt (int32_of (fst (curl_easy_recv W (ch obj) (Z.of_nat (List.length b))))));
           ("bytesReceived",
            JSInt (int32_of (Z.of_nat (List.length
                     (snd (curl_easy_recv W (ch obj) (Z.of_nat (List.length b))))))))]),
        Some (snd (curl_easy_recv W (ch obj) (Z.of_nat (List.length b))) ++
              drop (List.length (snd (curl_easy_recv W (ch obj) (Z.of_nat (List.length b)))))
                   b))) /\
  (forall z, IsInt32 (JSInt (int32_of z)) = true /\
             (IsInt32 (JSInt z) = true -> int32_of z = z)).
Proof.
  unfold Send, Recv. split; [|split; [|split]].
  - split.
    + intros [v Hv]. destruct (isOpen obj); [|done].
      destruct info as [|[] rest]; try done. eauto.
    + intros [Ho (b & rest & ->)]. rewrite Ho. cbn [negb].
      destruct (curl_easy_send W (ch obj) b). eauto.
  - split.
    + intros [v Hv]. destruct (isOpen obj); [|done].
      destruct info as [|[] rest]; try done. eauto.
    + intros [Ho (b & rest & ->)]. rewrite Ho. cbn [negb].
      destruct (curl_easy_recv W (ch obj) _). cbn [fst]. eauto.
  - intros b rest Ho ->. rewrite Ho. cbn [negb].
    destruct (curl_easy_send W (ch obj) b) as [curlRet n].
    destruct (curl_easy_recv W (ch obj) _) as [curlRet' received]. done.
  - intros z. split; [apply int32_of_range|apply int32_in_range].
Qed.

Lemma send_recv_guards_witness :
  Send sampleWire newSampleEasy [JSBuffer [104; 105]] =
    RetValue (JSObject
      [("code", JSInt (int32_of (fst (curl_easy_send sampleWire (ch newSampleEasy)
                                        [104; 105]))));
       ("bytesSent", JSInt (int32_of (snd (curl_easy_send sampleWire (ch newSampleEasy)
                                             [104; 105]))))]) /\
  Recv sampleWire newSampleEasy [JSBuffer [104; 105]] =
    (RetValue (JSObject
       [("code",
         JSInt (int32_of (fst (curl_easy_recv sampleWire (ch newSampleEasy)
                                 (Z.of_nat (List.length [104; 105]))))));
        ("bytesReceived",
         JSInt (int32_of (Z.of_nat (List.length
                  (snd (curl_easy_recv sampleWire (ch newSampleEasy)
                          (Z.of_nat (List.length [104; 105]))))))))]),
     Some (snd (curl_easy_recv sampleWire (ch newSampleEasy)
                  (Z.of_nat (List.length [104; 105]))) ++
           drop (List.length (snd (curl_easy_recv sampleWire (ch newSampleEasy)
                                     (Z.of_nat (List.length [104; 105])))))
                [104; 105])).
Proof.
  apply (proj1 (proj2 (proj2 (send_recv_guards sampleWire newSampleEasy
                                [JSBuffer [104; 105]])))
           [104; 105] []); reflexivity.
Defined.

(** The sample wire: two bytes sent, and two bytes received into a
    Buffer of three, whose last byte stays. *)
Example send_recv_sample :
  Send sampleWire newSampleEasy [JSBuffer [104; 105]] =
    RetValue (JSObject [("code", JSInt 0); ("bytesSent", JSInt 2)]) /\
  Recv sampleWire newSampleEasy [JSBuffer [1; 2; 3]] =
    (RetValue (JSObject [("code", JSInt 0); ("bytesReceived", JSInt 2)]),
     Some [111; 107; 3]).
Proof. split; by vm_compute. Qed.

(** ** perform *)

Section PerformRuns.
Context (H : Host).

Lemma curl_easy_perform_latched P fuel : forall obj m issued,
  isCbProgressAlreadyAborted obj = true ->
  isCbProgressAlreadyAborted (run_obj (curl_easy_perform fuel P H obj m issued)) = true /\
  Forall (fun x => isCbProgressAlreadyAborted (fst (fst x)) = true /\
                   (isProgressCall (snd (fst x)) = true ->
                    snd x = latchedResult (fst (fst x))))
         (run_trace (curl_easy_perform fuel P H obj m issued)).
Proof.
  induction fuel as [|fuel IH]; intros obj m issued Hf; cbn [curl_easy_perform].
  - split; [done|constructor].
  - destruct (next_call P issued) as [c|code]; [|split; [done|constructor]].
    destruct (engineCall H obj m c) as [[r m']|] eqn:Hr; [|split; [done|constructor]].
    pose proof (engineCall_keeps_latch H _ _ _ _ _ Hf Hr) as Hk.
    destruct (IH (cb_obj r) m' (issued ++ [(c, cb_ret r)]) Hk) as [Ho Ht].
    cbn [run_obj run_trace]. split; [done|]. constructor; [|done].
    split; [done|]. intros Hc. rewrite engineCall_latched in Hr by done.
    by inversion Hr.
Qed.

End PerformRuns.

(** perform on an aborted handle. perform does not clear the abort
    flag: on a handle whose flag is set (a progress callable asked for
    an abort during an earlier transfer), every progress and xferinfo
    call of the new transfer hands the engine 1 without entering the
    host, and the flag is still set when perform ends. *)
Theorem perform_keeps_latch fuel P H obj m :
  isCbProgressAlreadyAborted obj = true ->
  isCbProgressAlreadyAborted (run_obj (snd (Perform fuel P H obj m))) = true /\
  Forall (fun x => isCbProgressAlreadyAborted (fst (fst x)) = true /\
                   (isProgressCall (snd (fst x)) = true ->
                    snd x = latchedResult (fst (fst x))))
         (run_trace (snd (Perform fuel P H obj m))).
Proof.
  intros Hf. unfold Perform. destruct (negb (isOpen obj)); cbn [snd run_obj run_trace].
  - split; [done|constructor].
  - by apply curl_easy_perform_latched.
Qed.

Lemma perform_keeps_latch_witness :
  isCbProgressAlreadyAborted
    (run_obj (snd (Perform 5 samplePerformer sampleHost latchedHandle Memory_empty))) = true /\
  Forall (fun x => isCbProgressAlreadyAborted (fst (fst x)) = true /\
                   (isProgressCall (snd (fst x)) = true ->
                    snd x = latchedResult (fst (fst x))))
         (run_trace (snd (Perform 5 samplePerformer sampleHost latchedHandle Memory_empty))).
Proof. apply (perform_keeps_latch 5 samplePerformer sampleHost latchedHandle). reflexivity. Defined.

(** The sample engine on the latched handle: three callbacks, the two
    progress ones answered 1, and perform returns the status 0. *)
Example perform_on_latched_handle :
  fst (Perform 5 samplePerformer sampleHost latchedHandle Memory_empty) =
    Some (RetValue (JSInt 0)) /\
  map (fun x => cb_ret (snd x))
      (run_trace (snd (Perform 5 samplePerformer sampleHost latchedHandle Memory_empty))) =
    [1; 2; 1].
Proof. by vm_compute. Qed.
